(** * The tool-routing control loop of the research assistant

    A shallow embedding of [backend/graph_functions.py], [backend/state.py],
    [backend/research_graph.py] and the [/research] endpoint of
    [backend/main.py], then of the backends behind the loop
    ([backend/agents/snowflake_agent.py], [backend/agents/web_search_agent.py]
    with [backend/llm_service.py], [backend/pinecone_db.py] with
    [backend/markdown_chunking.py]), of the key handling of
    [backend/s3_utils.py] and [backend/nvidia_pipeline.py] and of the
    submission and the drawing of results in [frontend/app.py], followed by
    the properties proved about them.

    Conventions.
    - A Python [str] is a Rocq [string]; the character classes of Python
      ([str.strip], [str.lower], the regex classes [.] and [\s]) are the ones
      Python uses on ASCII text.  Pictographs of the source's literals are
      kept as their UTF-8 bytes.
    - A call that may raise returns an [outcome]; [str(e)] of the exception
      is the message carried by [Raise].
    - Everything outside the repository's control (the language model, the
      three backends, the per-process string hash that fixes the iteration
      order of a [set]) is a field of a [World]; theorems quantify over it.
      What a backend of the repository asks of the outside in turn is a
      field of its [Env]; [with_snowflake_agent], [with_web_agent] and
      [with_pinecone_db] put the backend of the repository into a [World].
    - [print] calls are not modelled. *)

From Stdlib Require Import String Ascii List Bool Arith Lia DecimalString NArith Sorted DecimalNat.
Import ListNotations.
Open Scope string_scope.

(* ================================================================== *)
(** * Python strings *)

Module PyStr.

Definition nl : ascii := "010"%char.

(** [str.isspace] on ASCII: TAB..CR, FS..US and the space. *)
Definition is_space (c : ascii) : bool :=
  let n := nat_of_ascii c in
  (((9 <=? n) && (n <=? 13)) || ((28 <=? n) && (n <=? 32)))%nat.

Definition lower_char (c : ascii) : ascii :=
  let n := nat_of_ascii c in
  if ((65 <=? n) && (n <=? 90))%nat then ascii_of_nat (n + 32) else c.

(** [s.lower()] *)
Fixpoint lower (s : string) : string :=
  match s with
  | EmptyString => EmptyString
  | String c s' => String (lower_char c) (lower s')
  end.

Fixpoint lstrip (s : string) : string :=
  match s with
  | EmptyString => EmptyString
  | String c s' => if is_space c then lstrip s' else s
  end.

Fixpoint rstrip (s : string) : string :=
  match s with
  | EmptyString => EmptyString
  | String c s' =>
      match rstrip s' with
      | EmptyString => if is_space c then EmptyString else String c EmptyString
      | r => String c r
      end
  end.

(** [s.strip()] *)
Definition strip (s : string) : string := lstrip (rstrip s).

(** [s.startswith(p)] *)
Fixpoint startswith (p s : string) : bool :=
  match p, s with
  | EmptyString, _ => true
  | String a p', String b s' => Ascii.eqb a b && startswith p' s'
  | String _ _, EmptyString => false
  end.

(** [needle in s] *)
Fixpoint contains (needle s : string) : bool :=
  startswith needle s
  || match s with
     | EmptyString => false
     | String _ s' => contains needle s'
     end.

(** [s.split(sep)] for a non-empty [sep]: the pieces between the
    left-to-right, non-overlapping occurrences of [sep].  [skip] counts the
    characters of an occurrence still to be dropped. *)
Fixpoint split_from (sep s : string) (skip : nat) : list string :=
  match s with
  | EmptyString => [EmptyString]
  | String c s' =>
      match skip with
      | S k => split_from sep s' k
      | O =>
          if startswith sep s
          then EmptyString :: split_from sep s' (String.length sep - 1)
          else match split_from sep s' 0 with
               | p :: ps => String c p :: ps
               | [] => [String c EmptyString]
               end
      end
  end.

Definition split (sep s : string) : list string := split_from sep s 0.

(** [sep.join(l)] *)
Definition join (sep : string) (l : list string) : string := String.concat sep l.

(** [str(n)] for a natural number. *)
Definition of_nat (n : nat) : string := NilEmpty.string_of_uint (Nat.to_uint n).

(** Truthiness of a string. *)
Definition truthy (s : string) : bool :=
  match s with EmptyString => false | _ => true end.

End PyStr.

(* ================================================================== *)
(** * The regular expressions of [generate_final_answer]

    A backtracking matcher with the priorities of Python's [re]: a pattern is
    a sequence of items, a lazy star tries the rest of the pattern before it
    takes one more character, a greedy plus takes as many as it can and gives
    them back one at a time, and groups are not nested, so they close in
    the order they open. *)

Module Re.

Inductive item : Type :=
| Lit (c : ascii)                     (* one literal character *)
| OptLit (c : ascii)                  (* [c?] *)
| LazyStar (p : ascii -> bool)        (* [X*?], X a one-character class *)
| GreedyPlus (p : ascii -> bool)      (* [X+] *)
| GOpen                               (* [(] *)
| GClose.                             (* [)] *)

Definition pattern := list item.

(** The literal characters of [w], one after the other. *)
Fixpoint lits (w : string) : pattern :=
  match w with
  | EmptyString => []
  | String c w' => Lit c :: lits w'
  end.

(** The groups of a match in order, and the text left after it. *)
Definition result : Type := list string * string.

(** [X*?] followed by [k]: try [k] first, then one more character. *)
Fixpoint lazy_star (p : ascii -> bool) (k : string -> option result)
  (s : string) : option result :=
  match k s with
  | Some r => Some r
  | None =>
      match s with
      | String x s' => if p x then lazy_star p k s' else None
      | EmptyString => None
      end
  end.

(** [X*] followed by [k]: take as many characters as there are, and give
    them back one at a time while [k] fails. *)
Fixpoint greedy_star (p : ascii -> bool) (k : string -> option result)
  (s : string) : option result :=
  match s with
  | String x s' =>
      if p x
      then match greedy_star p k s' with
           | Some r => Some r
           | None => k s
           end
      else k s
  | EmptyString => k s
  end.

(** [rmatch pat s opens caps]: match [pat] at the start of [s].  [opens]
    holds the text at which each open group started, [caps] the closed
    groups (most recent first). *)
Fixpoint rmatch (pat : pattern) (s : string) (opens caps : list string)
  {struct pat} : option result :=
  match pat with
  | [] => Some (rev caps, s)
  | Lit c :: k =>
      match s with
      | String x s' => if Ascii.eqb x c then rmatch k s' opens caps else None
      | EmptyString => None
      end
  | OptLit c :: k =>
      match s with
      | String x s' =>
          if Ascii.eqb x c
          then match rmatch k s' opens caps with
               | Some r => Some r
               | None => rmatch k s opens caps
               end
          else rmatch k s opens caps
      | EmptyString => rmatch k s opens caps
      end
  | LazyStar p :: k => lazy_star p (fun s' => rmatch k s' opens caps) s
  | GreedyPlus p :: k =>
      match s with
      | String x s' =>
          if p x then greedy_star p (fun s'' => rmatch k s'' opens caps) s'
          else None
      | EmptyString => None
      end
  | GOpen :: k => rmatch k s (s :: opens) caps
  | GClose :: k =>
      match opens with
      | g :: os =>
          rmatch k s os
            (String.substring 0 (String.length g - String.length s) g :: caps)
      | [] => None
      end
  end.

(** [re.findall(pat, s)] for a pattern that matches no empty text: scan
    left to right, and after a match resume where it ended.  [skip] counts
    the characters of the last match still to be passed over. *)
Fixpoint findall_from (pat : pattern) (s : string) (skip : nat)
  : list (list string) :=
  match s with
  | EmptyString => []
  | String _ s' =>
      match skip with
      | S k => findall_from pat s' k
      | O =>
          match rmatch pat s [] [] with
          | Some (caps, rest) =>
              caps :: findall_from pat s'
                        (String.length s - String.length rest - 1)
          | None => findall_from pat s' 0
          end
      end
  end.

Definition findall (pat : pattern) (s : string) : list (list string) :=
  findall_from pat s 0.

(** [.] : any character but the newline. *)
Definition dot (c : ascii) : bool := negb (Ascii.eqb c PyStr.nl).

(** [[^\s\)]] *)
Definition url_char (c : ascii) : bool :=
  negb (PyStr.is_space c) && negb (Ascii.eqb c ")"%char).

(** [r'\[(.*?)\]\((https?://[^\s\)]+)\)'] *)
Definition link_re : pattern :=
  (lits "[" ++ [GOpen; LazyStar dot; GClose] ++ lits "](" ++
   [GOpen] ++ lits "http" ++ [OptLit "s"%char] ++ lits "://"
   ++ [GreedyPlus url_char; GClose] ++ lits ")")%list.

(** [r'!\[(.*?)\]\((.*?)\)\n\n\*(.*?)\*'] *)
Definition viz_re : pattern :=
  (lits "![" ++ [GOpen; LazyStar dot; GClose] ++ lits "](" ++
   [GOpen; LazyStar dot; GClose]
   ++ lits (")" ++ String PyStr.nl (String PyStr.nl "*")) ++
   [GOpen; LazyStar dot; GClose] ++ lits "*")%list.

End Re.


(* ================================================================== *)
(** * Data model ([state.py]) *)

(** [Dict[str, List[str]]]: years to quarters, in insertion order. *)
Definition YearQuarterDict := list (string * list string).

(** The [tool_input] dictionaries the nodes build: the oracle's has both
    keys, the finalizer's only ["query"]. *)
Record ToolInput : Type := mkToolInput {
  ti_query : option string;
  ti_metadata_filters : option YearQuarterDict
}.

(** [tool_input.get("query", "")] and [tool_input.get("metadata_filters", {})] *)
Definition get_query (ti : ToolInput) : string :=
  match ti_query ti with Some q => q | None => "" end.

Definition get_metadata_filters (ti : ToolInput) : YearQuarterDict :=
  match ti_metadata_filters ti with Some f => f | None => [] end.

(** [class AgentAction] *)
Record AgentAction : Type := mkAgentAction {
  tool : string;
  tool_input : ToolInput;
  log : string
}.

(** [class ResearchState(TypedDict)], with the ["output"] key the finalizer
    adds. *)
Record ResearchState : Type := mkResearchState {
  input : string;
  chat_history : list string;
  intermediate_steps : list AgentAction;
  metadata_filters : YearQuarterDict;
  mode : string;
  output : option string
}.

Definition set_steps (st : ResearchState) (steps : list AgentAction)
  : ResearchState :=
  mkResearchState (input st) (chat_history st) steps (metadata_filters st)
    (mode st) (output st).

Definition set_output (st : ResearchState) (o : string) : ResearchState :=
  mkResearchState (input st) (chat_history st) (intermediate_steps st)
    (metadata_filters st) (mode st) (Some o).

(* ================================================================== *)
(** * The world outside the loop *)

Inductive outcome (A : Type) : Type :=
| Ret (a : A)
| Raise (msg : string).
Arguments Ret {A} a.
Arguments Raise {A} msg.

(** The prompts sent to the model, by template and by the values put in its
    slots (the fixed text of a template is not spelled out). *)
Inductive Prompt : Type :=
| OraclePrompt (input : string)
| NextToolPrompt (input : string) (used_tools unused_tools : list string)
| SnowflakePrompt (query snowflake_result : string)
| WebSearchPrompt (query web_result : string)
| CombinedPrompt (query snowflake_result rag_result web_result : string)
| PineconePrompt (query rag_result : string)
| FallbackPrompt (query snowflake_result rag_result web_result : string).

(** One item of [raw_results["news"]] or [raw_results["trends"]]. *)
Record SearchItem : Type := mkSearchItem {
  item_title : string;
  item_link : string;
  item_snippet : string;
  item_source : string;
  item_date : string
}.

(** The dictionary [WebSearchAgent.run] returns. *)
Inductive WebRun : Type :=
| WebError (error : string)
| WebSuccess (news trends : list SearchItem) (insights : string).

(** One chart of [generate_snowflake_insights]. *)
Record Visualization : Type := mkVisualization {
  viz_title : string;
  viz_url : string;
  viz_columns : list string
}.

Record SnowflakeInsights : Type := mkSnowflakeInsights {
  summary : string;
  visualizations : list Visualization
}.

Record World : Type := mkWorld {
  (** [llm.invoke(prompt).content] of the n-th call (n counts from 0). *)
  llm_invoke : nat -> Prompt -> string;
  (** The process's string hash: a [set] of strings iterates by it. *)
  str_hash : string -> nat;
  (** [AgenticResearchAssistant()]: the constructor talks to Pinecone. *)
  pinecone_init : outcome unit;
  (** [search_pinecone_db(query, year_quarter_dict, top_k)] *)
  search_pinecone_db : string -> YearQuarterDict -> nat -> outcome string;
  (** [WebSearchAgent().run(query)] *)
  web_agent_run : string -> outcome WebRun;
  (** [generate_snowflake_insights(query, metadata_filters)] *)
  generate_snowflake_insights :
    string -> YearQuarterDict -> outcome SnowflakeInsights
}.

(* ================================================================== *)
(** * Python sets of strings

    A set is kept as a duplicate-free list; iterating it follows the string
    hash of the process. *)

Module PySet.

Definition mem (x : string) (s : list string) : bool :=
  existsb (String.eqb x) s.

(** [{x for x in l if x in universe}] *)
Definition restrict (universe l : list string) : list string :=
  filter (fun t => mem t l) universe.

(** [a - b] *)
Definition diff (a b : list string) : list string :=
  filter (fun t => negb (mem t b)) a.

Fixpoint insert_by (h : string -> nat) (x : string) (l : list string)
  : list string :=
  match l with
  | [] => [x]
  | y :: l' => if (h x <=? h y)%nat then x :: l else y :: insert_by h x l'
  end.

(** [list(s)]: the elements in iteration order. *)
Definition to_list (h : string -> nat) (s : list string) : list string :=
  fold_right (insert_by h) [] s.

(** [next(iter(s))]; [StopIteration] on the empty set. *)
Definition first (h : string -> nat) (s : list string) : outcome string :=
  match to_list h s with
  | x :: _ => Ret x
  | [] => Raise "StopIteration"
  end.

End PySet.

(* ================================================================== *)
(** * The nodes ([graph_functions.py]) *)

Definition NL : string := String PyStr.nl EmptyString.

(** [state["intermediate_steps"] + [action]] *)
Definition append_step (st : ResearchState) (a : AgentAction) : ResearchState :=
  set_steps st (intermediate_steps st ++ [a]).

(** [state["intermediate_steps"][-1]]; [IndexError] on the empty list. *)
Definition last_step (st : ResearchState) : outcome AgentAction :=
  match rev (intermediate_steps st) with
  | a :: _ => Ret a
  | [] => Raise "IndexError: list index out of range"
  end.

(** ** [run_oracle] *)

Definition all_tools : list string := ["web_search"; "pinecone"; "snowflake"].

(** Lines 103-111: the substring checks on the chosen tool. *)
Definition normalize_tool (chosen_tool : string) : string :=
  if PyStr.contains "pinecone" chosen_tool then "pinecone"
  else if PyStr.contains "web" chosen_tool then "web_search"
  else if PyStr.contains "snow" chosen_tool then "snowflake"
  else "final_answer".

(** Lines 25-101: the tool chosen before normalization, and the number of
    model calls made so far.  A mode outside the four leaves [chosen_tool]
    unbound. *)
Definition choose_tool (W : World) (calls : nat) (st : ResearchState)
  : outcome (string * nat) :=
  let used_tools := map tool (intermediate_steps st) in
  if PySet.mem (mode st) ["pinecone"; "web_search"; "snowflake"] then
    match used_tools with
    | [] => Ret (mode st, calls)
    | _ :: _ => Ret ("final_answer", calls)
    end
  else if (mode st =? "combined")%string then
    let used_real_tools := PySet.restrict all_tools used_tools in
    match used_tools with
    | [] =>
        Ret (PyStr.lower (PyStr.strip
               (llm_invoke W calls (OraclePrompt (input st)))), S calls)
    | _ :: _ =>
        if (List.length used_real_tools <? 3)%nat then
          let unused_tools := PySet.diff all_tools used_real_tools in
          let chosen_tool :=
            PyStr.lower (PyStr.strip
              (llm_invoke W calls
                 (NextToolPrompt (input st)
                    (PySet.to_list (str_hash W) used_real_tools)
                    (PySet.to_list (str_hash W) unused_tools)))) in
          if negb (PySet.mem chosen_tool unused_tools) then
            match PySet.first (str_hash W) unused_tools with
            | Ret t => Ret (t, S calls)
            | Raise e => Raise e
            end
          else Ret (chosen_tool, S calls)
        else Ret ("final_answer", calls)
    end
  else Raise "UnboundLocalError: chosen_tool".

Definition run_oracle (W : World) (calls : nat) (st : ResearchState)
  : outcome (ResearchState * nat) :=
  match choose_tool W calls st with
  | Raise e => Raise e
  | Ret (chosen_tool, calls') =>
      let chosen_tool := normalize_tool chosen_tool in
      let action :=
        mkAgentAction chosen_tool
          (mkToolInput (Some (input st)) (Some (metadata_filters st)))
          ("Selected " ++ chosen_tool ++ " based on mode: " ++ mode st) in
      Ret (append_step st action, calls')
  end.

(** ** [router] *)

(** What [state["intermediate_steps"]] may hold when [router] looks at it. *)
Inductive StepsValue : Type :=
| StepsList (steps : list AgentAction)
| NotAList.

(** [tool_to_node.get(latest_tool)] *)
Definition tool_to_node (latest_tool : string) : option string :=
  if (latest_tool =? "pinecone")%string then Some "rag_search"
  else if (latest_tool =? "web_search")%string then Some "web_search"
  else if (latest_tool =? "snowflake")%string then Some "snowflake_search"
  else if (latest_tool =? "final_answer")%string then Some "final_answer"
  else None.

(** [router] reads only [state["intermediate_steps"]]; [None] is Python's. *)
Definition router (steps : StepsValue) : option string :=
  match steps with
  | StepsList l =>
      match rev l with
      | latest :: _ => tool_to_node (tool latest)
      | [] => Some "final_answer"
      end
  | NotAList => Some "final_answer"
  end.

(** ** [rag_search] *)

Definition rag_search (W : World) (calls : nat) (st : ResearchState)
  : outcome (ResearchState * nat) :=
  match last_step st with
  | Raise e => Raise e
  | Ret latest =>
      let tool_input := tool_input latest in
      let query := get_query tool_input in
      let metadata_filters := get_metadata_filters tool_input in
      match pinecone_init W with
      | Raise e => Raise e
      | Ret _ =>
          let result :=
            match search_pinecone_db W query metadata_filters 20 with
            | Ret r => r
            | Raise e => "Error searching Pinecone: " ++ e
            end in
          Ret (append_step st
                 (mkAgentAction "rag_search_result" tool_input result), calls)
      end
  end.

(** ** [web_search] *)

(** The two [for i, item in enumerate(..., 1)] loops; [second] builds the
    middle line of an entry. *)
Fixpoint format_items (second : SearchItem -> string) (i : nat)
  (items : list SearchItem) : string :=
  match items with
  | [] => ""
  | item :: rest =>
      "**" ++ PyStr.of_nat i ++ ". [" ++ item_title item ++ "]("
        ++ item_link item ++ ")**" ++ NL
      ++ second item
      ++ format_items second (S i) rest
  end.

Definition news_lines (item : SearchItem) : string :=
  "📅 " ++ item_date item ++ " | 🔗 [" ++ item_source item ++ "]("
    ++ item_link item ++ ")" ++ NL
  ++ "Summary: " ++ item_snippet item ++ NL ++ NL.

Definition trend_lines (item : SearchItem) : string :=
  "Source: [" ++ item_source item ++ "](" ++ item_link item ++ ")" ++ NL
  ++ "Key Points: " ++ item_snippet item ++ NL ++ NL.

Definition format_web_results (news trends : list SearchItem)
  (insights : string) : string :=
  "### Recent News and Analysis" ++ NL ++ NL
  ++ match news with
     | [] => ""
     | _ :: _ => "#### 📰 Latest News" ++ NL ++ NL
                 ++ format_items news_lines 1 news
     end
  ++ match trends with
     | [] => ""
     | _ :: _ => "#### 📈 Market Trends & Analysis" ++ NL ++ NL
                 ++ format_items trend_lines 1 trends
     end
  ++ (if PyStr.truthy insights
      then "#### 🔍 Analysis" ++ NL ++ NL ++ insights ++ NL ++ NL
      else "").

Definition web_search (W : World) (calls : nat) (st : ResearchState)
  : outcome (ResearchState * nat) :=
  match last_step st with
  | Raise e => Raise e
  | Ret latest =>
      let tool_input := tool_input latest in
      let query := get_query tool_input in
      let result :=
        match web_agent_run W query with
        | Ret (WebError err) => "Error in web search: " ++ err
        | Ret (WebSuccess news trends insights) =>
            format_web_results news trends insights
        | Raise e => "Error searching web: " ++ e
        end in
      Ret (append_step st
             (mkAgentAction "web_search_result" tool_input result), calls)
  end.

(** ** [snowflake_search] *)

Definition viz_markdown (viz : Visualization) : string :=
  ("![" ++ viz_title viz ++ "](" ++ viz_url viz ++ ")" ++ NL ++ NL)
  ++ ("*" ++ viz_title viz ++ " - " ++ PyStr.join ", " (viz_columns viz)
      ++ "*" ++ NL ++ NL).

Definition snowflake_markdown (result : SnowflakeInsights) : string :=
  let text := "## Financial Data Analysis" ++ NL ++ NL ++ summary result
              ++ NL ++ NL in
  match visualizations result with
  | [] => text
  | _ :: _ =>
      text ++ NL ++ "## Visualizations" ++ NL ++ NL
      ++ String.concat "" (map viz_markdown (visualizations result))
  end.

Definition snowflake_search (W : World) (calls : nat) (st : ResearchState)
  : outcome (ResearchState * nat) :=
  match last_step st with
  | Raise e => Raise e
  | Ret latest =>
      let tool_input := tool_input latest in
      let query := get_query tool_input in
      let metadata_filters := get_metadata_filters tool_input in
      let new_action :=
        match generate_snowflake_insights W query metadata_filters with
        | Ret result =>
            mkAgentAction "snowflake_search_result" tool_input
              (snowflake_markdown result)
        | Raise e =>
            mkAgentAction "snowflake_search_result" tool_input
              ("Error searching Snowflake: " ++ e)
        end in
      Ret (append_step st new_action, calls)
  end.

(** ** [generate_final_answer] *)

Record WebLink : Type := mkWebLink {
  link_title : string;
  link_url : string
}.

Record VizRef : Type := mkVizRef {
  ref_title : string;
  ref_url : string;
  ref_caption : string
}.

Definition viz_sentinel : string := "## Visualizations".

(** [re.findall(r'\[(.*?)\]\((https?://[^\s\)]+)\)', text)] as link records. *)
Definition extract_links (text : string) : list WebLink :=
  flat_map (fun caps => match caps with
                        | [t; u] => [mkWebLink t u]
                        | _ => []
                        end)
           (Re.findall Re.link_re text).

(** Lines 303-310: the blocks of the section after the first sentinel. *)
Definition extract_visualizations (text : string) : list VizRef :=
  if PyStr.contains viz_sentinel text then
    let viz_section := nth 1 (PyStr.split viz_sentinel text) "" in
    flat_map (fun caps => match caps with
                          | [t; u; c] => [mkVizRef t u c]
                          | _ => []
                          end)
             (Re.findall Re.viz_re viz_section)
  else [].

(** The five variables the loop over the history fills. *)
Record Collected : Type := mkCollected {
  rag_result : string;
  web_result : string;
  snowflake_result : string;
  visualization_urls : list VizRef;
  web_links : list WebLink
}.

Definition collect_step (acc : Collected) (step : AgentAction) : Collected :=
  if (tool step =? "rag_search_result")%string then
    mkCollected (log step) (web_result acc) (snowflake_result acc)
      (visualization_urls acc) (web_links acc)
  else if (tool step =? "web_search_result")%string then
    mkCollected (rag_result acc) (log step) (snowflake_result acc)
      (visualization_urls acc) (web_links acc ++ extract_links (log step))
  else if (tool step =? "snowflake_search_result")%string then
    if PyStr.contains viz_sentinel (log step) then
      mkCollected (rag_result acc) (web_result acc)
        (nth 0 (PyStr.split viz_sentinel (log step)) "")
        (visualization_urls acc ++ extract_visualizations (log step))
        (web_links acc)
    else
      mkCollected (rag_result acc) (web_result acc) (log step)
        (visualization_urls acc) (web_links acc)
  else acc.

Definition collect (steps : list AgentAction) : Collected :=
  fold_left collect_step steps (mkCollected "" "" "" [] []).

(** [x if x else default] *)
Definition or_default (x default : string) : string :=
  if PyStr.truthy x then x else default.

Definition final_prompt (mode query : string) (c : Collected) : Prompt :=
  let snow := or_default (snowflake_result c)
                "No financial metrics data available." in
  let rag := or_default (rag_result c)
               "No historical financial data available." in
  let web := or_default (web_result c) "No recent news data available." in
  if (mode =? "snowflake")%string then
    SnowflakePrompt query (snowflake_result c)
  else if (mode =? "web_search")%string then WebSearchPrompt query web
  else if (mode =? "combined")%string then CombinedPrompt query snow rag web
  else if (mode =? "pinecone")%string then PineconePrompt query rag
  else FallbackPrompt query snow rag web.

(** Line 448: one bullet of the Sources section. *)
Definition link_line (l : WebLink) : string :=
  "- [" ++ link_title l ++ "](" ++ link_url l ++ ")" ++ NL.

(** Lines 444-448 *)
Definition sources_section (links : list WebLink) : string :=
  match links with
  | [] => ""
  | _ :: _ =>
      NL ++ NL ++ "## Sources and References" ++ NL ++ NL
      ++ String.concat "" (map link_line links)
  end.

(** Lines 454-455: one image and its caption. *)
Definition viz_block (v : VizRef) : string :=
  ("![" ++ ref_title v ++ "](" ++ ref_url v ++ ")" ++ NL ++ NL)
  ++ ("*" ++ ref_caption v ++ "*" ++ NL ++ NL).

(** Lines 450-455 *)
Definition visualizations_section (vizs : list VizRef) : string :=
  match vizs with
  | [] => ""
  | _ :: _ =>
      NL ++ NL ++ "## Visualizations" ++ NL ++ NL
      ++ String.concat "" (map viz_block vizs)
  end.

Definition generate_final_answer (W : World) (calls : nat) (st : ResearchState)
  : outcome (ResearchState * nat) :=
  let c := collect (intermediate_steps st) in
  let query := input st in
  let prompt := final_prompt (mode st) query c in
  let response := llm_invoke W calls prompt in
  let final_response :=
    response ++ sources_section (web_links c)
    ++ visualizations_section (visualization_urls c) in
  let new_action :=
    mkAgentAction "final_answer_result" (mkToolInput (Some query) None)
      final_response in
  Ret (set_output (append_step st new_action) final_response, S calls).

(* ================================================================== *)
(** * The graph ([research_graph.py]) *)

Inductive Node : Type :=
| oracle | rag_search_node | web_search_node | snowflake_search_node
| final_answer_node | END.

(** The conditional edges out of ["oracle"]: the router's answer, looked up
    in the edge table. *)
Definition conditional_edge (next_node : option string) : outcome Node :=
  match next_node with
  | Some n =>
      if (n =? "rag_search")%string then Ret rag_search_node
      else if (n =? "web_search")%string then Ret web_search_node
      else if (n =? "snowflake_search")%string then Ret snowflake_search_node
      else if (n =? "final_answer")%string then Ret final_answer_node
      else Raise ("KeyError: " ++ n)
  | None => Raise "KeyError: None"
  end.

(** A run in progress: the state, the model calls made, the nodes executed
    (oldest first). *)
Record Run : Type := mkRun {
  run_state : ResearchState;
  llm_calls : nat;
  visited : list Node
}.

Definition node_function (W : World) (n : Node)
  : nat -> ResearchState -> outcome (ResearchState * nat) :=
  match n with
  | oracle => run_oracle W
  | rag_search_node => rag_search W
  | web_search_node => web_search W
  | snowflake_search_node => snowflake_search W
  | final_answer_node => generate_final_answer W
  | END => fun calls st => Ret (st, calls)
  end.

(** The edge taken after node [n] has produced state [st]. *)
Definition next_node (n : Node) (st : ResearchState) : outcome Node :=
  match n with
  | oracle => conditional_edge (router (StepsList (intermediate_steps st)))
  | rag_search_node | web_search_node | snowflake_search_node => Ret oracle
  | final_answer_node | END => Ret END
  end.

(** One superstep: run node [n], then follow its edge. *)
Definition graph_step (W : World) (n : Node) (r : Run) : outcome (Node * Run) :=
  match node_function W n (llm_calls r) (run_state r) with
  | Raise e => Raise e
  | Ret (st, calls) =>
      match next_node n st with
      | Raise e => Raise e
      | Ret n' => Ret (n', mkRun st calls (visited r ++ [n]))
      end
  end.

Inductive GraphResult : Type :=
| Finished (r : Run)
| Failed (msg : string) (r : Run)
| RecursionLimit (r : Run).

(** [graph.invoke(state)], stopped after [limit] supersteps. *)
Fixpoint graph_invoke (W : World) (limit : nat) (n : Node) (r : Run)
  : GraphResult :=
  match n with
  | END => Finished r
  | _ =>
      match limit with
      | O => RecursionLimit r
      | S limit' =>
          match graph_step W n r with
          | Raise e => Failed e r
          | Ret (n', r') => graph_invoke W limit' n' r'
          end
      end
  end.

(** LangGraph's default [recursion_limit]. *)
Definition recursion_limit : nat := 25.

Definition initial_state (query : string) (year_quarter_dict : YearQuarterDict)
  (mode : string) : ResearchState :=
  mkResearchState query [] [] year_quarter_dict mode None.

Definition invoke_research_graph (W : World) (query : string)
  (year_quarter_dict : YearQuarterDict) (mode : string) : GraphResult :=
  graph_invoke W recursion_limit oracle
    (mkRun (initial_state query year_quarter_dict mode) 0 []).

(** The fallback of [run_research_graph]: the first [final_answer_result]. *)
Fixpoint first_final_answer (steps : list AgentAction) : option string :=
  match steps with
  | [] => None
  | step :: rest =>
      if (tool step =? "final_answer_result")%string then Some (log step)
      else first_final_answer rest
  end.

Definition run_research_graph (W : World) (query : string)
  (year_quarter_dict : YearQuarterDict) (mode : string) : outcome string :=
  match invoke_research_graph W query year_quarter_dict mode with
  | Finished r =>
      match output (run_state r) with
      | Some o => Ret o
      | None =>
          match first_final_answer (intermediate_steps (run_state r)) with
          | Some l => Ret l
          | None => Ret "No comprehensive results available. Please try again with a different query."
          end
      end
  | Failed e _ => Raise e
  | RecursionLimit _ => Raise "GraphRecursionError"
  end.

(* ================================================================== *)
(** * The [/research] endpoint ([main.py]) *)

Record ResearchRequest : Type := mkResearchRequest {
  req_query : string;
  req_year_quarter_dict : YearQuarterDict;
  req_mode : string
}.

(** The body returned ([processing_time] left out), or the HTTP 500. *)
Inductive Response : Type :=
| ErrorBody (error : string)
| ResultBody (result mode : string)
| ServerError (detail : string).

Definition valid_modes : list string :=
  ["pinecone"; "web_search"; "snowflake"; "combined"].

(** [any(d.values())]: some year has a non-empty list of quarters. *)
Definition any_values (d : YearQuarterDict) : bool :=
  existsb (fun kv => match snd kv with [] => false | _ :: _ => true end) d.

(** [not d] *)
Definition dict_empty (d : YearQuarterDict) : bool :=
  match d with [] => true | _ :: _ => false end.

(** The response, and the graph run when [run_research_graph] was called. *)
Definition research_endpoint (W : World) (request : ResearchRequest)
  : Response * option GraphResult :=
  if negb (PySet.mem (req_mode request) valid_modes) then
    (ErrorBody ("Invalid mode '" ++ req_mode request ++ "'. Must be one of: "
                ++ PyStr.join ", " valid_modes), None)
  else if PySet.mem (req_mode request) ["pinecone"; "snowflake"; "combined"]
          && (dict_empty (req_year_quarter_dict request)
              || negb (any_values (req_year_quarter_dict request))) then
    (ErrorBody ("For " ++ req_mode request
                ++ " search, at least one year and quarter must be selected"),
     None)
  else
    let run := invoke_research_graph W (req_query request)
                 (req_year_quarter_dict request) (req_mode request) in
    match run_research_graph W (req_query request)
            (req_year_quarter_dict request) (req_mode request) with
    | Ret result => (ResultBody result (req_mode request), Some run)
    | Raise e =>
        (ServerError ("Error running research workflow: " ++ e), Some run)
    end.

(* ================================================================== *)
(** * The run as a whole *)

(** The oracle's bookkeeping, read off a list of tool names. *)
Definition used_real_tools (used_tools : list string) : list string :=
  PySet.restrict all_tools used_tools.

Definition unused_tools (used_tools : list string) : list string :=
  PySet.diff all_tools (used_real_tools used_tools).

(** The Action the oracle appends when it has chosen [t]. *)
Definition selection (st : ResearchState) (t : string) : AgentAction :=
  mkAgentAction t (mkToolInput (Some (input st)) (Some (metadata_filters st)))
    ("Selected " ++ t ++ " based on mode: " ++ mode st).

(** The name under which the adapter of tool [t] records its result. *)
Definition result_tool (t : string) : string :=
  if (t =? "pinecone")%string then "rag_search_result"
  else if (t =? "web_search")%string then "web_search_result"
  else "snowflake_search_result".

Definition node_of_tool (t : string) : Node :=
  if (t =? "pinecone")%string then rag_search_node
  else if (t =? "web_search")%string then web_search_node
  else snowflake_search_node.

(** The tool names a run appends when it consults the tools [ts] in turn
    and then finishes, and the nodes it executes. *)
Definition tools_of_run (ts : list string) : list string :=
  (flat_map (fun t => [t; result_tool t]) ts
   ++ ["final_answer"; "final_answer_result"])%list.

Definition nodes_of_run (ts : list string) : list Node :=
  (flat_map (fun t => [oracle; node_of_tool t]) ts
   ++ [oracle; final_answer_node])%list.

Definition history_tools (r : Run) : list string :=
  map tool (intermediate_steps (run_state r)).

Definition is_oracle (n : Node) : bool :=
  match n with oracle => true | _ => false end.

(** The number of decisions the oracle has taken in a run. *)
Definition oracle_decisions (r : Run) : nat :=
  List.length (filter is_oracle (visited r)).

(** The tool names of the history a graph run ended with. *)
Definition result_history (g : GraphResult) : list string :=
  match g with
  | Finished r | Failed _ r | RecursionLimit r => history_tools r
  end.

(** The runs the graph can reach from the initial state of a request. *)
Inductive reachable (W : World) (query : string) (yq : YearQuarterDict)
  (m : string) : Node -> Run -> Prop :=
| reach_init :
    reachable W query yq m oracle (mkRun (initial_state query yq m) 0 [])
| reach_step n r n' r' :
    reachable W query yq m n r ->
    graph_step W n r = Ret (n', r') ->
    reachable W query yq m n' r'.

(** The names of real tools in a list of tool names, in order. *)
Definition selections (tools : list string) : list string :=
  filter (fun t => PySet.mem t all_tools) tools.

(* ================================================================== *)
(** * Sample worlds and requests *)

Module Sample.

Definition filters : YearQuarterDict := [("2024", ["1"])].

Definition news : list SearchItem :=
  [mkSearchItem "Earnings beat" "https://news.example/a" "Revenue grew."
     "Newswire" "today"].

Definition charts : list Visualization :=
  [mkVisualization "Key Metrics Time Series" "https://s3.example/ts.png"
     ["CLOSE"; "VOLUME"]].

(** The model names pinecone first, then answers with a sentence that
    mentions web_search; strings hash to their length.  Every backend
    answers with plain text. *)
Definition world : World :=
  mkWorld
    (fun n _ => match n with
                | 0 => " Pinecone "
                | 1 => "I pick web_search"
                | _ => "Report."
                end)
    String.length
    (Ret tt)
    (fun _ _ _ => Ret "Revenue was 26.0 billion.")
    (fun _ => Ret (WebSuccess news [] "Outlook is stable."))
    (fun _ _ => Ret (mkSnowflakeInsights "Close rose." charts)).

(** The same, with a model whose first answer names no tool. *)
Definition undecided_world : World :=
  mkWorld (fun _ _ => "I cannot decide.") String.length (Ret tt)
    (search_pinecone_db world) (web_agent_run world)
    (generate_snowflake_insights world).

(** The same as [world], but the Pinecone client cannot be constructed. *)
Definition no_pinecone_world : World :=
  mkWorld (llm_invoke world) String.length
    (Raise "PineconeConfigurationError: no API key")
    (search_pinecone_db world) (web_agent_run world)
    (generate_snowflake_insights world).

(** A model that answers a pinecone prompt with the report text it was
    given. *)
Definition echo_world : World :=
  mkWorld
    (fun _ p => match p with
                | PineconePrompt _ rag => rag
                | _ => ""
                end)
    String.length (Ret tt)
    (search_pinecone_db world) (web_agent_run world)
    (generate_snowflake_insights world).

(** The state of a combined run of [world] after its first tool cycle. *)
Definition after_first_cycle : ResearchState :=
  mkResearchState "q" [] 
    [mkAgentAction "pinecone" (mkToolInput (Some "q") (Some filters))
       "Selected pinecone based on mode: combined";
     mkAgentAction "rag_search_result" (mkToolInput (Some "q") (Some filters))
       "Revenue was 26.0 billion."]
    filters "combined" None.

(** A history holding the result of the Snowflake adapter for [charts]. *)
Definition snowflake_history : list AgentAction :=
  [mkAgentAction "snowflake" (mkToolInput (Some "q") (Some filters))
     "Selected snowflake based on mode: snowflake";
   mkAgentAction "snowflake_search_result"
     (mkToolInput (Some "q") (Some filters))
     (snowflake_markdown (mkSnowflakeInsights "Close rose." charts))].

End Sample.



(* ================================================================== *)
(** * Vocabulary of the properties *)

(** [needle] occurs in [s]. *)
Definition Substring (needle s : string) : Prop :=
  exists a b, s = a ++ needle ++ b.

(** The history of a run ends with the finalizer's Action. *)
Definition ends_with_final_answer_result (r : Run) : Prop :=
  exists l, history_tools r = (l ++ ["final_answer_result"])%list.

(** The model's answer as the oracle reads it in the branch for the next
    tool: stripped and lower-cased. *)
Definition next_tool_answer (W : World) (calls : nat) (st : ResearchState)
  : string :=
  PyStr.lower (PyStr.strip
    (llm_invoke W calls
       (NextToolPrompt (input st)
          (PySet.to_list (str_hash W)
             (used_real_tools (map tool (intermediate_steps st))))
          (PySet.to_list (str_hash W)
             (unused_tools (map tool (intermediate_steps st))))))).

(** The text of a Snowflake result the finalizer passes on: what precedes
    the first visualization header. *)
Definition snowflake_text (log : string) : string :=
  if PyStr.contains viz_sentinel log
  then nth 0 (PyStr.split viz_sentinel log) ""
  else log.

(** [s] begins with "Error". *)
Definition starts_with_Error (s : string) : Prop :=
  exists rest, s = "Error" ++ rest.

(** Every character of [s] satisfies [p]. *)
Fixpoint all_chars (p : ascii -> bool) (s : string) : bool :=
  match s with
  | EmptyString => true
  | String c s' => p c && all_chars p s'
  end.

(** [s] is empty or starts with a character that fails [p]. *)
Definition stops (p : ascii -> bool) (s : string) : Prop :=
  match s with
  | EmptyString => True
  | String x _ => p x = false
  end.

(** [c] does not occur in [s]. *)
Definition lacks (c : ascii) (s : string) : bool :=
  all_chars (fun x => negb (Ascii.eqb x c)) s.

(** What follows the title of a link in [link_re]. *)
Definition link_tail : Re.pattern :=
  (Re.GClose :: Re.lits "](" ++ [Re.GOpen] ++ Re.lits "http"
   ++ [Re.OptLit "s"%char] ++ Re.lits "://"
   ++ [Re.GreedyPlus Re.url_char; Re.GClose] ++ Re.lits ")")%list.

(** The texts [https?://[^\s\)]+] matches. *)
Definition UrlShape (u : string) : Prop :=
  exists body,
    (u = "http://" ++ body \/ u = "https://" ++ body)
    /\ body <> "" /\ all_chars Re.url_char body = true.

(** A match of [link_re] that is found again wherever its text stands. *)
Definition LinkCanon (t u : string) : Prop :=
  forall r,
    Re.rmatch Re.link_re ("[" ++ t ++ "](" ++ u ++ ")" ++ r) [] []
    = Some ([t; u], r).

(** The groups [findall] reports for a link. *)
Definition link_caps (l : WebLink) : list string := [link_title l; link_url l].

(** What stands between the URL and the caption of a block: [)\n\n*]. *)
Definition viz_mid : string := ")" ++ String PyStr.nl (String PyStr.nl "*").

(** [viz_re] after the caption, after the URL and after the title. *)
Definition viz_k3 : Re.pattern := (Re.GClose :: Re.lits "*")%list.

Definition viz_k2 : Re.pattern :=
  (Re.GClose :: Re.lits viz_mid ++ [Re.GOpen; Re.LazyStar Re.dot] ++ viz_k3)%list.

Definition viz_k1 : Re.pattern :=
  (Re.GClose :: Re.lits "](" ++ [Re.GOpen; Re.LazyStar Re.dot] ++ viz_k2)%list.

(** The text of a block that [viz_re] matches, without what follows it. *)
Definition viz_block_text (t u c : string) : string :=
  "![" ++ t ++ "](" ++ u ++ viz_mid ++ c ++ "*".

(** A match of [viz_re] that is found again wherever its text stands. *)
Definition VizCanon (t u c : string) : Prop :=
  forall r,
    Re.rmatch Re.viz_re (viz_block_text t u c ++ r) [] [] = Some ([t; u; c], r).

(** The groups [findall] reports for a block. *)
Definition viz_caps (v : VizRef) : list string :=
  [ref_title v; ref_url v; ref_caption v].

(** A reference the finalizer can have extracted: its block is found again
    wherever it stands, and none of its parts holds the section header. *)
Definition VizOK (v : VizRef) : Prop :=
  VizCanon (ref_title v) (ref_url v) (ref_caption v)
  /\ PyStr.contains viz_sentinel (ref_title v) = false
  /\ PyStr.contains viz_sentinel (ref_url v) = false
  /\ PyStr.contains viz_sentinel (ref_caption v) = false.

(** What the finalizer's scan collects can be written out and read back. *)
Definition collected_ok (c : Collected) : Prop :=
  Forall (fun l => LinkCanon (link_title l) (link_url l)) (web_links c)
  /\ Forall VizOK (visualization_urls c).

(** The text the adapter of tool [t] records for a query and its filters:
    the backend's answer, or the message of its failure. *)
Definition adapter_log (W : World) (t query : string) (yq : YearQuarterDict)
  : string :=
  if (t =? "pinecone")%string then
    match search_pinecone_db W query yq 20 with
    | Ret r => r
    | Raise e => "Error searching Pinecone: " ++ e
    end
  else if (t =? "web_search")%string then
    match web_agent_run W query with
    | Ret (WebError err) => "Error in web search: " ++ err
    | Ret (WebSuccess news trends insights) =>
        format_web_results news trends insights
    | Raise e => "Error searching web: " ++ e
    end
  else
    match generate_snowflake_insights W query yq with
    | Ret result => snowflake_markdown result
    | Raise e => "Error searching Snowflake: " ++ e
    end.

(** The two Actions of one tool cycle of a run that started from [st]. *)
Definition cycle_steps (W : World) (st : ResearchState) (t : string)
  : list AgentAction :=
  [selection st t;
   mkAgentAction (result_tool t) (tool_input (selection st t))
     (adapter_log W t (input st) (metadata_filters st))].

(** The state after the tools [ts] have been consulted in turn. *)
Definition after_cycles (W : World) (st : ResearchState) (ts : list string)
  : ResearchState :=
  set_steps st (intermediate_steps st ++ flat_map (cycle_steps W st) ts).



(** The two links [format_web_results] writes for a search item. *)
Definition item_links (item : SearchItem) : list WebLink :=
  [mkWebLink (item_title item) (item_link item);
   mkWebLink (item_source item) (item_link item)].

(** [s] without its prefix [p], when it starts with it. *)
Fixpoint after_prefix (p s : string) : option string :=
  match p, s with
  | EmptyString, _ => Some s
  | String a p', String b s' =>
      if Ascii.eqb a b then after_prefix p' s' else None
  | String _ _, EmptyString => None
  end.

(** [u] reads [http://...] or [https://...], with at least one character
    after the scheme and neither white space nor a closing parenthesis. *)
Definition url_body_ok (body : option string) : bool :=
  match body with
  | Some b => PyStr.truthy b && all_chars Re.url_char b
  | None => false
  end.

Definition url_shape (u : string) : bool :=
  url_body_ok (after_prefix "http://" u)
  || url_body_ok (after_prefix "https://" u).

(** A search item whose two links can be read back, and that holds no other
    opening bracket. *)
Definition item_ok (item : SearchItem) : bool :=
  all_chars Re.dot (item_title item) && lacks "]" (item_title item)
  && all_chars Re.dot (item_source item) && lacks "]" (item_source item)
  && url_shape (item_link item)
  && lacks "[" (item_date item) && lacks "[" (item_snippet item).

(* ================================================================== *)
(** * The Snowflake agent ([agents/snowflake_agent.py], [s3_utils.py])

    What the agent asks of the outside (the Gemini model, the Snowflake
    connection, pandas' date parser, matplotlib, S3, the clock) is a field
    of an [Env].  The fixed text of a prompt is not spelled out; the token
    of a chart's ["type"] key and the ["raw_data"] key of the result, which
    the graph never reads, are left out. *)

Module SnowflakeAgent.

(** A [pandas.DataFrame]: its column labels and its rows. *)
Record DataFrame : Type := mkDataFrame {
  columns : list string;
  rows : list (list string)
}.

(** [pd.DataFrame()] *)
Definition empty_frame : DataFrame := mkDataFrame [] [].

(** [df.empty]: an axis of length 0. *)
Definition is_empty (df : DataFrame) : bool :=
  match columns df, rows df with
  | _ :: _, _ :: _ => false
  | _, _ => true
  end.

(** [df[label] = values]: a new label is appended to the columns. *)
Definition set_column (df : DataFrame) (label : string)
  (values : DataFrame -> list (list string)) : DataFrame :=
  mkDataFrame
    (if PySet.mem label (columns df) then columns df
     else (columns df ++ [label])%list)
    (values df).

Record Env : Type := mkEnv {
  (** [generate_content(prompt).text] of [fetch_snowflake_response] *)
  gemini_sql : string -> YearQuarterDict -> outcome string;
  (** ... of [get_relevant_columns], for the query and the columns listed *)
  gemini_columns : string -> list string -> outcome string;
  (** ... of [generate_data_summary] *)
  gemini_summary :
    string -> option DataFrame -> option DataFrame -> outcome string;
  (** [snowflake.connector.connect] and the two [USE] statements *)
  connect : outcome unit;
  (** [cur.execute(query)], [fetchall] and the frame built from them *)
  execute : string -> outcome DataFrame;
  (** [df['Date'] = pd.to_datetime(df['DATE'])]: the rows with the parsed
      dates put in *)
  with_dates : DataFrame -> outcome (list (list string));
  (** matplotlib and seaborn: the PNG of a plot of the given columns *)
  plot_time_series : DataFrame -> list string -> outcome string;
  plot_correlation : DataFrame -> list string -> outcome string;
  (** [s3_client.put_object(Key, Body)] *)
  put_object : string -> string -> outcome unit;
  (** [s3_client.generate_presigned_url(Key, ExpiresIn)] *)
  presigned_url : string -> N -> outcome string;
  (** [datetime.now().strftime("%Y%m%d_%H%M%S")] *)
  now : string
}.

(** [(SELECT[\s\S]*?);] *)
Definition select_re : Re.pattern :=
  ([Re.GOpen] ++ Re.lits "SELECT" ++ [Re.LazyStar (fun _ => true); Re.GClose]
   ++ Re.lits ";")%list.

(** [re.findall(r"(SELECT[\s\S]*?);", text)] *)
Definition find_queries (text : string) : list string :=
  flat_map (fun caps => match caps with
                        | [q] => [q]
                        | _ => []
                        end)
           (Re.findall select_re text).

(** [fetch_snowflake_response] *)
Definition fetch_snowflake_response (E : Env) (query : string)
  (year_quarter_dict : YearQuarterDict) : outcome string :=
  match gemini_sql E query year_quarter_dict with
  | Ret text => Ret (PyStr.strip text)
  | Raise e => Raise e
  end.

(** [fetch_snowflake_df]: a query that fails gives an empty frame; a
    connection that fails raises. *)
Definition fetch_snowflake_df (E : Env) (query : string)
  : outcome DataFrame :=
  match connect E with
  | Raise e => Raise e
  | Ret _ =>
      match execute E query with
      | Ret df => Ret df
      | Raise _ => Ret empty_frame
      end
  end.

(** [upload_visualization_to_s3] of [s3_utils.py]: the exception is
    re-raised. *)
Definition upload_visualization_to_s3 (E : Env)
  (image_data prefix filename : string) : outcome string :=
  let s3_key := prefix ++ "/" ++ filename in
  match put_object E s3_key image_data with
  | Raise e => Raise e
  | Ret _ => presigned_url E s3_key 86400%N
  end.

(** [get_relevant_columns] *)
Definition get_relevant_columns (E : Env) (query : string)
  (available_columns : list string) : outcome (list string) :=
  let listed :=
    filter (fun col => negb (PySet.mem col ["DATE"; "Date"; "Year"; "Quarter"]))
      available_columns in
  match gemini_columns E query listed with
  | Raise e => Raise e
  | Ret text =>
      let columns := map PyStr.strip (PyStr.split "," text) in
      let relevant_cols :=
        filter (fun col => PySet.mem col available_columns) columns in
      if match relevant_cols with [] => true | _ :: _ => false end
         || forallb (fun col => PySet.mem col ["Year"; "Quarter"; "DATE"])
              relevant_cols
      then
        let price_cols := ["HIGH"; "LOW"; "CLOSE"; "DOLLARVOLUME"] in
        let tech_cols := ["MA10"; "MA30"; "RSI"; "VOLATILITY20D"] in
        let available_price_cols :=
          filter (fun col => PySet.mem col available_columns) price_cols in
        let available_tech_cols :=
          filter (fun col => PySet.mem col available_columns) tech_cols in
        match available_price_cols, available_tech_cols with
        | _ :: _, _ => Ret (firstn 3 available_price_cols)
        | [], _ :: _ => Ret (firstn 3 available_tech_cols)
        | [], [] => Ret relevant_cols
        end
      else Ret relevant_cols
  end.

(** The body of the [try] of [create_and_save_graph], on the frame that
    already holds the ['Date'] column. *)
Definition charts_of (E : Env) (df : DataFrame) (query timestamp : string)
  : outcome (list Visualization) :=
  match get_relevant_columns E query (columns df) with
  | Raise e => Raise e
  | Ret relevant_columns =>
      let viz_folder := "visualizations/temp/query_" ++ timestamp in
      match plot_time_series E df (firstn 3 relevant_columns) with
      | Raise e => Raise e
      | Ret png1 =>
          match upload_visualization_to_s3 E png1
                  (viz_folder ++ "/time_series") "time_series.png" with
          | Raise e => Raise e
          | Ret ts_url =>
              let first :=
                mkVisualization "Key Metrics Time Series" ts_url
                  (firstn 3 relevant_columns) in
              if (1 <? List.length relevant_columns)%nat then
                match plot_correlation E df relevant_columns with
                | Raise e => Raise e
                | Ret png2 =>
                    match upload_visualization_to_s3 E png2
                            (viz_folder ++ "/correlation")
                            "correlation.png" with
                    | Raise e => Raise e
                    | Ret corr_url =>
                        Ret [first;
                             mkVisualization "Metrics Correlation Analysis"
                               corr_url relevant_columns]
                    end
                end
              else Ret [first]
          end
      end
  end.

(** [create_and_save_graph]: the charts, and the frame as the call leaves
    it (the caller's frame is the one that gets the ['Date'] column).  Any
    exception gives no chart. *)
Definition create_and_save_graph (E : Env) (df : DataFrame)
  (query timestamp : string) : list Visualization * DataFrame :=
  if negb (PySet.mem "DATE" (columns df)) then ([], df)
  else
    match with_dates E df with
    | Raise _ => ([], df)
    | Ret dated =>
        let df' := set_column df "Date" (fun _ => dated) in
        match charts_of E df' query timestamp with
        | Ret charts => (charts, df')
        | Raise _ => ([], df')
        end
    end.

(** [generate_data_summary] *)
Definition generate_data_summary (E : Env) (query : string)
  (agg_df raw_df : option DataFrame) : outcome string :=
  match gemini_summary E query agg_df raw_df with
  | Ret text => Ret (PyStr.strip text)
  | Raise e => Raise e
  end.

(** [fetch_snowflake_df(q) if q else None] *)
Definition fetch_optional (E : Env) (q : option string)
  : outcome (option DataFrame) :=
  match q with
  | Some q =>
      if PyStr.truthy q then
        match fetch_snowflake_df E q with
        | Ret df => Ret (Some df)
        | Raise e => Raise e
        end
      else Ret None
  | None => Ret None
  end.

(** The body of the [try] of [generate_snowflake_insights]. *)
Definition insights_of (E : Env) (query : string)
  (year_quarter_dict : YearQuarterDict) : outcome SnowflakeInsights :=
  match fetch_snowflake_response E query year_quarter_dict with
  | Raise e => Raise e
  | Ret llm_response =>
      let queries := find_queries llm_response in
      let agg_query := nth_error queries 0 in
      let raw_query := nth_error queries 1 in
      match fetch_optional E agg_query with
      | Raise e => Raise e
      | Ret agg_df =>
          match fetch_optional E raw_query with
          | Raise e => Raise e
          | Ret raw_df =>
              let graphed :=
                match raw_df with
                | Some df =>
                    if negb (is_empty df) then
                      let (charts, df') :=
                        create_and_save_graph E df query (now E) in
                      (charts, Some df')
                    else ([], raw_df)
                | None => ([], raw_df)
                end in
              match generate_data_summary E query agg_df (snd graphed) with
              | Raise e => Raise e
              | Ret summary => Ret (mkSnowflakeInsights summary (fst graphed))
              end
          end
      end
  end.

(** [generate_snowflake_insights]: every exception becomes the summary. *)
Definition generate_snowflake_insights (E : Env) (query : string)
  (year_quarter_dict : YearQuarterDict) : SnowflakeInsights :=
  match insights_of E query year_quarter_dict with
  | Ret result => result
  | Raise e => mkSnowflakeInsights ("Error generating insights: " ++ e) []
  end.

End SnowflakeAgent.

(** A world whose Snowflake backend is the agent above. *)
Definition with_snowflake_agent (W : World) (E : SnowflakeAgent.Env) : World :=
  mkWorld (llm_invoke W) (str_hash W) (pinecone_init W) (search_pinecone_db W)
    (web_agent_run W)
    (fun q yq => Ret (SnowflakeAgent.generate_snowflake_insights E q yq)).

Module SampleSnowflake.

(** A model that answers with two queries and names two columns of the
    table and one that is not there; every backend call succeeds. *)
Definition env : SnowflakeAgent.Env :=
  SnowflakeAgent.mkEnv
    (fun _ _ =>
       Ret "1. SELECT SUM(CLOSE) FROM T; 2. SELECT DATE, CLOSE, HIGH FROM T; ")
    (fun _ _ => Ret "CLOSE, HIGH, VOLUME")
    (fun _ _ _ => Ret " Close rose. ")
    (Ret tt)
    (fun _ => Ret (SnowflakeAgent.mkDataFrame ["DATE"; "CLOSE"; "HIGH"]
                     [["2024-01-02"; "48.1"; "49.2"]]))
    (fun df => Ret (map (fun r => r ++ [hd "" r])%list
                      (SnowflakeAgent.rows df)))
    (fun _ _ => Ret "png")
    (fun _ _ => Ret "png")
    (fun _ _ => Ret tt)
    (fun key _ => Ret ("https://s3.example/" ++ key))
    "20250101_120000".

(** The same, with a Snowflake connection that cannot be opened. *)
Definition offline : SnowflakeAgent.Env :=
  SnowflakeAgent.mkEnv
    (SnowflakeAgent.gemini_sql env) (SnowflakeAgent.gemini_columns env)
    (SnowflakeAgent.gemini_summary env)
    (Raise "OperationalError: could not connect")
    (SnowflakeAgent.execute env) (SnowflakeAgent.with_dates env)
    (SnowflakeAgent.plot_time_series env)
    (SnowflakeAgent.plot_correlation env)
    (SnowflakeAgent.put_object env) (SnowflakeAgent.presigned_url env)
    (SnowflakeAgent.now env).

(** The same as [env], with a database that rejects every query. *)
Definition bad_sql : SnowflakeAgent.Env :=
  SnowflakeAgent.mkEnv
    (SnowflakeAgent.gemini_sql env) (SnowflakeAgent.gemini_columns env)
    (SnowflakeAgent.gemini_summary env)
    (Ret tt)
    (fun _ => Raise "ProgrammingError: SQL compilation error")
    (SnowflakeAgent.with_dates env)
    (SnowflakeAgent.plot_time_series env)
    (SnowflakeAgent.plot_correlation env)
    (SnowflakeAgent.put_object env) (SnowflakeAgent.presigned_url env)
    (SnowflakeAgent.now env).

End SampleSnowflake.

(* ================================================================== *)
(** * The web search agent ([agents/web_search_agent.py], [llm_service.py])

    SerpAPI, the Gemini model, the tokenizer, the environment variable
    holding the API key and the clock are fields of an [Env].  The
    ["timestamp"] keys, which nothing reads, and the three cost figures of
    the token record, which are floating-point products of the counts, are
    left out. *)

Module WebAgent.

(** One entry of ["news_results"] or ["organic_results"]: the keys the agent
    reads, where the entry has them. *)
Record RawItem : Type := mkRawItem {
  raw_title : option string;
  raw_link : option string;
  raw_snippet : option string;
  raw_source : option string;
  raw_date : option string
}.

(** [search.get_dict()]: the two keys the agent looks for. *)
Record SerpResults : Type := mkSerpResults {
  news_results : option (list RawItem);
  organic_results : option (list RawItem)
}.

(** [search_params], without the API key and the engine. *)
Record SearchParams : Type := mkSearchParams {
  q : string;
  num : nat;
  tbm : option string;
  tbs : string;
  location : option string
}.

(** The prompts of [generate_response_with_gemini], by template. *)
Inductive GeminiPrompt : Type :=
| WebAnalysisPrompt (context : option string)
| ContextPrompt (context query : string)
| QueryPrompt (query : string).

Record TokenInfo : Type := mkTokenInfo {
  input_tokens : nat;
  output_tokens : nat;
  total_tokens : nat;
  model : string
}.

Record Env : Type := mkEnv {
  (** [GoogleSearch(search_params).get_dict()] *)
  google_search : SearchParams -> outcome SerpResults;
  (** [os.getenv("GOOGLE_API_KEY")] *)
  google_api_key : option string;
  (** [configure], [GenerativeModel(model_name)] and
      [tiktoken.get_encoding] *)
  gemini_setup : string -> outcome unit;
  (** [len(encoder.encode(prompt))] and [len(encoder.encode(text))] *)
  count_prompt_tokens : GeminiPrompt -> outcome nat;
  count_tokens : string -> outcome nat;
  (** [model.generate_content(prompt).text] *)
  generate_content : string -> GeminiPrompt -> outcome string;
  (** [datetime.now().strftime('%Y-%m-%d %H:%M:%S')] *)
  now : string
}.

(** [item.get(key, default)] *)
Definition get (field : option string) (default : string) : string :=
  match field with Some v => v | None => default end.

(** [search_news]: any exception gives the empty list. *)
Definition search_news (E : Env) (query : string) (num_results : nat)
  : list SearchItem :=
  let nvidia_query := "NVIDIA " ++ query in
  match google_search E
          (mkSearchParams nvidia_query num_results (Some "nws") "qdr:m"
             (Some "United States")) with
  | Raise _ => []
  | Ret results =>
      match news_results results with
      | Some items =>
          map (fun item =>
                 mkSearchItem (get (raw_title item) "") (get (raw_link item) "")
                   (get (raw_snippet item) "") (get (raw_source item) "")
                   (get (raw_date item) ""))
              items
      | None => []
      end
  end.

(** [search_trends] *)
Definition search_trends (E : Env) (query : string) (num_results : nat)
  : list SearchItem :=
  let nvidia_query := "NVIDIA " ++ query ++ " trends analysis research" in
  match google_search E
          (mkSearchParams nvidia_query num_results None "qdr:m" None) with
  | Raise _ => []
  | Ret results =>
      match organic_results results with
      | Some items =>
          map (fun item =>
                 mkSearchItem (get (raw_title item) "") (get (raw_link item) "")
                   (get (raw_snippet item) "")
                   (get (raw_source item) "website")
                   (get (raw_date item) "Recent"))
              items
      | None => []
      end
  end.

(** ["=" * 50] *)
Definition rule : string :=
  "==================================================".

(** The two [for i, result in enumerate(..., 1)] loops of
    [process_results]. *)
Fixpoint news_report (i : nat) (items : list SearchItem) : string :=
  match items with
  | [] => ""
  | result :: rest =>
      PyStr.of_nat i ++ ". " ++ item_title result ++ NL
      ++ "   📅 " ++ item_date result ++ " | 🔍 " ++ item_source result ++ NL
      ++ "   " ++ item_snippet result ++ NL
      ++ "   🔗 " ++ item_link result ++ NL ++ NL
      ++ news_report (S i) rest
  end.

Fixpoint trend_report (i : nat) (items : list SearchItem) : string :=
  match items with
  | [] => ""
  | result :: rest =>
      PyStr.of_nat i ++ ". " ++ item_title result ++ NL
      ++ "   💡 Key Points: " ++ item_snippet result ++ NL
      ++ "   🔗 " ++ item_link result ++ NL ++ NL
      ++ trend_report (S i) rest
  end.

(** [process_results] *)
Definition process_results (E : Env) (news_results trend_results
  : list SearchItem) : string :=
  match news_results, trend_results with
  | [], [] => "No relevant results found."
  | _, _ =>
      "NVIDIA Market Intelligence Report:" ++ NL ++ NL
      ++ match news_results with
         | [] => ""
         | _ :: _ => "📰 Latest News:" ++ NL ++ rule ++ NL
                     ++ news_report 1 news_results
         end
      ++ match trend_results with
         | [] => ""
         | _ :: _ => NL ++ "📈 Market Trends & Analysis:" ++ NL ++ rule ++ NL
                     ++ trend_report 1 trend_results
         end
      ++ NL ++ "🕒 Report generated at: " ++ now E ++ NL
  end.

(** The body of the [try] of [generate_response_with_gemini], after the
    API key has been found. *)
Definition ask_gemini (E : Env) (query : string) (context : option string)
  (model_name response_type : string) : outcome (string * TokenInfo) :=
  match gemini_setup E model_name with
  | Raise e => Raise e
  | Ret _ =>
      let prompt :=
        if (response_type =? "web_analysis")%string
        then WebAnalysisPrompt context
        else match context with
             | Some c => if PyStr.truthy c then ContextPrompt c query
                         else QueryPrompt query
             | None => QueryPrompt query
             end in
      match count_prompt_tokens E prompt with
      | Raise e => Raise e
      | Ret input_tokens =>
          match generate_content E model_name prompt with
          | Raise e => Raise e
          | Ret answer_text =>
              match count_tokens E answer_text with
              | Raise e => Raise e
              | Ret output_tokens =>
                  Ret (answer_text,
                       mkTokenInfo input_tokens output_tokens
                         (input_tokens + output_tokens) model_name)
              end
          end
      end
  end.

(** [generate_response_with_gemini]: every exception becomes the answer. *)
Definition generate_response_with_gemini (E : Env) (query : string)
  (context : option string) (model_name response_type : string)
  : string * option TokenInfo :=
  match google_api_key E with
  | Some (String _ _) =>
      match ask_gemini E query context model_name response_type with
      | Ret (answer_text, token_info) => (answer_text, Some token_info)
      | Raise e => ("Error generating response: " ++ e, None)
      end
  | _ =>
      ("Error: Google API key not configured. Please set the GOOGLE_API_KEY environment variable.",
       None)
  end.

(** One entry of [news_context] and of [trends_context]. *)
Definition news_entry (item : SearchItem) : string :=
  "NEWS ARTICLE:" ++ NL ++ "Title: " ++ item_title item ++ NL
  ++ "Date: " ++ item_date item ++ NL
  ++ "Source: " ++ item_source item ++ NL
  ++ "Summary: " ++ item_snippet item ++ NL.

Definition trend_entry (item : SearchItem) : string :=
  "MARKET TREND:" ++ NL ++ "Title: " ++ item_title item ++ NL
  ++ "Summary: " ++ item_snippet item ++ NL.

(** [synthesize_results] *)
Definition synthesize_results (E : Env) (news_results trend_results
  : list SearchItem) : string * option TokenInfo :=
  let news_context := PyStr.join NL (map news_entry news_results) in
  let trends_context := PyStr.join NL (map trend_entry trend_results) in
  let context :=
    NL ++ "        RECENT NEWS AND TRENDS ABOUT NVIDIA:" ++ NL ++ NL
    ++ "        " ++ news_context ++ NL ++ NL
    ++ "        MARKET TRENDS AND ANALYSIS:" ++ NL
    ++ "        " ++ trends_context ++ NL ++ "        " in
  generate_response_with_gemini E "Analyze NVIDIA updates" (Some context)
    "gemini-1.5-pro" "web_analysis".

(** The dictionary [run] returns, by its ["status"]. *)
Inductive Report : Type :=
| Success (summary insights : string) (token_info : option TokenInfo)
    (news trends : list SearchItem) (query : string)
    (has_news has_trends : bool)
| Failure (error query : string).

(** [run]: nothing in the body of its [try] raises, the searches and the
    model call catching their own exceptions. *)
Definition run (E : Env) (query : string) : Report :=
  let news_results := search_news E query 5 in
  let trend_results := search_trends E query 5 in
  let summary := process_results E news_results trend_results in
  let (insights, token_info) :=
    synthesize_results E news_results trend_results in
  Success summary insights token_info news_results trend_results query
    (match news_results with [] => false | _ :: _ => true end)
    (match trend_results with [] => false | _ :: _ => true end).

(** What [web_search] reads of the dictionary. *)
Definition read_by_node (r : Report) : WebRun :=
  match r with
  | Success _ insights _ news trends _ _ _ => WebSuccess news trends insights
  | Failure error _ => WebError error
  end.

End WebAgent.

(** A world whose web backend is the agent above. *)
Definition with_web_agent (W : World) (E : WebAgent.Env) : World :=
  mkWorld (llm_invoke W) (str_hash W) (pinecone_init W) (search_pinecone_db W)
    (fun query => Ret (WebAgent.read_by_node (WebAgent.run E query)))
    (generate_snowflake_insights W).

Module SampleWeb.

(** SerpAPI is unreachable and the model cannot be set up. *)
Definition offline : WebAgent.Env :=
  WebAgent.mkEnv (fun _ => Raise "ConnectionError")
    (Some "key") (fun _ => Raise "DefaultCredentialsError")
    (fun _ => Ret 0) (fun _ => Ret 0) (fun _ _ => Ret "") "2025-01-01 12:00:00".

(** SerpAPI finds one article without a source; the model answers. *)
Definition env : WebAgent.Env :=
  WebAgent.mkEnv
    (fun p =>
       Ret (WebAgent.mkSerpResults
              (match WebAgent.tbm p with
               | Some _ =>
                   Some [WebAgent.mkRawItem (Some "Earnings beat")
                           (Some "https://news.example/a")
                           (Some "Revenue grew.") None (Some "today")]
               | None => None
               end)
              None))
    (Some "key") (fun _ => Ret tt)
    (fun _ => Ret 120) (fun _ => Ret 30) (fun _ _ => Ret "Outlook is stable.")
    "2025-01-01 12:00:00".

End SampleWeb.

(* ================================================================== *)
(** * More of Python's strings and paths *)

Module PyLib.

(** [s.split()]: the maximal runs of characters that are not white space. *)
Fixpoint split_ws (s : string) : list string :=
  match s with
  | EmptyString => []
  | String c s' =>
      if PyStr.is_space c then split_ws s'
      else match s' with
           | EmptyString => [String c EmptyString]
           | String d _ =>
               if PyStr.is_space d then String c EmptyString :: split_ws s'
               else match split_ws s' with
                    | w :: ws => String c w :: ws
                    | [] => [String c EmptyString]
                    end
           end
  end.

(** [s[i:j]] for [0 <= i <= j] *)
Definition slice (s : string) (i j : nat) : string :=
  String.substring i (j - i) s.

(** [s.rfind(c)], [None] standing for -1. *)
Fixpoint rfind (c : ascii) (s : string) : option nat :=
  match s with
  | EmptyString => None
  | String x s' =>
      match rfind c s' with
      | Some i => Some (S i)
      | None => if Ascii.eqb x c then Some 0 else None
      end
  end.

(** [os.path.basename(p)] on POSIX: what follows the last slash. *)
Definition basename (p : string) : string :=
  match rfind "/" p with
  | Some i => slice p (S i) (String.length p)
  | None => p
  end.

(** [os.path.splitext(p)] on POSIX: the extension starts at the last dot
    of the last component, unless only dots precede it there. *)
Definition splitext (p : string) : string * string :=
  match rfind "." p with
  | None => (p, "")
  | Some dotIndex =>
      let start := match rfind "/" p with Some i => S i | None => 0 end in
      if (start <=? dotIndex)%nat
         && negb (all_chars (fun x => Ascii.eqb x ".")
                    (slice p start dotIndex))
      then (slice p 0 dotIndex, slice p dotIndex (String.length p))
      else (p, "")
  end.

End PyLib.

(* ================================================================== *)
(** * Chunking a markdown document ([markdown_chunking.py]) *)

Module Chunking.

(** [$] under [re.MULTILINE]: at the end of the text or before a line
    break. *)
Definition at_eol (s : string) : bool :=
  match s with
  | EmptyString => true
  | String c _ => Ascii.eqb c PyStr.nl
  end.

(** Up to [n] more [#], as many as there are, given back one at a time
    while the rest of the pattern fails. *)
Fixpoint hashes (n : nat) (k : string -> option Re.result) (s : string)
  : option Re.result :=
  match n with
  | O => k s
  | S n' =>
      match s with
      | String x s' =>
          if Ascii.eqb x "#"
          then match hashes n' k s' with
               | Some r => Some r
               | None => k s
               end
          else k s
      | EmptyString => k s
      end
  end.

(** [(.+)$] from [s2], after the group [g1]. *)
Definition title_and_eol (g1 s2 : string) : option Re.result :=
  match s2 with
  | String x s3 =>
      if Re.dot x
      then Re.greedy_star Re.dot
             (fun s4 =>
                if at_eol s4
                then Some ([g1; String.substring 0
                                  (String.length s2 - String.length s4) s2],
                           s4)
                else None) s3
      else None
  | EmptyString => None
  end.

(** [(#{1,6})\s*(.+)$] at the start of [s]: the two groups and the text
    left after the match. *)
Definition match_header (s : string) : option Re.result :=
  match s with
  | String x s' =>
      if Ascii.eqb x "#"
      then hashes 5
             (fun s1 =>
                Re.greedy_star PyStr.is_space
                  (title_and_eol
                     (String.substring 0
                        (String.length s - String.length s1) s)) s1) s'
      else None
  | EmptyString => None
  end.

(** A match of [header_pattern]: [match.start()], [match.group(0)] and
    [match.group(1)]. *)
Record HeaderMatch : Type := mkHeaderMatch {
  m_start : nat;
  m_text : string;
  m_hashes : string
}.

(** [header_pattern.finditer(text)], from position [pos]: [bol] tells
    whether [pos] starts a line, [skip] counts the characters of the last
    match still to be passed over. *)
Fixpoint finditer_from (s : string) (pos : nat) (bol : bool) (skip : nat)
  : list HeaderMatch :=
  match s with
  | EmptyString => []
  | String c s' =>
      let bol' := Ascii.eqb c PyStr.nl in
      match skip with
      | S k => finditer_from s' (S pos) bol' k
      | O =>
          match (if bol then match_header s else None) with
          | Some (caps, rest) =>
              mkHeaderMatch pos
                (String.substring 0 (String.length s - String.length rest) s)
                (nth 0 caps "")
              :: finditer_from s' (S pos) bol'
                   (String.length s - String.length rest - 1)
          | None => finditer_from s' (S pos) bol' 0
          end
      end
  end.

Definition finditer (text : string) : list HeaderMatch :=
  finditer_from text 0 true 0.

Record Chunk : Type := mkChunk {
  header : option string;
  level : option nat;
  content : string;
  part : option nat
}.

(** The body of the loop over the matches, for the match [m] and the
    [end_index] computed for it. *)
Definition chunks_of_match (markdown_text : string) (split_threshold : nat)
  (m : HeaderMatch) (end_index : nat) : list Chunk :=
  let header_line := PyStr.strip (m_text m) in
  let header_level := String.length (m_hashes m) in
  let chunk_text :=
    PyStr.strip (PyLib.slice markdown_text (m_start m) end_index) in
  let words := PyLib.split_ws chunk_text in
  if (split_threshold <? List.length words)%nat then
    let mid_point := List.length words / 2 in
    [mkChunk (Some header_line) (Some header_level)
       (PyStr.join " " (firstn mid_point words)) (Some 1);
     mkChunk (Some header_line) (Some header_level)
       (PyStr.join " " (skipn mid_point words)) (Some 2)]
  else
    [mkChunk (Some header_line) (Some header_level) chunk_text None].

Fixpoint chunk_loop (markdown_text : string) (split_threshold : nat)
  (matches : list HeaderMatch) : list Chunk :=
  match matches with
  | [] => []
  | m :: rest =>
      let end_index :=
        match rest with
        | next :: _ => m_start next
        | [] => String.length markdown_text
        end in
      (chunks_of_match markdown_text split_threshold m end_index
       ++ chunk_loop markdown_text split_threshold rest)%list
  end.

(** [chunk_markdown_by_headers]; [int(1.5 * n)] is [n + n / 2] for every
    count a float holds exactly. *)
Definition chunk_markdown_by_headers (markdown_text : string)
  (ideal_word_count : nat) : list Chunk :=
  let split_threshold := ideal_word_count + ideal_word_count / 2 in
  match finditer markdown_text with
  | [] => [mkChunk None None (PyStr.strip markdown_text) None]
  | matches => chunk_loop markdown_text split_threshold matches
  end.

End Chunking.

(** A word: not empty, and without white space. *)
Definition is_word (w : string) : Prop :=
  w <> "" /\ all_chars (fun c => negb (PyStr.is_space c)) w = true.

(** The words of a chunk. *)
Definition chunk_words (c : Chunking.Chunk) : list string :=
  PyLib.split_ws (Chunking.content c).



(** Position [p] of [text] starts a line. *)
Definition line_start (text : string) (p : nat) : Prop :=
  p = 0 \/ String.get (p - 1) text = Some PyStr.nl.

(* ================================================================== *)
(** * The Pinecone assistant ([pinecone_db.py])

    The HTTP client, the sentence transformer, the Pinecone index and the
    Gemini model are fields of an [Env]; an embedding is a value of a type
    [Emb] the code does not look into. *)

Module PineconeDb.

(** [mapping.get(quarter_word, "Unknown")] *)
Definition quarter_of (quarter_word : string) : string :=
  if (quarter_word =? "first")%string then "1"
  else if (quarter_word =? "second")%string then "2"
  else if (quarter_word =? "third")%string then "3"
  else if (quarter_word =? "fourth")%string then "4"
  else "Unknown".

(** The inner [extract_year_and_quarter] *)
Definition extract_year_and_quarter (file_path : string) : string * string :=
  let base := PyLib.basename file_path in
  let name := fst (PyLib.splitext base) in
  match PyStr.split "_" name with
  | year :: quarter_word :: _ => (year, quarter_of (PyStr.lower quarter_word))
  | _ => ("Unknown", "Unknown")
  end.

(** [extract_filename_year_quarter], from [urlparse(url).path]. *)
Definition extract_filename_year_quarter (path : string)
  : string * string * string :=
  let filename := PyLib.basename path in
  let (year, quarter) := extract_year_and_quarter filename in
  (filename, year, quarter).

(** The metadata of a vector; [None] is Python's. *)
Record Metadata : Type := mkMetadata {
  md_text : string;
  md_header : option string;
  md_level : string;
  md_part : string;
  md_year : string;
  md_quarter : string;
  md_filename : string
}.

(** One match of a query: the metadata keys the search reads, where the
    match has them. *)
Record Match : Type := mkMatch {
  match_text : option string;
  match_year : option string;
  match_quarter : option string
}.

Record Env (Emb : Type) : Type := mkEnv {
  (** [requests.get(url)], [raise_for_status()] and [response.text] *)
  http_get : string -> outcome string;
  (** [self.model.encode(texts).tolist()] *)
  encode : list string -> outcome (list Emb);
  (** [self.index.upsert(vectors)] *)
  upsert : list (string * Emb * Metadata) -> outcome unit;
  (** [self.index.query(vector, top_k, filter).get("matches", [])] *)
  index_query : list Emb -> nat -> YearQuarterDict -> outcome (list Match);
  (** [self.gemini_model.generate_content(prompt).text], for the question
      and the context put in the prompt *)
  gemini : string -> string -> outcome string
}.
Arguments http_get {Emb} e _.
Arguments encode {Emb} e _.
Arguments upsert {Emb} e _.
Arguments index_query {Emb} e _ _ _.
Arguments gemini {Emb} e _ _.

(** [str(x)] of an optional number. *)
Definition str_of_option (x : option nat) : string :=
  match x with Some n => PyStr.of_nat n | None => "None" end.

(** The loop of [insert_embeddings] over [enumerate(zip(chunks,
    embeddings))], from index [i]. *)
Fixpoint pinecone_data {Emb : Type} (year quarter filename : string)
  (i : nat) (chunks : list Chunking.Chunk) (embeddings : list Emb)
  : list (string * Emb * Metadata) :=
  match chunks, embeddings with
  | chunk :: chunks', embedding :: embeddings' =>
      (year ++ "_" ++ quarter ++ "_" ++ PyStr.of_nat i, embedding,
       mkMetadata (Chunking.content chunk) (Chunking.header chunk)
         (str_of_option (Chunking.level chunk))
         (str_of_option (Chunking.part chunk))
         year quarter filename)
      :: pinecone_data year quarter filename (S i) chunks' embeddings'
  | _, _ => []
  end.

(** [insert_embeddings]: the batch handed to [upsert], if the call gets
    that far; an exception is logged and nothing is raised. *)
Definition insert_embeddings {Emb : Type} (E : Env Emb)
  (presigned_url year quarter filename : string)
  : option (list (string * Emb * Metadata)) :=
  match http_get E presigned_url with
  | Raise _ => None
  | Ret markdown_text =>
      let chunks := Chunking.chunk_markdown_by_headers markdown_text 500 in
      match chunks with
      | [] => None
      | _ :: _ =>
          let chunk_texts := map Chunking.content chunks in
          match encode E chunk_texts with
          | Raise _ => None
          | Ret embeddings =>
              Some (pinecone_data year quarter filename 0 chunks embeddings)
          end
      end
  end.

(** One line of the context built for the model. *)
Definition context_line (text year quarter : string) : string :=
  "Year: " ++ year ++ ", Quarter: " ++ quarter ++ " - " ++ text.

(** [match["metadata"][key]] for the three keys, [KeyError] when one is
    missing. *)
Fixpoint retrieved_data (matches : list Match)
  : outcome (list (string * string * string)) :=
  match matches with
  | [] => Ret []
  | m :: rest =>
      match match_text m, match_year m, match_quarter m with
      | Some text, Some year, Some quarter =>
          match retrieved_data rest with
          | Ret l => Ret ((text, year, quarter) :: l)
          | Raise e => Raise e
          end
      | None, _, _ => Raise "KeyError: 'text'"
      | _, None, _ => Raise "KeyError: 'year'"
      | _, _, None => Raise "KeyError: 'quarter'"
      end
  end.

(** The body of the [try] of [search_pinecone_db]. *)
Definition search_body {Emb : Type} (E : Env Emb) (query : string)
  (query_embedding : list Emb) (year_quarter_dict : YearQuarterDict)
  (top_k : nat) : outcome string :=
  match index_query E query_embedding top_k year_quarter_dict with
  | Raise e => Raise e
  | Ret [] =>
      Ret "No relevant information found for the specified year and quarters."
  | Ret matches =>
      match retrieved_data matches with
      | Raise e => Raise e
      | Ret data =>
          let context :=
            PyStr.join NL
              (map (fun d => context_line (fst (fst d)) (snd (fst d)) (snd d))
                 data) in
          gemini E query context
      end
  end.

(** [search_pinecone_db]: the embedding of the query is computed outside
    the [try]. *)
Definition search_pinecone_db {Emb : Type} (E : Env Emb) (query : string)
  (year_quarter_dict : YearQuarterDict) (top_k : nat) : outcome string :=
  match encode E [query] with
  | Raise e => Raise e
  | Ret query_embedding =>
      match search_body E query query_embedding year_quarter_dict top_k with
      | Ret text => Ret text
      | Raise _ => Ret "Error occurred during search."
      end
  end.

End PineconeDb.

(** A world whose Pinecone backend is the assistant above, constructed
    or not as in [W]. *)
Definition with_pinecone_db {Emb : Type} (W : World)
  (E : PineconeDb.Env Emb) : World :=
  mkWorld (llm_invoke W) (str_hash W) (pinecone_init W)
    (PineconeDb.search_pinecone_db E)
    (web_agent_run W) (generate_snowflake_insights W).

Module SamplePinecone.

(** Embeddings are numbers; the index holds one match without a text. *)
Definition broken_index : PineconeDb.Env nat :=
  PineconeDb.mkEnv nat
    (fun _ => Ret ("# Report" ++ NL ++ "Revenue grew." ++ NL
                   ++ "## Outlook" ++ NL ++ "Stable."))
    (fun texts => Ret (map String.length texts))
    (fun _ => Ret tt)
    (fun _ _ _ => Ret [PineconeDb.mkMatch None (Some "2024") (Some "1")])
    (fun _ _ => Ret "Revenue was 26.0 billion.").

End SamplePinecone.

(* ================================================================== *)
(** * The ingestion pipeline ([nvidia_pipeline.py]) and S3 ([s3_utils.py]) *)

Module Pipeline.

(** [input_url[3:-3]] *)
Definition middle (input_url : string) : string :=
  String.substring 3 (String.length input_url - 3 - 3) input_url.

(** The key [convert_markdown_s3_upload] writes the markdown of
    [input_url] to. *)
Definition output_url (input_url : string) : string :=
  "markdown" ++ middle input_url ++ "md".

(** The body of the loop of [generate_pinecone_embeddings], for the path of
    a presigned URL. *)
Definition embed_document {Emb : Type} (E : PineconeDb.Env Emb)
  (url path : string)
  : option (list (string * Emb * PineconeDb.Metadata)) :=
  let '(filename, year, quarter) :=
    PineconeDb.extract_filename_year_quarter path in
  PineconeDb.insert_embeddings E url year quarter filename.

End Pipeline.

Module S3Utils.

(** The key [upload_file_to_s3] stores a file under. *)
Definition s3_key (filename folder : string) (is_temp : bool) : string :=
  if is_temp && (folder =? "visualizations")%string
  then folder ++ "/temp/" ++ filename
  else folder ++ "/" ++ filename.

(** The [ExpiresIn] that [generate_presigned_url] asks for. *)
Definition actual_expiry (s3_key : string) (expiry : N) : N :=
  if PyStr.contains "/visualizations/temp/" s3_key
  then N.min 7200 expiry
  else expiry.

End S3Utils.

(* ================================================================== *)
(** * The frontend ([frontend/app.py])

    The state of the widgets (the query typed, the mode chosen, the years
    selected, the boxes ticked) is an argument; what Streamlit draws for a
    result is a list of [Widget]s.  The fixed decoration around the result
    (cards, the timing line, the column layout) is left out. *)

Module Frontend.

(** The options of the radio button. *)
Definition options : list string :=
  ["Pinecone RAG Search"; "Web Search"; "Snowflake RAG Search";
   "Combined Research"].

(** The quarters of a year in the sidebar: [checked year q] tells whether
    the box of quarter [q] is ticked. *)
Definition quarters_of (checked : nat -> string -> bool) (year : nat)
  : list string :=
  filter (checked year) ["1"; "2"; "3"; "4"].

(** [quarters_dict] of [display_sidebar]: one entry per selected year, from
    the last selected to the first. *)
Definition display_sidebar (checked : nat -> string -> bool)
  (years : list nat) : list (nat * list string) :=
  map (fun year => (year, quarters_of checked year)) (rev years).

(** [quarters_dict[year]], where the key exists. *)
Fixpoint lookup (quarters_dict : list (nat * list string)) (year : nat)
  : option (list string) :=
  match quarters_dict with
  | [] => None
  | (y, quarters) :: rest =>
      if (y =? year)%nat then Some quarters else lookup rest year
  end.

(** [quarters_dict.get(year, [])] *)
Definition get (quarters_dict : list (nat * list string)) (year : nat)
  : list string :=
  match lookup quarters_dict year with
  | Some quarters => quarters
  | None => []
  end.

(** [{str(year): quarters_dict[year] for year in years}]; the years of a
    multiselect are distinct, so no key is written twice. *)
Fixpoint year_quarter_dict (quarters_dict : list (nat * list string))
  (years : list nat) : option YearQuarterDict :=
  match years with
  | [] => Some []
  | year :: rest =>
      match lookup quarters_dict year with
      | None => None
      | Some quarters =>
          match year_quarter_dict quarters_dict rest with
          | Some d => Some ((PyStr.of_nat year, quarters) :: d)
          | None => None
          end
      end
  end.

(** [mode_mapping[action]], where the key exists. *)
Definition mode_mapping (action : string) : option string :=
  if (action =? "Pinecone RAG Search")%string then Some "pinecone"
  else if (action =? "Web Search")%string then Some "web_search"
  else if (action =? "Snowflake RAG Search")%string then Some "snowflake"
  else if (action =? "Combined Research")%string then Some "combined"
  else None.

(** What a click on the submit button leads to: a message of the input
    validation, the request posted to [/research], or a [KeyError]. *)
Inductive Submission : Type :=
| Rejected (message : string)
| Posted (research_request : ResearchRequest)
| KeyError.

(** Lines 295-320 *)
Definition submit (prompt action : string) (years : list nat)
  (quarters_dict : list (nat * list string)) : Submission :=
  if negb (PyStr.truthy prompt) then
    Rejected "⚠️ Please enter a research query before submitting."
  else if PySet.mem action ["Pinecone RAG Search"; "Combined Research"]
          && match years with [] => true | _ :: _ => false end then
    Rejected "⚠️ Please select at least one year for this research mode."
  else if PySet.mem action ["Pinecone RAG Search"; "Combined Research"]
          && forallb (fun year =>
                        (List.length (get quarters_dict year) =? 0)%nat)
               years then
    Rejected "⚠️ Please select at least one quarter for this research mode."
  else
    match year_quarter_dict quarters_dict years with
    | None => KeyError
    | Some d =>
        match mode_mapping action with
        | None => KeyError
        | Some mode => Posted (mkResearchRequest prompt d mode)
        end
    end.

(** What the page draws for a result. *)
Inductive Widget : Type :=
| StMarkdown (body : string)
| StImage (image caption : string)
| StError (body : string).

Record Env : Type := mkEnv {
  (** [st.image(url, caption=title)], which can fail to load the image *)
  st_image : string -> string -> outcome unit;
  (** [response.text] of an HTTP 500 with the given detail *)
  error_text : string -> string
}.

(** [(!\[.*?\]\(.*?\))] *)
Definition segment_re : Re.pattern :=
  ([Re.GOpen] ++ Re.lits "![" ++ [Re.LazyStar Re.dot] ++ Re.lits "]("
   ++ [Re.LazyStar Re.dot] ++ Re.lits ")" ++ [Re.GClose])%list.

(** [!\[(.*?)\]\((.*?)\)] *)
Definition image_re : Re.pattern :=
  (Re.lits "![" ++ [Re.GOpen; Re.LazyStar Re.dot; Re.GClose] ++ Re.lits "]("
   ++ [Re.GOpen; Re.LazyStar Re.dot; Re.GClose] ++ Re.lits ")")%list.

(** [re.split(pat, s)] for a pattern that matches no empty text: the text
    before each match, then the groups of the match, and the text after the
    last one.  [skip] counts the characters of the last match still to be
    passed over. *)
Fixpoint split_from (pat : Re.pattern) (s : string) (skip : nat)
  : list string :=
  match s with
  | EmptyString => [""]
  | String c s' =>
      match skip with
      | S k => split_from pat s' k
      | O =>
          match Re.rmatch pat s [] [] with
          | Some (caps, rest) =>
              ("" :: caps
               ++ split_from pat s'
                    (String.length s - String.length rest - 1))%list
          | None =>
              match split_from pat s' 0 with
              | piece :: pieces => String c piece :: pieces
              | [] => [String c ""]
              end
          end
      end
  end.

Definition re_split (pat : Re.pattern) (s : string) : list string :=
  split_from pat s 0.

(** [re.search(pat, s)]: the groups of the first match. *)
Fixpoint re_search (pat : Re.pattern) (s : string) : option (list string) :=
  match Re.rmatch pat s [] [] with
  | Some (caps, _) => Some caps
  | None =>
      match s with
      | EmptyString => None
      | String _ s' => re_search pat s'
      end
  end.

(** [display_visualization]: the image, or the error and a link when it
    cannot be loaded.  The expanded view is never drawn, its flag in the
    session state being set to [False] and never changed. *)
Definition display_visualization (E : Env) (segment : string)
  : list Widget :=
  match re_search image_re segment with
  | Some [title; image_url] =>
      match st_image E image_url title with
      | Ret _ => [StImage image_url title]
      | Raise e =>
          [StError ("Failed to load visualization: " ++ e);
           StMarkdown ("[View Image Directly](" ++ image_url ++ ")")]
      end
  | _ => []
  end.

(** Lines 352-365: the result, cut at its images. *)
Definition display_result (E : Env) (result : string) : list Widget :=
  if PyStr.contains "![" result && PyStr.contains "](" result then
    flat_map (fun segment =>
                if PyStr.startswith "![" segment
                then display_visualization E segment
                else [StMarkdown segment])
             (re_split segment_re result)
  else [StMarkdown result].

(** Lines 327-369: what is drawn for the answer of [/research]. *)
Definition display_response (E : Env) (response : Response) : list Widget :=
  match response with
  | ResultBody result _ => display_result E result
  | ErrorBody _ => display_result E "No result received."
  | ServerError detail =>
      [StError ("❌ Error: 500 - " ++ error_text E detail)]
  end.

End Frontend.

(** The markdown of an image the finalizer appends, and of its caption. *)
Definition image_markdown (v : VizRef) : string :=
  "![" ++ ref_title v ++ "](" ++ ref_url v ++ ")".

Definition caption_markdown (v : VizRef) : string :=
  NL ++ NL ++ "*" ++ ref_caption v ++ "*" ++ NL ++ NL.

(** An image the page can cut out of a text: title and URL on one line, no
    closing bracket in the title, no closing parenthesis in the URL, and no
    image mark in the caption. *)
Definition image_ok (v : VizRef) : bool :=
  all_chars Re.dot (ref_title v) && lacks "]" (ref_title v)
  && all_chars Re.dot (ref_url v) && lacks ")" (ref_url v)
  && negb (PyStr.contains "![" (ref_caption v)).

(* ================================================================== *)
(** * Facts about strings and sets *)

Section StringFacts.

Lemma append_nil_r (s : string) : s ++ "" = s.
Proof. induction s; simpl; congruence. Qed.

Lemma append_assoc (a b c : string) : (a ++ b) ++ c = a ++ b ++ c.
Proof. induction a; simpl; congruence. Qed.

Lemma length_append (a b : string) :
  String.length (a ++ b) = String.length a + String.length b.
Proof. induction a; simpl; congruence. Qed.

Lemma startswith_spec (p s : string) :
  PyStr.startswith p s = true <-> exists r, s = p ++ r.
Proof.
  revert s; induction p as [|a p IH]; intros s; simpl.
  - split; eauto.
  - destruct s as [|b s].
    + split; [discriminate | intros [r H]; discriminate].
    + rewrite andb_true_iff, IH. split.
      * intros [E [r ->]]. apply Ascii.eqb_eq in E. subst. eauto.
      * intros [r H]. injection H as -> ->. rewrite Ascii.eqb_refl. eauto.
Qed.

Lemma contains_spec (needle s : string) :
  PyStr.contains needle s = true <-> Substring needle s.
Proof.
  unfold Substring. induction s as [|c s IH].
  - simpl. rewrite orb_false_r, startswith_spec. split.
    + intros [r H]. exists "", r. exact H.
    + intros [a [b H]]. destruct a; [eauto | discriminate].
  - cbn [PyStr.contains]. rewrite orb_true_iff, startswith_spec, IH. split.
    + intros [[r H] | [a [b H]]].
      * exists "", r. exact H.
      * exists (String c a), b. simpl. now rewrite H.
    + intros [a [b H]]. destruct a as [|c' a].
      * left. eauto.
      * right. injection H as _ H. eauto.
Qed.

Lemma not_contains_spec (needle s : string) :
  PyStr.contains needle s = false <-> ~ Substring needle s.
Proof.
  rewrite <- contains_spec. destruct (PyStr.contains needle s); split;
    intros; try congruence; exfalso; auto.
Qed.

End StringFacts.

Section SetFacts.

Lemma mem_spec (x : string) (s : list string) :
  PySet.mem x s = true <-> In x s.
Proof.
  unfold PySet.mem. rewrite existsb_exists. split.
  - intros [y [Hy E]]. apply String.eqb_eq in E. now subst.
  - intros H. exists x. split; [exact H | apply String.eqb_refl].
Qed.

Lemma insert_by_In (h : string -> nat) (x y : string) (l : list string) :
  In y (PySet.insert_by h x l) <-> y = x \/ In y l.
Proof.
  induction l as [|z l IH]; simpl.
  - intuition.
  - destruct (h x <=? h z)%nat; simpl; intuition.
Qed.

Lemma to_list_In (h : string -> nat) (y : string) (s : list string) :
  In y (PySet.to_list h s) <-> In y s.
Proof.
  induction s as [|x s IH]; simpl; [tauto|].
  rewrite insert_by_In, IH. intuition.
Qed.

Lemma first_In (h : string -> nat) (s : list string) (x : string) :
  PySet.first h s = Ret x -> In x s.
Proof.
  unfold PySet.first. destruct (PySet.to_list h s) as [|y l] eqn:E;
    [discriminate|].
  intros H. injection H as ->. apply (to_list_In h). rewrite E. now left.
Qed.

Lemma first_nonempty (h : string -> nat) (s : list string) :
  s <> [] -> exists x, PySet.first h s = Ret x.
Proof.
  intros Hs. unfold PySet.first.
  destruct (PySet.to_list h s) as [|y l] eqn:E; eauto.
  destruct s as [|x s]; [congruence|].
  assert (In x (PySet.to_list h (x :: s))) by (apply to_list_In; now left).
  rewrite E in H. destruct H.
Qed.

End SetFacts.

(* ================================================================== *)
(** * The oracle's normalization *)

(** C10: the substring checks are applied in the order pinecone, web, snow:
    a chosen tool containing "pinecone" is normalized to pinecone whatever
    else it contains, and one containing "web" but not "pinecone" to
    web_search, whether or not it contains "snow". *)
Theorem normalize_tool_precedence (chosen_tool : string) :
  (Substring "pinecone" chosen_tool ->
   normalize_tool chosen_tool = "pinecone")
  /\ (Substring "web" chosen_tool -> ~ Substring "pinecone" chosen_tool ->
      normalize_tool chosen_tool = "web_search").
Proof.
  unfold normalize_tool. split.
  - intros H. apply contains_spec in H. now rewrite H.
  - intros Hw Hp. apply contains_spec in Hw. apply not_contains_spec in Hp.
    now rewrite Hp, Hw.
Qed.

Lemma normalize_tool_precedence_witness :
  normalize_tool "snow, web or pinecone" = "pinecone"
  /\ normalize_tool "snow or web_search" = "web_search".
Proof.
  split.
  - apply (proj1 (normalize_tool_precedence "snow, web or pinecone")).
    exists "snow, web or ", "". reflexivity.
  - apply (proj2 (normalize_tool_precedence "snow or web_search")).
    + exists "snow or ", "_search". reflexivity.
    + apply not_contains_spec. vm_compute. reflexivity.
Defined.

Lemma normalize_tool_cases (s : string) :
  In (normalize_tool s) ["pinecone"; "web_search"; "snowflake"; "final_answer"].
Proof.
  unfold normalize_tool.
  destruct (PyStr.contains "pinecone" s); [simpl; auto|].
  destruct (PyStr.contains "web" s); [simpl; auto|].
  destruct (PyStr.contains "snow" s); simpl; auto.
Qed.

Lemma normalize_tool_real (t : string) :
  In t all_tools -> normalize_tool t = t.
Proof.
  intros [<- | [<- | [<- | []]]]; reflexivity.
Qed.

(* ================================================================== *)
(** * The router *)

Lemma router_last (l : list AgentAction) (a : AgentAction) :
  router (StepsList (l ++ [a])) = tool_to_node (tool a).
Proof. unfold router. now rewrite rev_app_distr. Qed.

Lemma tool_to_node_unknown (t : string) :
  ~ In t ["pinecone"; "web_search"; "snowflake"; "final_answer"] ->
  tool_to_node t = None.
Proof.
  intros H. unfold tool_to_node.
  repeat match goal with
  | |- context [String.eqb t ?c] =>
      destruct (String.eqb_spec t c) as [->|_];
      [exfalso; apply H; simpl; tauto|]
  end.
  reflexivity.
Qed.

(** C5, as the code has it: the router is a function of the last Action's
    tool alone, it follows the fixed table, and it answers final_answer on an
    empty history and on a value that is no list; for a last tool outside
    the table it answers [None], not final_answer. *)
Theorem router_table :
  (forall l1 l2 a1 a2, tool a1 = tool a2 ->
     router (StepsList (l1 ++ [a1])) = router (StepsList (l2 ++ [a2])))
  /\ (forall l a,
        (tool a = "pinecone" ->
         router (StepsList (l ++ [a])) = Some "rag_search")
        /\ (tool a = "web_search" ->
            router (StepsList (l ++ [a])) = Some "web_search")
        /\ (tool a = "snowflake" ->
            router (StepsList (l ++ [a])) = Some "snowflake_search")
        /\ (tool a = "final_answer" ->
            router (StepsList (l ++ [a])) = Some "final_answer")
        /\ (~ In (tool a)
              ["pinecone"; "web_search"; "snowflake"; "final_answer"] ->
            router (StepsList (l ++ [a])) = None))
  /\ router (StepsList []) = Some "final_answer"
  /\ router NotAList = Some "final_answer".
Proof.
  split; [|split; [|split]]; try reflexivity.
  - intros l1 l2 a1 a2 H. now rewrite !router_last, H.
  - intros l a. rewrite router_last.
    repeat split; try (intros ->; reflexivity).
    apply tool_to_node_unknown.
Qed.

Lemma router_table_witness :
  router (StepsList [mkAgentAction "final_answer" (mkToolInput None None) "";
                     mkAgentAction "snowflake" (mkToolInput None None) "x"])
  = router (StepsList [mkAgentAction "snowflake" (mkToolInput None None) "y"])
  /\ router (StepsList [mkAgentAction "pinecone" (mkToolInput None None) ""])
     = Some "rag_search"
  /\ router (StepsList [mkAgentAction "tool" (mkToolInput None None) ""])
     = None.
Proof.
  split; [|split].
  - apply (proj1 router_table
             [mkAgentAction "final_answer" (mkToolInput None None) ""] []
             (mkAgentAction "snowflake" (mkToolInput None None) "x")
             (mkAgentAction "snowflake" (mkToolInput None None) "y")).
    reflexivity.
  - apply (proj1 (proj1 (proj2 router_table) []
             (mkAgentAction "pinecone" (mkToolInput None None) ""))).
    reflexivity.
  - apply (proj2 (proj2 (proj2 (proj2 (proj1 (proj2 router_table) []
             (mkAgentAction "tool" (mkToolInput None None) "")))))).
    simpl. intuition discriminate.
Defined.

(** C5 as stated fails: a history whose last Action carries a tool name
    outside the table (here a result Action) is not routed to final_answer. *)
Lemma router_unrecognized_tool_counterexample :
  router (StepsList
            [mkAgentAction "pinecone" (mkToolInput (Some "q") (Some [])) "";
             mkAgentAction "rag_search_result" (mkToolInput (Some "q") (Some []))
               "text"])
  = None
  /\ router (StepsList
               [mkAgentAction "pinecone" (mkToolInput (Some "q") (Some [])) "";
                mkAgentAction "rag_search_result"
                  (mkToolInput (Some "q") (Some [])) "text"])
     <> Some "final_answer".
Proof. split; [reflexivity | discriminate]. Qed.

(* ================================================================== *)
(** * Request validation *)

Lemma mem_false_not_In (x : string) (s : list string) :
  ~ In x s -> PySet.mem x s = false.
Proof.
  intros H. destruct (PySet.mem x s) eqn:E; [|reflexivity].
  apply mem_spec in E. contradiction.
Qed.

Lemma any_values_all_empty (d : YearQuarterDict) :
  Forall (fun kv => snd kv = []) d -> any_values d = false.
Proof.
  induction 1 as [|kv d Hkv _ IH]; [reflexivity|].
  simpl. now rewrite Hkv, IH.
Qed.

(** C8: a request whose mode is none of the four, and a pinecone, snowflake
    or combined request whose year_quarter_dict is empty or has only empty
    lists of quarters, gets an error body, and [run_research_graph] is not
    called: there is no graph run, hence no Action history. *)
Theorem research_endpoint_rejects (W : World) (request : ResearchRequest) :
  (~ In (req_mode request) ["pinecone"; "web_search"; "snowflake"; "combined"]
   -> exists msg, research_endpoint W request = (ErrorBody msg, None))
  /\ (In (req_mode request) ["pinecone"; "snowflake"; "combined"] ->
      req_year_quarter_dict request = []
      \/ Forall (fun kv => snd kv = []) (req_year_quarter_dict request) ->
      exists msg, research_endpoint W request = (ErrorBody msg, None)).
Proof.
  unfold research_endpoint. split.
  - intros H. unfold valid_modes. rewrite (mem_false_not_In _ _ H). simpl.
    eauto.
  - intros Hm Hd.
    destruct (negb (PySet.mem (req_mode request) valid_modes)); [eauto|].
    apply mem_spec in Hm. rewrite Hm.
    assert (E : (dict_empty (req_year_quarter_dict request)
                 || negb (any_values (req_year_quarter_dict request))) = true).
    { destruct Hd as [-> | Hall]; [reflexivity|].
      rewrite (any_values_all_empty _ Hall). apply orb_true_r. }
    rewrite E. simpl. eauto.
Qed.

(* ================================================================== *)
(** * The loop *)

Section LoopFacts.

Variable W : World.

Lemma mem_app (x : string) (l1 l2 : list string) :
  PySet.mem x (l1 ++ l2)%list = PySet.mem x l1 || PySet.mem x l2.
Proof. apply existsb_app. Qed.

Lemma used_real_flags (l : list string) :
  used_real_tools l
  = ((if PySet.mem "web_search" l then ["web_search"] else [])
     ++ (if PySet.mem "pinecone" l then ["pinecone"] else [])
     ++ (if PySet.mem "snowflake" l then ["snowflake"] else []))%list.
Proof.
  unfold used_real_tools, PySet.restrict, all_tools. cbn [filter].
  destruct (PySet.mem "web_search" l), (PySet.mem "pinecone" l),
    (PySet.mem "snowflake" l); reflexivity.
Qed.

Lemma unused_flags (l : list string) :
  unused_tools l
  = ((if PySet.mem "web_search" l then [] else ["web_search"])
     ++ (if PySet.mem "pinecone" l then [] else ["pinecone"])
     ++ (if PySet.mem "snowflake" l then [] else ["snowflake"]))%list.
Proof.
  unfold unused_tools. rewrite used_real_flags.
  destruct (PySet.mem "web_search" l), (PySet.mem "pinecone" l),
    (PySet.mem "snowflake" l); reflexivity.
Qed.

Lemma unused_in_all (l : list string) (t : string) :
  In t (unused_tools l) -> In t all_tools.
Proof. unfold unused_tools, PySet.diff. rewrite filter_In. tauto. Qed.

Lemma unused_not_used (l : list string) (t : string) :
  In t (unused_tools l) -> ~ In t l.
Proof.
  rewrite unused_flags. intros H Hl. apply mem_spec in Hl.
  destruct (PySet.mem "web_search" l) eqn:E1,
    (PySet.mem "pinecone" l) eqn:E2, (PySet.mem "snowflake" l) eqn:E3;
    simpl in H; intuition (subst; congruence).
Qed.

(** Fewer than three used tools exactly when some tool is unused. *)
Lemma used_lt_3 (l : list string) :
  (List.length (used_real_tools l) <? 3)%nat
  = match unused_tools l with [] => false | _ :: _ => true end.
Proof.
  rewrite used_real_flags, unused_flags.
  destruct (PySet.mem "web_search" l), (PySet.mem "pinecone" l),
    (PySet.mem "snowflake" l); reflexivity.
Qed.

(** What a tool cycle does to the set of unused tools. *)
Lemma unused_after_cycle (l : list string) (t : string) :
  In t (unused_tools l) ->
  List.length (unused_tools l)
  = S (List.length (unused_tools (l ++ [t; result_tool t])%list))
  /\ forall x, In x (unused_tools (l ++ [t; result_tool t])%list) ->
               In x (unused_tools l) /\ x <> t.
Proof.
  rewrite !unused_flags, !mem_app.
  destruct (PySet.mem "web_search" l), (PySet.mem "pinecone" l),
    (PySet.mem "snowflake" l); simpl;
    intros H; repeat (destruct H as [<- | H]; [|]); try destruct H;
    (split; [reflexivity|]); simpl; intros x Hx;
    intuition (subst; congruence).
Qed.

Lemma unused_after_cycle_keeps (l : list string) (t x : string) :
  In t (unused_tools l) -> In x (unused_tools l) -> x <> t ->
  In x (unused_tools (l ++ [t; result_tool t])%list).
Proof.
  rewrite !unused_flags, !mem_app.
  destruct (PySet.mem "web_search" l), (PySet.mem "pinecone" l),
    (PySet.mem "snowflake" l); simpl;
    intros H; repeat (destruct H as [<- | H]; [|]); try destruct H;
    simpl; intuition congruence.
Qed.

End LoopFacts.

Section OracleFacts.

Variable W : World.

Lemma last_step_append (st : ResearchState) (a : AgentAction) :
  last_step (append_step st a) = Ret a.
Proof.
  unfold last_step, append_step, set_steps. simpl.
  now rewrite rev_app_distr.
Qed.

(** The chosen tool of a combined run whose history is not empty and which
    has tools left: the model's answer when it is, as it stands, the name of
    an unused tool, and the first unused tool in set order otherwise. *)
Lemma choose_tool_next (calls : nat) (st : ResearchState) :
  mode st = "combined" ->
  intermediate_steps st <> [] ->
  unused_tools (map tool (intermediate_steps st)) <> [] ->
  let unused := unused_tools (map tool (intermediate_steps st)) in
  let chosen :=
    PyStr.lower (PyStr.strip
      (llm_invoke W calls
         (NextToolPrompt (input st)
            (PySet.to_list (str_hash W)
               (used_real_tools (map tool (intermediate_steps st))))
            (PySet.to_list (str_hash W) unused)))) in
  exists t,
    choose_tool W calls st = Ret (t, S calls)
    /\ In t unused
    /\ (PySet.mem chosen unused = true -> t = chosen)
    /\ (PySet.mem chosen unused = false ->
        PySet.first (str_hash W) unused = Ret t).
Proof.
  intros Hm Hs Hu. cbv zeta. unfold choose_tool. rewrite Hm.
  change (PySet.mem "combined" ["pinecone"; "web_search"; "snowflake"])
    with false.
  change ("combined" =? "combined")%string with true. cbv iota.
  destruct (map tool (intermediate_steps st)) as [|u us] eqn:El.
  { destruct (intermediate_steps st); [congruence | discriminate]. }
  fold (used_real_tools (u :: us)). rewrite used_lt_3.
  fold (unused_tools (u :: us)).
  remember (unused_tools (u :: us)) as unused eqn:Eu.
  remember (PyStr.lower (PyStr.strip (llm_invoke W calls
              (NextToolPrompt (input st)
                 (PySet.to_list (str_hash W) (used_real_tools (u :: us)))
                 (PySet.to_list (str_hash W) unused))))) as chosen eqn:Ech.
  clear Eu Ech.
  destruct unused as [|x xs] eqn:Eu; [congruence|]. rewrite <- Eu in *.
  destruct (PySet.mem chosen unused) eqn:Ec; cbn [negb].
  - exists chosen. repeat split; auto; try discriminate.
    now apply mem_spec.
  - destruct (first_nonempty (str_hash W) unused) as [t Ht];
      [rewrite Eu; discriminate|].
    rewrite Ht. exists t. repeat split; auto; try discriminate.
    eapply first_In; eauto.
Qed.

Lemma run_oracle_next (calls : nat) (st : ResearchState) :
  mode st = "combined" ->
  intermediate_steps st <> [] ->
  unused_tools (map tool (intermediate_steps st)) <> [] ->
  exists t,
    In t (unused_tools (map tool (intermediate_steps st)))
    /\ run_oracle W calls st = Ret (append_step st (selection st t), S calls).
Proof.
  intros Hm Hs Hu.
  destruct (choose_tool_next calls st Hm Hs Hu) as [t [Hc [Hin _]]].
  exists t. split; [exact Hin|].
  unfold run_oracle. rewrite Hc.
  rewrite (normalize_tool_real t (unused_in_all _ _ Hin)). reflexivity.
Qed.

Lemma run_oracle_done (calls : nat) (st : ResearchState) :
  mode st = "combined" ->
  intermediate_steps st <> [] ->
  unused_tools (map tool (intermediate_steps st)) = [] ->
  run_oracle W calls st
  = Ret (append_step st (selection st "final_answer"), calls).
Proof.
  intros Hm Hs Hu. unfold run_oracle, choose_tool, selection. rewrite Hm.
  change (PySet.mem "combined" ["pinecone"; "web_search"; "snowflake"])
    with false.
  change ("combined" =? "combined")%string with true. cbv iota.
  destruct (map tool (intermediate_steps st)) as [|u us] eqn:El.
  { destruct (intermediate_steps st); [congruence | discriminate]. }
  fold (used_real_tools (u :: us)). rewrite used_lt_3.
  fold (unused_tools (u :: us)). rewrite Hu. reflexivity.
Qed.

Lemma run_oracle_first (calls : nat) (st : ResearchState) :
  mode st = "combined" ->
  intermediate_steps st = [] ->
  run_oracle W calls st
  = Ret (append_step st
           (selection st
              (normalize_tool
                 (PyStr.lower (PyStr.strip
                    (llm_invoke W calls (OraclePrompt (input st))))))),
         S calls).
Proof.
  intros Hm Hs. unfold run_oracle, choose_tool, selection. rewrite Hm, Hs.
  reflexivity.
Qed.

(** In a single-tool mode the oracle asks no model. *)
Lemma run_oracle_single (calls : nat) (st : ResearchState) :
  In (mode st) ["pinecone"; "web_search"; "snowflake"] ->
  run_oracle W calls st
  = Ret (append_step st
           (selection st
              (match intermediate_steps st with
               | [] => mode st
               | _ :: _ => "final_answer"
               end)), calls).
Proof.
  intros Hm. unfold run_oracle, choose_tool.
  assert (E : PySet.mem (mode st) ["pinecone"; "web_search"; "snowflake"]
              = true) by now apply mem_spec.
  rewrite E.
  destruct (intermediate_steps st) as [|a l]; simpl.
  - rewrite normalize_tool_real; [reflexivity|].
    unfold all_tools. simpl in *. tauto.
  - reflexivity.
Qed.

End OracleFacts.

Section GraphFacts.

Variable W : World.

Lemma graph_invoke_step (limit : nat) (n n' : Node) (r r' : Run) :
  n <> END ->
  graph_step W n r = Ret (n', r') ->
  graph_invoke W (S limit) n r = graph_invoke W limit n' r'.
Proof.
  intros Hn Hs. destruct n; try congruence; cbn [graph_invoke]; now rewrite Hs.
Qed.

Lemma graph_invoke_END (limit : nat) (r : Run) :
  graph_invoke W limit END r = Finished r.
Proof. destruct limit; reflexivity. Qed.

Lemma graph_invoke_fail (limit : nat) (n : Node) (r : Run) (e : string) :
  n <> END ->
  graph_step W n r = Raise e ->
  graph_invoke W (S limit) n r = Failed e r.
Proof.
  intros Hn Hs. destruct n; try congruence; cbn [graph_invoke]; now rewrite Hs.
Qed.

(** The oracle's superstep once it has appended the selection of [t]. *)
Lemma oracle_step_selects (st : ResearchState) (calls calls' : nat)
  (v : list Node) (t : string) :
  In t all_tools ->
  run_oracle W calls st = Ret (append_step st (selection st t), calls') ->
  graph_step W oracle (mkRun st calls v)
  = Ret (node_of_tool t,
         mkRun (append_step st (selection st t)) calls' (v ++ [oracle])).
Proof.
  intros Ht Ho. unfold graph_step. cbn [node_function llm_calls run_state].
  rewrite Ho. cbn [next_node append_step set_steps intermediate_steps].
  rewrite router_last. cbn [selection tool visited].
  destruct Ht as [<- | [<- | [<- | []]]]; reflexivity.
Qed.

Lemma oracle_step_finishes (st : ResearchState) (calls calls' : nat)
  (v : list Node) :
  run_oracle W calls st
  = Ret (append_step st (selection st "final_answer"), calls') ->
  graph_step W oracle (mkRun st calls v)
  = Ret (final_answer_node,
         mkRun (append_step st (selection st "final_answer")) calls'
           (v ++ [oracle])).
Proof.
  intros Ho. unfold graph_step. cbn [node_function llm_calls run_state].
  rewrite Ho. cbn [next_node append_step set_steps intermediate_steps].
  rewrite router_last. reflexivity.
Qed.

(** The adapter's superstep: it appends one result Action and hands control
    back to the oracle; the Pinecone adapter does so provided its client can
    be constructed. *)
Lemma adapter_step (st : ResearchState) (calls : nat) (v : list Node)
  (t : string) :
  (t = "pinecone" -> pinecone_init W = Ret tt) ->
  In t all_tools ->
  exists text,
    graph_step W (node_of_tool t)
      (mkRun (append_step st (selection st t)) calls v)
    = Ret (oracle,
           mkRun (append_step (append_step st (selection st t))
                    (mkAgentAction (result_tool t)
                       (tool_input (selection st t)) text))
             calls (v ++ [node_of_tool t])).
Proof.
  intros Hi Ht. unfold graph_step.
  destruct Ht as [<- | [<- | [<- | []]]];
    cbn [node_of_tool String.eqb Ascii.eqb Bool.eqb node_function
         llm_calls run_state];
    [unfold web_search | unfold rag_search | unfold snowflake_search];
    rewrite last_step_append; try rewrite (Hi eq_refl).
  - eexists. reflexivity.
  - eexists. reflexivity.
  - destruct (generate_snowflake_insights W _ _); eexists; reflexivity.
Qed.

(** The Pinecone adapter's superstep when the client cannot be constructed:
    the exception leaves the node. *)
Lemma rag_step_fails (st : ResearchState) (calls : nat) (v : list Node)
  (e : string) :
  pinecone_init W = Raise e ->
  graph_step W rag_search_node
    (mkRun (append_step st (selection st "pinecone")) calls v)
  = Raise e.
Proof.
  intros Hi. unfold graph_step. cbn [node_function llm_calls run_state].
  unfold rag_search. now rewrite last_step_append, Hi.
Qed.

Lemma final_step (st : ResearchState) (calls : nat) (v : list Node) :
  exists text,
    graph_step W final_answer_node (mkRun st calls v)
    = Ret (END,
           mkRun (set_output
                    (append_step st
                       (mkAgentAction "final_answer_result"
                          (mkToolInput (Some (input st)) None) text)) text)
             (S calls) (v ++ [final_answer_node])).
Proof. eexists. reflexivity. Qed.

(** From the oracle, with a non-empty history: one cycle per unused tool,
    each tool once, then the final answer. *)
Lemma combined_loop (Hinit : pinecone_init W = Ret tt) :
  forall (k : nat) (st : ResearchState) (calls : nat) (v : list Node),
    mode st = "combined" ->
    intermediate_steps st <> [] ->
    List.length (unused_tools (map tool (intermediate_steps st))) = k ->
    forall limit, 2 * k + 2 <= limit ->
    exists r ts,
      graph_invoke W limit oracle (mkRun st calls v) = Finished r
      /\ history_tools r
         = (map tool (intermediate_steps st) ++ tools_of_run ts)%list
      /\ visited r = (v ++ nodes_of_run ts)%list
      /\ List.length ts = k
      /\ NoDup ts
      /\ (forall t, In t ts ->
            In t (unused_tools (map tool (intermediate_steps st)))).
Proof.
  induction k as [|k IH]; intros st calls v Hm Hs Hk limit Hl.
  - apply length_zero_iff_nil in Hk.
    destruct limit as [|[|limit]]; try lia.
    pose proof (run_oracle_done W calls st Hm Hs Hk) as Ho.
    apply (oracle_step_finishes st calls calls v) in Ho.
    destruct (final_step (append_step st (selection st "final_answer"))
                calls (v ++ [oracle])%list) as [text Hf].
    eexists. exists []. split; [|split; [|split; [|split; [|split]]]].
    + rewrite (graph_invoke_step _ oracle _ _ _ ltac:(discriminate) Ho).
      rewrite (graph_invoke_step _ final_answer_node _ _ _
                 ltac:(discriminate) Hf).
      apply graph_invoke_END.
    + unfold history_tools. cbn. rewrite !map_app, <- app_assoc. reflexivity.
    + cbn. now rewrite <- app_assoc.
    + reflexivity.
    + constructor.
    + intros t [].
  - destruct limit as [|[|limit]]; try lia.
    assert (Hu : unused_tools (map tool (intermediate_steps st)) <> [])
      by (intros E; rewrite E in Hk; discriminate).
    destruct (run_oracle_next W calls st Hm Hs Hu) as [t [Hin Ho]].
    pose proof (unused_in_all _ _ Hin) as Hall.
    apply (oracle_step_selects st calls (S calls) v t Hall) in Ho.
    destruct (adapter_step st (S calls) (v ++ [oracle])%list t
                (fun _ => Hinit) Hall) as [text Ha].
    destruct (unused_after_cycle _ _ Hin) as [Hlen Hsub].
    set (st2 := append_step (append_step st (selection st t))
                  (mkAgentAction (result_tool t)
                     (tool_input (selection st t)) text)) in *.
    assert (E2 : map tool (intermediate_steps st2)
                 = (map tool (intermediate_steps st) ++ [t; result_tool t])%list).
    { unfold st2. cbn. rewrite !map_app, <- app_assoc. reflexivity. }
    assert (Hs2 : intermediate_steps st2 <> []).
    { unfold st2. cbn. intros E. apply app_eq_nil in E. destruct E.
      discriminate. }
    assert (Hk2 : List.length (unused_tools (map tool (intermediate_steps st2)))
                  = k).
    { rewrite E2. rewrite Hk in Hlen. now injection Hlen. }
    destruct (IH st2 (S calls) ((v ++ [oracle]) ++ [node_of_tool t])%list
                Hm Hs2 Hk2 limit ltac:(lia))
      as [r [ts [Hr [Hh [Hv [Hn [Hnd Hts]]]]]]].
    exists r, (t :: ts). split; [|split; [|split; [|split; [|split]]]].
      * rewrite (graph_invoke_step _ oracle _ _ _ ltac:(discriminate) Ho).
        assert (Hne : node_of_tool t <> END).
        { destruct Hall as [<- | [<- | [<- | []]]]; discriminate. }
        rewrite (graph_invoke_step _ _ _ _ _ Hne Ha). exact Hr.
      * rewrite Hh, E2. unfold tools_of_run. cbn [flat_map].
        rewrite <- !app_assoc. reflexivity.
      * rewrite Hv. unfold nodes_of_run. cbn [flat_map].
        rewrite <- !app_assoc. reflexivity.
      * simpl. now rewrite Hn.
      * constructor; [|exact Hnd].
        intros Hi. apply Hts in Hi. rewrite E2 in Hi.
        apply Hsub in Hi. destruct Hi as [_ Hi]. now apply Hi.
      * intros x [<- | Hx]; [exact Hin|].
        apply Hts in Hx. rewrite E2 in Hx. now apply Hsub in Hx.
Qed.

End GraphFacts.

Section RunFacts.

Variable W : World.

Lemma node_of_tool_not_oracle (t : string) : is_oracle (node_of_tool t) = false.
Proof.
  unfold node_of_tool.
  destruct (t =? "pinecone")%string; [reflexivity|].
  destruct (t =? "web_search")%string; reflexivity.
Qed.

Lemma oracle_decisions_of_run (st : ResearchState) (calls : nat)
  (ts : list string) :
  oracle_decisions (mkRun st calls (nodes_of_run ts)) = S (List.length ts).
Proof.
  unfold oracle_decisions, nodes_of_run. cbn [visited]. fold is_oracle.
  induction ts as [|t ts IH]; [reflexivity|].
  cbn [flat_map app filter is_oracle List.length].
  rewrite node_of_tool_not_oracle. cbn [List.length]. now rewrite IH.
Qed.

Lemma unused_tools_nil : unused_tools [] = all_tools.
Proof. reflexivity. Qed.

(** A combined run from the initial state, when the Pinecone client can be
    constructed: either the model's first answer names no tool and the run
    goes straight to the final answer, or the run consults the three tools,
    each once, the first being the one the model named. *)
Lemma combined_run (query : string) (yq : YearQuarterDict) :
  pinecone_init W = Ret tt ->
  let first :=
    normalize_tool (PyStr.lower (PyStr.strip
                      (llm_invoke W 0 (OraclePrompt query)))) in
  exists r ts,
    invoke_research_graph W query yq "combined" = Finished r
    /\ history_tools r = tools_of_run ts
    /\ visited r = nodes_of_run ts
    /\ NoDup ts
    /\ (forall t, In t ts -> In t all_tools)
    /\ ((first = "final_answer" /\ ts = [])
        \/ (first <> "final_answer" /\ List.length ts = 3
            /\ hd "" ts = first)).
Proof.
  intros Hinit first. unfold invoke_research_graph, recursion_limit.
  set (st := initial_state query yq "combined").
  pose proof (run_oracle_first W 0 st eq_refl eq_refl) as Ho.
  change (input st) with query in Ho. fold first in Ho.
  destruct (normalize_tool_cases
              (PyStr.lower (PyStr.strip (llm_invoke W 0 (OraclePrompt query)))))
    as [E | [E | [E | [E | []]]]]; fold first in E.
  4: {
    rewrite <- E in Ho.
    apply (oracle_step_finishes W st 0 1 []) in Ho.
    destruct (final_step W (append_step st (selection st "final_answer")) 1
                ([] ++ [oracle])%list) as [text Hf].
    eexists. exists [].
    rewrite (graph_invoke_step W _ oracle _ _ _ ltac:(discriminate) Ho).
    rewrite (graph_invoke_step W _ final_answer_node _ _ _
               ltac:(discriminate) Hf).
    rewrite graph_invoke_END.
    split; [reflexivity|]. split; [reflexivity|]. split; [reflexivity|].
    split; [constructor|]. split; [intros t []|].
    left. split; [now symmetry | reflexivity]. }
  all: assert (Hall : In first all_tools)
         by (rewrite <- E; unfold all_tools; simpl; tauto);
    assert (Hin : In first (unused_tools (map tool (intermediate_steps st))))
      by exact Hall;
    apply (oracle_step_selects W st 0 1 [] first Hall) in Ho;
    destruct (adapter_step W st 1 ([] ++ [oracle])%list first
                (fun _ => Hinit) Hall) as [text Ha];
    destruct (unused_after_cycle _ _ Hin) as [Hlen Hsub];
    set (st2 := append_step (append_step st (selection st first))
                  (mkAgentAction (result_tool first)
                     (tool_input (selection st first)) text)) in *;
    assert (Hne : node_of_tool first <> END)
      by (rewrite <- E; discriminate);
    assert (Hk2 : List.length
                    (unused_tools (map tool (intermediate_steps st2))) = 2)
      by (cbn in Hlen |- *; lia);
    destruct (combined_loop W Hinit 2 st2 1
                (([] ++ [oracle]) ++ [node_of_tool first])%list
                eq_refl ltac:(discriminate) Hk2 23 ltac:(lia))
      as [r [ts [Hr [Hh [Hv [Hn [Hnd Hts]]]]]]];
    exists r, (first :: ts);
    rewrite (graph_invoke_step W _ oracle _ _ _ ltac:(discriminate) Ho);
    rewrite (graph_invoke_step W _ _ _ _ _ Hne Ha);
    (split; [exact Hr|]);
    (split; [rewrite Hh; reflexivity|]);
    (split; [rewrite Hv; reflexivity|]);
    (split; [constructor; [intros Hi; apply Hts, Hsub in Hi; tauto | exact Hnd]|]);
    (split; [intros t [<- | Ht]; [exact Hall | apply Hts, Hsub in Ht;
                                              apply (unused_in_all []); tauto]|]);
    right; (split; [rewrite <- E; discriminate|]);
    (split; [simpl; now rewrite Hn | reflexivity]).
Qed.

Lemma oracle_decisions_snoc (st st' : ResearchState) (c c' : nat)
  (v : list Node) (n : Node) :
  oracle_decisions (mkRun st c (v ++ [n]))
  = oracle_decisions (mkRun st' c' v) + (if is_oracle n then 1 else 0).
Proof.
  unfold oracle_decisions. cbn [visited].
  rewrite filter_app, length_app. cbn [filter].
  destruct (is_oracle n); reflexivity.
Qed.

(** From the oracle, with a non-empty history and Pinecone still unused,
    when the Pinecone client cannot be constructed: the run fails with the
    constructor's exception as soon as the oracle selects pinecone. *)
Lemma combined_loop_fails (e : string) (Hinit : pinecone_init W = Raise e) :
  forall (k : nat) (st : ResearchState) (calls : nat) (v : list Node),
    mode st = "combined" ->
    intermediate_steps st <> [] ->
    In "pinecone" (unused_tools (map tool (intermediate_steps st))) ->
    List.length (unused_tools (map tool (intermediate_steps st))) = k ->
    forall limit, 2 * k <= limit ->
    exists r,
      graph_invoke W limit oracle (mkRun st calls v) = Failed e r
      /\ oracle_decisions r <= oracle_decisions (mkRun st calls v) + k.
Proof.
  induction k as [|k IH]; intros st calls v Hm Hs Hp Hk limit Hl.
  - apply length_zero_iff_nil in Hk. rewrite Hk in Hp. destruct Hp.
  - destruct limit as [|[|limit]]; try lia.
    assert (Hu : unused_tools (map tool (intermediate_steps st)) <> [])
      by (intros E; rewrite E in Hk; discriminate).
    destruct (run_oracle_next W calls st Hm Hs Hu) as [t [Hin Ho]].
    pose proof (unused_in_all _ _ Hin) as Hall.
    apply (oracle_step_selects W st calls (S calls) v t Hall) in Ho.
    rewrite (graph_invoke_step W _ oracle _ _ _ ltac:(discriminate) Ho).
    destruct (String.eqb_spec t "pinecone") as [->|Hne].
    + eexists. split.
      * apply graph_invoke_fail; [discriminate|].
        now apply rag_step_fails.
      * rewrite (oracle_decisions_snoc _ st _ calls v oracle). simpl. lia.
    + assert (Hok : t = "pinecone" -> pinecone_init W = Ret tt)
        by (intros; contradiction).
      destruct (adapter_step W st (S calls) (v ++ [oracle])%list t Hok Hall)
        as [text Ha].
      destruct (unused_after_cycle _ _ Hin) as [Hlen _].
      set (st2 := append_step (append_step st (selection st t))
                    (mkAgentAction (result_tool t)
                       (tool_input (selection st t)) text)) in *.
      assert (E2 : map tool (intermediate_steps st2)
                   = (map tool (intermediate_steps st)
                      ++ [t; result_tool t])%list).
      { unfold st2. cbn. rewrite !map_app, <- app_assoc. reflexivity. }
      assert (Hs2 : intermediate_steps st2 <> []).
      { unfold st2. cbn. intros E. apply app_eq_nil in E. destruct E.
        discriminate. }
      assert (Hp2 : In "pinecone"
                      (unused_tools (map tool (intermediate_steps st2)))).
      { rewrite E2. apply unused_after_cycle_keeps; auto. }
      assert (Hk2 : List.length
                      (unused_tools (map tool (intermediate_steps st2))) = k).
      { rewrite E2. rewrite Hk in Hlen. now injection Hlen. }
      assert (Hnode : node_of_tool t <> END).
      { destruct Hall as [<- | [<- | [<- | []]]]; discriminate. }
      rewrite (graph_invoke_step W _ _ _ _ _ Hnode Ha).
      destruct (IH st2 (S calls) ((v ++ [oracle]) ++ [node_of_tool t])%list
                  Hm Hs2 Hp2 Hk2 limit ltac:(lia)) as [r [Hr Hd]].
      exists r. split; [exact Hr|].
      rewrite (oracle_decisions_snoc _ st _ calls (v ++ [oracle])
                 (node_of_tool t)) in Hd.
      rewrite (oracle_decisions_snoc _ st _ calls v oracle) in Hd.
      rewrite node_of_tool_not_oracle in Hd. simpl in Hd. lia.
Qed.

(** The same run from the start, when the model's first answer names the
    web or the Snowflake tool. *)
Lemma combined_run_fails_later (query : string) (yq : YearQuarterDict)
  (e t : string) :
  pinecone_init W = Raise e ->
  In t ["web_search"; "snowflake"] ->
  normalize_tool (PyStr.lower (PyStr.strip
                    (llm_invoke W 0 (OraclePrompt query)))) = t ->
  exists r,
    invoke_research_graph W query yq "combined" = Failed e r
    /\ oracle_decisions r <= 3.
Proof.
  intros Hinit Ht E. unfold invoke_research_graph, recursion_limit.
  set (st := initial_state query yq "combined").
  pose proof (run_oracle_first W 0 st eq_refl eq_refl) as Ho.
  change (input st) with query in Ho. rewrite E in Ho.
  assert (Hall : In t all_tools) by (unfold all_tools; simpl in *; tauto).
  assert (Hne : t <> "pinecone")
    by (destruct Ht as [<- | [<- | []]]; discriminate).
  assert (Hok : t = "pinecone" -> pinecone_init W = Ret tt)
    by (intros; contradiction).
  apply (oracle_step_selects W st 0 1 [] t Hall) in Ho.
  destruct (adapter_step W st 1 ([] ++ [oracle])%list t Hok Hall)
    as [text Ha].
  assert (Hnode : node_of_tool t <> END)
    by (destruct Ht as [<- | [<- | []]]; discriminate).
  rewrite (graph_invoke_step W _ oracle _ _ _ ltac:(discriminate) Ho).
  rewrite (graph_invoke_step W _ _ _ _ _ Hnode Ha).
  set (st2 := append_step (append_step st (selection st t))
                (mkAgentAction (result_tool t)
                   (tool_input (selection st t)) text)) in *.
  assert (Hp2 : In "pinecone"
                  (unused_tools (map tool (intermediate_steps st2))))
    by (destruct Ht as [<- | [<- | []]]; vm_compute; tauto).
  assert (Hk2 : List.length
                  (unused_tools (map tool (intermediate_steps st2))) = 2)
    by (destruct Ht as [<- | [<- | []]]; reflexivity).
  assert (Hs2 : intermediate_steps st2 <> []) by discriminate.
  destruct (combined_loop_fails e Hinit 2 st2 1
              (([] ++ [oracle]) ++ [node_of_tool t])%list
              eq_refl Hs2 Hp2 Hk2 23 ltac:(lia)) as [r [Hr Hd]].
  exists r. split; [exact Hr|].
  unfold oracle_decisions in Hd |- *. cbn [visited app filter is_oracle] in Hd.
  rewrite node_of_tool_not_oracle in Hd. cbn in Hd. lia.
Qed.

(** X2: a combined run when the Pinecone client cannot be constructed: it
    finishes only if the model's first answer names no tool; otherwise it
    is aborted by the constructor's exception, after at most 3 decisions of
    the oracle.  It never runs into the recursion limit. *)
Lemma combined_run_without_pinecone (query : string) (yq : YearQuarterDict)
  (e : string) :
  pinecone_init W = Raise e ->
  (exists r,
     invoke_research_graph W query yq "combined" = Finished r
     /\ history_tools r = tools_of_run []
     /\ oracle_decisions r = 1)
  \/ (exists r,
        invoke_research_graph W query yq "combined" = Failed e r
        /\ oracle_decisions r <= 3).
Proof.
  intros Hinit.
  destruct (normalize_tool_cases
              (PyStr.lower (PyStr.strip (llm_invoke W 0 (OraclePrompt query)))))
    as [E | [E | [E | [E | []]]]].
  - right. unfold invoke_research_graph, recursion_limit.
    set (st := initial_state query yq "combined").
    pose proof (run_oracle_first W 0 st eq_refl eq_refl) as Ho.
    change (input st) with query in Ho. rewrite <- E in Ho.
    apply (oracle_step_selects W st 0 1 [] "pinecone") in Ho;
      [|unfold all_tools; simpl; tauto].
    rewrite (graph_invoke_step W _ oracle _ _ _ ltac:(discriminate) Ho).
    eexists. split.
    + apply graph_invoke_fail; [discriminate|]. now apply rag_step_fails.
    + cbn. lia.
  - right. apply (combined_run_fails_later query yq e "web_search");
      simpl; auto.
  - right. apply (combined_run_fails_later query yq e "snowflake");
      simpl; auto.
  - left. unfold invoke_research_graph, recursion_limit.
    set (st := initial_state query yq "combined").
    pose proof (run_oracle_first W 0 st eq_refl eq_refl) as Ho.
    change (input st) with query in Ho. rewrite <- E in Ho.
    apply (oracle_step_finishes W st 0 1 []) in Ho.
    destruct (final_step W (append_step st (selection st "final_answer")) 1
                ([] ++ [oracle])%list) as [text Hf].
    eexists.
    rewrite (graph_invoke_step W _ oracle _ _ _ ltac:(discriminate) Ho).
    rewrite (graph_invoke_step W _ final_answer_node _ _ _
               ltac:(discriminate) Hf).
    rewrite graph_invoke_END. repeat split.
Qed.

(** A single-tool run: the tool, its result, then the final answer. *)
Lemma single_run (query : string) (yq : YearQuarterDict) (m : string) :
  In m ["pinecone"; "web_search"; "snowflake"] ->
  (m = "pinecone" -> pinecone_init W = Ret tt) ->
  exists r,
    invoke_research_graph W query yq m = Finished r
    /\ history_tools r = tools_of_run [m]
    /\ visited r = nodes_of_run [m].
Proof.
  intros Hm Hinit. unfold invoke_research_graph, recursion_limit.
  set (st := initial_state query yq m).
  assert (Hall : In m all_tools) by (unfold all_tools; simpl in *; tauto).
  pose proof (run_oracle_single W 0 st Hm) as Ho.
  cbn [intermediate_steps st initial_state mode] in Ho.
  apply (oracle_step_selects W st 0 0 [] m Hall) in Ho.
  destruct (adapter_step W st 0 ([] ++ [oracle])%list m Hinit Hall)
    as [text Ha].
  set (st2 := append_step (append_step st (selection st m))
                (mkAgentAction (result_tool m)
                   (tool_input (selection st m)) text)) in *.
  pose proof (run_oracle_single W 0 st2 Hm) as Ho2.
  cbn [intermediate_steps st2 append_step set_steps app] in Ho2.
  apply (oracle_step_finishes W st2 0 0 [oracle; node_of_tool m]) in Ho2.
  destruct (final_step W (append_step st2 (selection st2 "final_answer")) 0
              ([oracle; node_of_tool m] ++ [oracle])%list) as [text' Hf].
  assert (Hne : node_of_tool m <> END).
  { destruct Hall as [<- | [<- | [<- | []]]]; discriminate. }
  eexists.
  rewrite (graph_invoke_step W _ oracle _ _ _ ltac:(discriminate) Ho).
  rewrite (graph_invoke_step W _ _ _ _ _ Hne Ha).
  rewrite (graph_invoke_step W _ oracle _ _ _ ltac:(discriminate) Ho2).
  rewrite (graph_invoke_step W _ final_answer_node _ _ _
             ltac:(discriminate) Hf).
  rewrite graph_invoke_END. repeat split; reflexivity.
Qed.

End RunFacts.

(* ================================================================== *)
(** * Termination and the shape of a run *)

Lemma tools_of_run_ends (ts : list string) :
  exists l, tools_of_run ts = (l ++ ["final_answer_result"])%list.
Proof.
  exists (flat_map (fun t => [t; result_tool t]) ts ++ ["final_answer"])%list.
  unfold tools_of_run. now rewrite <- app_assoc.
Qed.

Lemma oracle_decisions_visited (r : Run) (ts : list string) :
  visited r = nodes_of_run ts -> oracle_decisions r = S (List.length ts).
Proof.
  intros H. rewrite <- (oracle_decisions_of_run (run_state r) 0 ts).
  unfold oracle_decisions. cbn [visited]. now rewrite H.
Qed.



(** The web and Snowflake modes never touch Pinecone: they finish after
    exactly 2 decisions in every world. *)
Lemma single_run_without_pinecone (W : World) (query : string)
  (yq : YearQuarterDict) (m : string) :
  In m ["web_search"; "snowflake"] ->
  exists r,
    invoke_research_graph W query yq m = Finished r
    /\ oracle_decisions r = 2
    /\ ends_with_final_answer_result r.
Proof.
  intros Hm.
  assert (Hm' : In m ["pinecone"; "web_search"; "snowflake"])
    by (simpl in *; tauto).
  assert (Hp : m = "pinecone" -> pinecone_init W = Ret tt).
  { intros ->. simpl in Hm. destruct Hm as [H | [H | []]]; discriminate. }
  destruct (single_run W query yq m Hm' Hp) as [r [Hr [Hh Hv]]].
  exists r. split; [exact Hr|]. split.
  - now rewrite (oracle_decisions_visited r [m] Hv).
  - unfold ends_with_final_answer_result. rewrite Hh.
    apply tools_of_run_ends.
Qed.

(** C1 fails on the code: the loop does not always reach the final answer.
    [rag_search] constructs the Pinecone client before its [try]; where the
    constructor raises, a combined run and a pinecone run are both aborted
    in the first tool cycle, after one decision of the oracle, with the
    oracle's selection as the only Action: no [final_answer_result] is
    appended, and [run_research_graph] raises. *)
Theorem research_graph_aborts_without_pinecone :
  (exists r,
     invoke_research_graph Sample.no_pinecone_world "q" Sample.filters
       "combined"
     = Failed "PineconeConfigurationError: no API key" r
     /\ history_tools r = ["pinecone"]
     /\ oracle_decisions r = 1
     /\ ~ ends_with_final_answer_result r)
  /\ (exists r,
        invoke_research_graph Sample.no_pinecone_world "q" Sample.filters
          "pinecone"
        = Failed "PineconeConfigurationError: no API key" r
        /\ history_tools r = ["pinecone"]
        /\ oracle_decisions r = 1
        /\ ~ ends_with_final_answer_result r)
  /\ (forall m, In m ["combined"; "pinecone"] ->
      run_research_graph Sample.no_pinecone_world "q" Sample.filters m
      = Raise "PineconeConfigurationError: no API key").
Proof.
  assert (Hne : forall r, history_tools r = ["pinecone"] ->
                          ~ ends_with_final_answer_result r).
  { intros r Hh [l Hl]. rewrite Hh in Hl.
    destruct l as [|x [|y l]]; discriminate Hl. }
  split; [|split].
  - eexists. split; [vm_compute; reflexivity|].
    split; [reflexivity|]. split; [reflexivity|].
    apply Hne. reflexivity.
  - eexists. split; [vm_compute; reflexivity|].
    split; [reflexivity|]. split; [reflexivity|].
    apply Hne. reflexivity.
  - intros m [<- | [<- | []]]; vm_compute; reflexivity.
Qed.

(** C4, as the code has it: in a combined run whose first model answer
    names a tool (and in which the Pinecone client can be constructed), the
    final history holds 8 Actions: three selections of pairwise distinct
    tools, each followed by the result of that tool, then the oracle's
    final_answer selection and the final_answer_result. *)
Theorem combined_run_history (W : World) (query : string)
  (yq : YearQuarterDict) :
  pinecone_init W = Ret tt ->
  normalize_tool (PyStr.lower (PyStr.strip
                    (llm_invoke W 0 (OraclePrompt query)))) <> "final_answer" ->
  exists r t1 t2 t3,
    invoke_research_graph W query yq "combined" = Finished r
    /\ history_tools r
       = [t1; result_tool t1; t2; result_tool t2; t3; result_tool t3;
          "final_answer"; "final_answer_result"]
    /\ List.length (intermediate_steps (run_state r)) = 8
    /\ NoDup [t1; t2; t3]
    /\ (forall t, In t [t1; t2; t3] -> In t all_tools).
Proof.
  intros Hinit Hfirst.
  destruct (combined_run W query yq Hinit)
    as [r [ts [Hr [Hh [_ [Hnd [Hin Hcases]]]]]]].
  destruct Hcases as [[E _] | [_ [Hl _]]]; [contradiction|].
  destruct ts as [|t1 [|t2 [|t3 [|t4 ts]]]]; try discriminate.
  exists r, t1, t2, t3. repeat split; auto.
  rewrite <- (length_map tool). fold (history_tools r). now rewrite Hh.
Qed.

Lemma combined_run_history_witness :
  exists r t1 t2 t3,
    invoke_research_graph Sample.world "q" Sample.filters "combined"
    = Finished r
    /\ history_tools r
       = [t1; result_tool t1; t2; result_tool t2; t3; result_tool t3;
          "final_answer"; "final_answer_result"]
    /\ List.length (intermediate_steps (run_state r)) = 8
    /\ NoDup [t1; t2; t3]
    /\ (forall t, In t [t1; t2; t3] -> In t all_tools).
Proof.
  apply (combined_run_history Sample.world "q" Sample.filters).
  - reflexivity.
  - vm_compute. discriminate.
Defined.

(** C4 as stated fails.  With every backend answering plain text the
    history has 8 Actions, not 7: the oracle records its final_answer
    decision as an Action too.  And when the model's first answer names no
    tool, the run has 2 Actions and consults no backend. *)
Lemma combined_run_seven_actions_counterexample :
  result_history
    (invoke_research_graph Sample.world "q" Sample.filters "combined")
  = ["pinecone"; "rag_search_result"; "snowflake"; "snowflake_search_result";
     "web_search"; "web_search_result"; "final_answer"; "final_answer_result"]
  /\ List.length
       (result_history
          (invoke_research_graph Sample.world "q" Sample.filters "combined"))
     <> 7
  /\ result_history
       (invoke_research_graph Sample.undecided_world "q" Sample.filters
          "combined")
     = ["final_answer"; "final_answer_result"].
Proof.
  split; [vm_compute; reflexivity|].
  split; [vm_compute; discriminate | vm_compute; reflexivity].
Qed.

(* ================================================================== *)
(** * No tool is selected twice *)

Section SelectionFacts.

Variable W : World.

Lemma selections_app (l1 l2 : list string) :
  selections (l1 ++ l2) = (selections l1 ++ selections l2)%list.
Proof. apply filter_app. Qed.

Lemma selections_incl (l : list string) (t : string) :
  In t (selections l) -> In t l.
Proof. unfold selections. rewrite filter_In. tauto. Qed.

Lemma NoDup_snoc (l : list string) (x : string) :
  NoDup l -> ~ In x l -> NoDup (l ++ [x]).
Proof.
  induction 1 as [|y l Hy Hl IH]; intros Hx; simpl.
  - constructor; [tauto | constructor].
  - constructor.
    + rewrite in_app_iff. simpl in *. intuition.
    + apply IH. simpl in Hx. tauto.
Qed.

Lemma history_tools_append (st : ResearchState) (calls : nat) (v : list Node)
  (a : AgentAction) :
  history_tools (mkRun (append_step st a) calls v)
  = (map tool (intermediate_steps st) ++ [tool a])%list.
Proof. unfold history_tools. cbn. now rewrite map_app. Qed.

(** The oracle of a combined run keeps the selections free of repetition. *)
Lemma run_oracle_selections (calls calls' : nat) (st st' : ResearchState) :
  mode st = "combined" ->
  run_oracle W calls st = Ret (st', calls') ->
  NoDup (selections (map tool (intermediate_steps st))) ->
  mode st' = "combined"
  /\ NoDup (selections (map tool (intermediate_steps st'))).
Proof.
  intros Hm Ho Hnd.
  destruct (intermediate_steps st) as [|a0 l0] eqn:Es.
  - rewrite (run_oracle_first W calls st Hm Es) in Ho.
    injection Ho as <- _. split; [exact Hm|].
    cbn [append_step set_steps intermediate_steps]. rewrite Es.
    cbn [app map selection tool]. unfold selections. cbn [filter].
    match goal with
    | |- context [PySet.mem ?x all_tools] => destruct (PySet.mem x all_tools)
    end; repeat constructor; auto.
  - assert (Hs : intermediate_steps st <> []) by (rewrite Es; discriminate).
    rewrite <- Es in Hnd.
    destruct (unused_tools (map tool (intermediate_steps st))) as [|x xs] eqn:Eu.
    + rewrite (run_oracle_done W calls st Hm Hs Eu) in Ho.
      injection Ho as <- _. split; [exact Hm|].
      cbn [append_step set_steps intermediate_steps].
      rewrite map_app, selections_app. cbn. now rewrite app_nil_r.
    + destruct (run_oracle_next W calls st Hm Hs) as [t [Hin Ho']];
        [rewrite Eu; discriminate|].
      rewrite Ho' in Ho. injection Ho as <- _. split; [exact Hm|].
      cbn [append_step set_steps intermediate_steps].
      rewrite map_app, selections_app. cbn [map selection tool].
      pose proof (unused_in_all _ _ Hin) as Hall.
      unfold selections at 2. cbn [filter].
      apply mem_spec in Hall. rewrite Hall.
      apply NoDup_snoc; [exact Hnd|].
      intros Hc. apply selections_incl in Hc.
      now apply (unused_not_used _ _ Hin).
Qed.

(** An adapter or the finalizer appends a result Action and nothing else. *)
Lemma result_step_selections (n : Node) (calls calls' : nat)
  (st st' : ResearchState) :
  n <> oracle ->
  node_function W n calls st = Ret (st', calls') ->
  mode st' = mode st
  /\ selections (map tool (intermediate_steps st'))
     = selections (map tool (intermediate_steps st)).
Proof.
  intros Hn Hf.
  destruct n; try congruence; cbn [node_function] in Hf.
  - unfold rag_search in Hf.
    destruct (last_step st); [|discriminate].
    destruct (pinecone_init W); [|discriminate].
    injection Hf as <- _. split; [reflexivity|].
    cbn [append_step set_steps intermediate_steps].
    rewrite map_app, selections_app. cbn. now rewrite app_nil_r.
  - unfold web_search in Hf.
    destruct (last_step st); [|discriminate].
    injection Hf as <- _. split; [reflexivity|].
    cbn [append_step set_steps intermediate_steps].
    rewrite map_app, selections_app. cbn. now rewrite app_nil_r.
  - unfold snowflake_search in Hf.
    destruct (last_step st); [|discriminate].
    injection Hf as <- _. split; [reflexivity|].
    cbn [append_step set_steps intermediate_steps].
    rewrite map_app, selections_app.
    destruct (generate_snowflake_insights W _ _); cbn; now rewrite app_nil_r.
  - unfold generate_final_answer in Hf.
    injection Hf as <- _. split; [reflexivity|].
    cbn [append_step set_steps set_output intermediate_steps].
    rewrite map_app, selections_app. cbn. now rewrite app_nil_r.
  - injection Hf as <- _. split; reflexivity.
Qed.

Lemma Node_eq_oracle (n : Node) : n = oracle \/ n <> oracle.
Proof. destruct n; (now left) || (right; discriminate). Qed.

Lemma reachable_selections (query : string) (yq : YearQuarterDict)
  (n : Node) (r : Run) :
  reachable W query yq "combined" n r ->
  mode (run_state r) = "combined" /\ NoDup (selections (history_tools r)).
Proof.
  induction 1 as [|n r n' r' Hreach [Hm Hnd] Hstep].
  - split; [reflexivity | constructor].
  - unfold graph_step in Hstep.
    destruct (node_function W n (llm_calls r) (run_state r))
      as [[st calls]|] eqn:Hf; [|discriminate].
    destruct (next_node n st); [|discriminate].
    injection Hstep as _ <-. unfold history_tools in *. cbn [run_state].
    destruct (Node_eq_oracle n) as [-> | Hn].
    + cbn [node_function] in Hf.
      exact (run_oracle_selections _ _ _ _ Hm Hf Hnd).
    + destruct (result_step_selections n _ _ _ _ Hn Hf) as [Hm' Hs'].
      rewrite Hm', Hs'. now split.
Qed.

Lemma count_occ_selections (l : list string) (t : string) :
  In t all_tools ->
  count_occ string_dec (selections l) t = count_occ string_dec l t.
Proof.
  intros Ht. apply mem_spec in Ht.
  induction l as [|x l IH]; [reflexivity|].
  unfold selections in *. cbn [filter count_occ].
  destruct (string_dec x t) as [->|Hne].
  - rewrite Ht. cbn [count_occ].
    destruct (string_dec t t); [now rewrite IH | congruence].
  - destruct (PySet.mem x all_tools); [|exact IH].
    cbn [count_occ]. destruct (string_dec x t); [congruence | exact IH].
Qed.

End SelectionFacts.

(** C2: in every history a combined run can reach, whatever the model
    answers, each of the three tool names the oracle can select (pinecone,
    web_search, snowflake) is the tool of at most one Action. *)
Theorem no_tool_selected_twice (W : World) (query : string)
  (yq : YearQuarterDict) (n : Node) (r : Run) (t : string) :
  reachable W query yq "combined" n r ->
  In t all_tools ->
  count_occ string_dec (history_tools r) t <= 1.
Proof.
  intros Hreach Ht.
  destruct (reachable_selections W query yq n r Hreach) as [_ Hnd].
  rewrite <- (count_occ_selections _ _ Ht).
  now apply NoDup_count_occ.
Qed.

Lemma no_tool_selected_twice_witness :
  reachable Sample.world "q" Sample.filters "combined" oracle
    (mkRun Sample.after_first_cycle 1 [oracle; rag_search_node])
  /\ count_occ string_dec (map tool (intermediate_steps Sample.after_first_cycle))
       "pinecone" <= 1.
Proof.
  assert (H : reachable Sample.world "q" Sample.filters "combined" oracle
                (mkRun Sample.after_first_cycle 1 [oracle; rag_search_node])).
  { eapply reach_step; [eapply reach_step; [apply reach_init|]|];
      vm_compute; reflexivity. }
  split; [exact H|].
  apply (no_tool_selected_twice Sample.world "q" Sample.filters oracle
           (mkRun Sample.after_first_cycle 1 [oracle; rag_search_node])
           "pinecone" H).
  unfold all_tools. simpl. tauto.
Defined.

(* ================================================================== *)
(** * The oracle's fallback *)

(** C3, as the code has it: in combined mode, with a history that is not
    empty and fewer than three tools used, the oracle tests the model's
    stripped, lower-cased answer itself, before any normalization, for
    membership in the unused set.  The fallback to the first unused tool in
    set order is applied exactly when that answer is not literally the name
    of an unused tool; an answer that is such a name is the tool selected,
    and the later substring normalization leaves it unchanged. *)
Theorem oracle_fallback_rule (W : World) (calls : nat) (st : ResearchState) :
  mode st = "combined" ->
  intermediate_steps st <> [] ->
  List.length (used_real_tools (map tool (intermediate_steps st))) < 3 ->
  exists t,
    run_oracle W calls st = Ret (append_step st (selection st t), S calls)
    /\ In t (unused_tools (map tool (intermediate_steps st)))
    /\ (In (next_tool_answer W calls st)
          (unused_tools (map tool (intermediate_steps st))) ->
        t = next_tool_answer W calls st
        /\ normalize_tool (next_tool_answer W calls st) = t)
    /\ (~ In (next_tool_answer W calls st)
            (unused_tools (map tool (intermediate_steps st))) ->
        PySet.first (str_hash W)
          (unused_tools (map tool (intermediate_steps st))) = Ret t).
Proof.
  intros Hm Hs Hlt.
  assert (Hu : unused_tools (map tool (intermediate_steps st)) <> []).
  { apply Nat.ltb_lt in Hlt. rewrite used_lt_3 in Hlt.
    destruct (unused_tools _); [discriminate | discriminate]. }
  destruct (choose_tool_next W calls st Hm Hs Hu) as [t [Hc [Hin [Hyes Hno]]]].
  fold (next_tool_answer W calls st) in Hyes, Hno.
  exists t. split; [|split; [exact Hin|split]].
  - unfold run_oracle. rewrite Hc.
    rewrite (normalize_tool_real t (unused_in_all _ _ Hin)). reflexivity.
  - intros H. apply mem_spec in H. specialize (Hyes H). subst t.
    split; [reflexivity|].
    apply normalize_tool_real. eapply unused_in_all; eauto.
  - intros H. apply Hno. now apply mem_false_not_In.
Qed.

Lemma oracle_fallback_rule_witness :
  exists t,
    run_oracle Sample.world 1 Sample.after_first_cycle
    = Ret (append_step Sample.after_first_cycle
             (selection Sample.after_first_cycle t), 2)
    /\ In t (unused_tools
               (map tool (intermediate_steps Sample.after_first_cycle)))
    /\ (In (next_tool_answer Sample.world 1 Sample.after_first_cycle)
          (unused_tools
             (map tool (intermediate_steps Sample.after_first_cycle))) ->
        t = next_tool_answer Sample.world 1 Sample.after_first_cycle
        /\ normalize_tool
             (next_tool_answer Sample.world 1 Sample.after_first_cycle) = t)
    /\ (~ In (next_tool_answer Sample.world 1 Sample.after_first_cycle)
            (unused_tools
               (map tool (intermediate_steps Sample.after_first_cycle))) ->
        PySet.first (str_hash Sample.world)
          (unused_tools
             (map tool (intermediate_steps Sample.after_first_cycle)))
        = Ret t).
Proof.
  apply (oracle_fallback_rule Sample.world 1 Sample.after_first_cycle).
  - reflexivity.
  - discriminate.
  - vm_compute. lia.
Defined.

(** C3 as stated fails: after pinecone, the model answers
    "I pick web_search".  Its normalization, web_search, is an unused tool,
    yet the fallback is applied, and in a process whose set order puts
    snowflake first the oracle selects snowflake. *)
Lemma oracle_fallback_counterexample :
  normalize_tool (next_tool_answer Sample.world 1 Sample.after_first_cycle)
  = "web_search"
  /\ unused_tools (map tool (intermediate_steps Sample.after_first_cycle))
     = ["web_search"; "snowflake"]
  /\ run_oracle Sample.world 1 Sample.after_first_cycle
     = Ret (append_step Sample.after_first_cycle
              (selection Sample.after_first_cycle "snowflake"), 2).
Proof. repeat split; vm_compute; reflexivity. Qed.

(* ================================================================== *)
(** * The finalizer's scan of the history *)

Section CollectFacts.

Lemma collect_app (l1 l2 : list AgentAction) :
  collect (l1 ++ l2) = fold_left collect_step l2 (collect l1).
Proof. unfold collect. apply fold_left_app. Qed.

Lemma collect_step_other_rag (acc : Collected) (b : AgentAction) :
  tool b <> "rag_search_result" ->
  rag_result (collect_step acc b) = rag_result acc.
Proof.
  intros H. unfold collect_step.
  destruct (String.eqb_spec (tool b) "rag_search_result"); [contradiction|].
  destruct (tool b =? "web_search_result")%string; [reflexivity|].
  destruct (tool b =? "snowflake_search_result")%string; [|reflexivity].
  destruct (PyStr.contains viz_sentinel (log b)); reflexivity.
Qed.

Lemma collect_step_other_web (acc : Collected) (b : AgentAction) :
  tool b <> "web_search_result" ->
  web_result (collect_step acc b) = web_result acc.
Proof.
  intros H. unfold collect_step.
  destruct (tool b =? "rag_search_result")%string; [reflexivity|].
  destruct (String.eqb_spec (tool b) "web_search_result"); [contradiction|].
  destruct (tool b =? "snowflake_search_result")%string; [|reflexivity].
  destruct (PyStr.contains viz_sentinel (log b)); reflexivity.
Qed.

Lemma collect_step_other_snowflake (acc : Collected) (b : AgentAction) :
  tool b <> "snowflake_search_result" ->
  snowflake_result (collect_step acc b) = snowflake_result acc.
Proof.
  intros H. unfold collect_step.
  destruct (tool b =? "rag_search_result")%string; [reflexivity|].
  destruct (tool b =? "web_search_result")%string; [reflexivity|].
  destruct (String.eqb_spec (tool b) "snowflake_search_result");
    [contradiction | reflexivity].
Qed.

(** A field the later steps do not assign keeps its value. *)
Lemma fold_collect_keeps (f : Collected -> string) (kind : string)
  (Hf : forall acc b, tool b <> kind -> f (collect_step acc b) = f acc)
  (l : list AgentAction) :
  (forall b, In b l -> tool b <> kind) ->
  forall acc, f (fold_left collect_step l acc) = f acc.
Proof.
  induction l as [|b l IH]; intros Hl acc; [reflexivity|].
  cbn [fold_left]. rewrite IH by (intros; apply Hl; now right).
  apply Hf, Hl. now left.
Qed.

End CollectFacts.

(** C6, as the code has it: the scan of the history overwrites its result
    variables, so when the history holds two result Actions of the same tool
    kind the finalizer uses the log text of the later one (the last of that
    kind), not of the first. *)
Theorem finalizer_uses_last_result (l0 l1 l2 : list AgentAction)
  (a1 a2 : AgentAction) (kind : string) :
  tool a1 = kind -> tool a2 = kind ->
  (forall b, In b l2 -> tool b <> kind) ->
  let c := collect (l0 ++ a1 :: l1 ++ a2 :: l2) in
  (kind = "rag_search_result" -> rag_result c = log a2)
  /\ (kind = "web_search_result" -> web_result c = log a2)
  /\ (kind = "snowflake_search_result" ->
      snowflake_result c = snowflake_text (log a2)).
Proof.
  intros _ H2 Hl2 c. subst c.
  replace (l0 ++ a1 :: l1 ++ a2 :: l2)%list
    with ((l0 ++ a1 :: l1) ++ [a2] ++ l2)%list
    by (rewrite <- app_assoc; reflexivity).
  rewrite collect_app, fold_left_app. cbn [fold_left].
  repeat split; intros Hk; rewrite Hk in H2, Hl2.
  - rewrite (fold_collect_keeps rag_result _ collect_step_other_rag l2 Hl2).
    unfold collect_step. now rewrite H2.
  - rewrite (fold_collect_keeps web_result _ collect_step_other_web l2 Hl2).
    unfold collect_step. now rewrite H2.
  - rewrite (fold_collect_keeps snowflake_result _
               collect_step_other_snowflake l2 Hl2).
    unfold collect_step, snowflake_text. rewrite H2. cbn [String.eqb Ascii.eqb Bool.eqb].
    destruct (PyStr.contains viz_sentinel (log a2)); reflexivity.
Qed.

Lemma finalizer_uses_last_result_witness :
  rag_result
    (collect
       ([] ++ mkAgentAction "rag_search_result" (mkToolInput None None) "first"
           :: [] ++ mkAgentAction "rag_search_result" (mkToolInput None None)
                      "second" :: [])%list)
  = "second".
Proof.
  apply (finalizer_uses_last_result [] [] []
           (mkAgentAction "rag_search_result" (mkToolInput None None) "first")
           (mkAgentAction "rag_search_result" (mkToolInput None None) "second")
           "rag_search_result");
    try reflexivity.
  intros b [].
Defined.

(** C6 as stated fails: with two Pinecone results in the history, the prompt
    of a pinecone-mode finalizer carries the second text, and a model that
    echoes its report slot makes the final answer the second text. *)
Lemma finalizer_first_result_counterexample :
  final_prompt "pinecone" "q"
    (collect
       [mkAgentAction "rag_search_result" (mkToolInput None None) "first";
        mkAgentAction "rag_search_result" (mkToolInput None None) "second"])
  = PineconePrompt "q" "second"
  /\ match generate_final_answer Sample.echo_world 0
             (mkResearchState "q" []
                [mkAgentAction "rag_search_result" (mkToolInput None None)
                   "first";
                 mkAgentAction "rag_search_result" (mkToolInput None None)
                   "second"]
                [] "pinecone" None) with
     | Ret (st, _) => output st
     | Raise _ => None
     end = Some "second".
Proof. split; vm_compute; reflexivity. Qed.

(* ================================================================== *)
(** * Failures of the adapters *)

Section AdapterFacts.

Variable W : World.

(** X3: what the adapters do catch: each adapter node (for Pinecone, once the
    client is constructed) returns with its result Action appended, and a
    failure of the backend call itself becomes the log text of that Action,
    a text that begins with Error. *)
Lemma adapter_errors_in_band (t : string) (st : ResearchState)
  (calls : nat) (latest : AgentAction) :
  In t all_tools ->
  last_step st = Ret latest ->
  (t = "pinecone" -> pinecone_init W = Ret tt) ->
  exists text,
    node_function W (node_of_tool t) calls st
    = Ret (append_step st
             (mkAgentAction (result_tool t) (tool_input latest) text), calls)
    /\ ((t = "pinecone" ->
         (exists e, search_pinecone_db W (get_query (tool_input latest))
                      (get_metadata_filters (tool_input latest)) 20 = Raise e)
         -> starts_with_Error text)
        /\ (t = "web_search" ->
            (exists e, web_agent_run W (get_query (tool_input latest))
                       = Raise e
                       \/ web_agent_run W (get_query (tool_input latest))
                          = Ret (WebError e))
            -> starts_with_Error text)
        /\ (t = "snowflake" ->
            (exists e, generate_snowflake_insights W
                         (get_query (tool_input latest))
                         (get_metadata_filters (tool_input latest)) = Raise e)
            -> starts_with_Error text)).
Proof.
  intros Ht Hlast Hinit.
  destruct Ht as [<- | [<- | [<- | []]]];
    cbn [node_of_tool String.eqb Ascii.eqb Bool.eqb node_function].
  - unfold web_search. rewrite Hlast. eexists. split; [reflexivity|].
    repeat split; try discriminate.
    intros _ [e [-> | ->]]; eexists; reflexivity.
  - unfold rag_search. rewrite Hlast, (Hinit eq_refl).
    eexists. split; [reflexivity|].
    repeat split; try discriminate.
    intros _ [e ->]. eexists; reflexivity.
  - unfold snowflake_search. rewrite Hlast.
    destruct (generate_snowflake_insights W _ _) eqn:E;
      (eexists; split; [reflexivity|]); repeat split; try discriminate.
    + intros _ [e He]. discriminate.
    + intros _ [e He]. eexists; reflexivity.
Qed.

End AdapterFacts.

(** C7 fails on the code: [rag_search] constructs the Pinecone client
    before its [try], so an exception of the constructor leaves the node.
    In a pinecone run the history then stops at the oracle's selection: no
    result Action, no final answer, and the endpoint answers with a server
    error. *)
Theorem rag_search_constructor_error_escapes :
  rag_search Sample.no_pinecone_world 0
    (append_step (initial_state "q" Sample.filters "pinecone")
       (selection (initial_state "q" Sample.filters "pinecone") "pinecone"))
  = Raise "PineconeConfigurationError: no API key"
  /\ (exists r,
        invoke_research_graph Sample.no_pinecone_world "q" Sample.filters
          "pinecone"
        = Failed "PineconeConfigurationError: no API key" r
        /\ history_tools r = ["pinecone"])
  /\ fst (research_endpoint Sample.no_pinecone_world
            (mkResearchRequest "q" Sample.filters "pinecone"))
     = ServerError
         "Error running research workflow: PineconeConfigurationError: no API key".
Proof.
  split; [reflexivity|]. split.
  - eexists. split; vm_compute; reflexivity.
  - vm_compute. reflexivity.
Qed.

Lemma research_endpoint_rejects_witness :
  (exists msg,
     research_endpoint Sample.world (mkResearchRequest "q" Sample.filters "both")
     = (ErrorBody msg, None))
  /\ (exists msg,
        research_endpoint Sample.world (mkResearchRequest "q" [] "pinecone")
        = (ErrorBody msg, None))
  /\ (exists msg,
        research_endpoint Sample.world
          (mkResearchRequest "q" [("2024", []); ("2025", [])] "combined")
        = (ErrorBody msg, None)).
Proof.
  split; [|split].
  - apply (proj1 (research_endpoint_rejects Sample.world
                    (mkResearchRequest "q" Sample.filters "both"))).
    simpl. intuition discriminate.
  - apply (proj2 (research_endpoint_rejects Sample.world
                    (mkResearchRequest "q" [] "pinecone"))).
    + simpl. tauto.
    + left. reflexivity.
  - apply (proj2 (research_endpoint_rejects Sample.world
                    (mkResearchRequest "q" [("2024", []); ("2025", [])]
                       "combined"))).
    + simpl. tauto.
    + right. repeat constructor.
Defined.

(* ================================================================== *)
(** * Reading back what the finalizer wrote *)

Section ReFacts.

Lemma all_chars_app p a b :
  all_chars p (a ++ b) = all_chars p a && all_chars p b.
Proof. induction a; simpl; [reflexivity|]. now rewrite IHa, andb_assoc. Qed.

Lemma rmatch_lits w k s o c :
  Re.rmatch (Re.lits w ++ k)%list (w ++ s) o c = Re.rmatch k s o c.
Proof.
  induction w as [|x w IH]; [reflexivity|].
  cbn [Re.lits app append Re.rmatch]. now rewrite Ascii.eqb_refl.
Qed.

Lemma rmatch_lits_inv w k s o c r :
  Re.rmatch (Re.lits w ++ k)%list s o c = Some r ->
  exists s', s = w ++ s' /\ Re.rmatch k s' o c = Some r.
Proof.
  revert s; induction w as [|x w IH]; intros s H.
  - exists s. split; [reflexivity | exact H].
  - cbn [Re.lits app Re.rmatch] in H. destruct s as [|y s]; [discriminate|].
    destruct (Ascii.eqb_spec y x); [|discriminate]. subst y.
    destruct (IH _ H) as [s' [-> H']]. exists s'. split; [reflexivity | exact H'].
Qed.

(** [c?] in front of a literal text that does not start with [c]. *)
Lemma rmatch_OptLit_skip c w0 w k s o cs :
  w0 <> c ->
  Re.rmatch (Re.OptLit c :: Re.lits (String w0 w) ++ k)%list
    (String w0 w ++ s) o cs
  = Re.rmatch k s o cs.
Proof.
  intros H. cbn [Re.rmatch append].
  destruct (Ascii.eqb_spec w0 c); [contradiction|].
  apply (rmatch_lits (String w0 w)).
Qed.

Lemma rmatch_OptLit_take c w0 w k s o cs :
  w0 <> c ->
  Re.rmatch (Re.OptLit c :: Re.lits (String w0 w) ++ k)%list
    (String c (String w0 w ++ s)) o cs
  = Re.rmatch k s o cs.
Proof.
  intros H. cbn [Re.rmatch]. rewrite Ascii.eqb_refl.
  rewrite (rmatch_lits (String w0 w)).
  destruct (Re.rmatch k s o cs); [reflexivity|].
  cbn [Re.lits app Re.rmatch].
  destruct (Ascii.eqb_spec c w0); [congruence | reflexivity].
Qed.

Lemma rmatch_OptLit_inv c w0 w k s o cs r :
  w0 <> c ->
  Re.rmatch (Re.OptLit c :: Re.lits (String w0 w) ++ k)%list s o cs = Some r ->
  exists s',
    (s = String w0 w ++ s' \/ s = String c (String w0 w ++ s'))
    /\ Re.rmatch k s' o cs = Some r.
Proof.
  intros H Hm. cbn [Re.rmatch] in Hm.
  assert (Hskip : Re.rmatch (Re.lits (String w0 w) ++ k)%list s o cs = Some r ->
                  exists s', s = String w0 w ++ s' /\ Re.rmatch k s' o cs = Some r)
    by apply rmatch_lits_inv.
  destruct s as [|x s].
  - destruct (Hskip Hm) as [s' [E _]]. discriminate.
  - destruct (Ascii.eqb_spec x c) as [->|Hx].
    + destruct (Re.rmatch (Re.lits (String w0 w) ++ k)%list s o cs) eqn:E.
      * injection Hm as ->. apply rmatch_lits_inv in E.
        destruct E as [s' [-> E]]. exists s'. split; [now right | exact E].
      * destruct (Hskip Hm) as [s' [E' _]]. injection E' as E' _. congruence.
    + destruct (Hskip Hm) as [s' [E' Hk]]. exists s'. split; [now left | exact Hk].
Qed.

Lemma lazy_star_inv p k s r :
  Re.lazy_star p k s = Some r ->
  exists a b, s = a ++ b /\ all_chars p a = true /\ k b = Some r
    /\ (forall a1 a2, a = a1 ++ a2 -> a2 <> "" -> k (a2 ++ b) = None).
Proof.
  induction s as [|x s IH]; cbn [Re.lazy_star]; intros H.
  - destruct (k "") eqn:E; [|discriminate]. injection H as ->.
    exists "", "". repeat split; auto.
    intros a1 a2 Ha Hne. destruct a1, a2; try discriminate. congruence.
  - destruct (k (String x s)) eqn:E.
    + injection H as ->. exists "", (String x s). repeat split; auto.
      intros a1 a2 Ha Hne. destruct a1, a2; try discriminate. congruence.
    + destruct (p x) eqn:Ep; [|discriminate].
      destruct (IH H) as [a [b [-> [Ha [Hk Hmin]]]]].
      exists (String x a), b. repeat split; auto.
      * simpl. now rewrite Ep.
      * intros a1 a2 Hsplit Hne. destruct a1 as [|y a1].
        -- simpl in Hsplit. subst a2. exact E.
        -- injection Hsplit as _ Hsplit. eapply Hmin; eauto.
Qed.

Lemma lazy_star_complete p k a b r :
  all_chars p a = true -> k b = Some r ->
  (forall a1 a2, a = a1 ++ a2 -> a2 <> "" -> k (a2 ++ b) = None) ->
  Re.lazy_star p k (a ++ b) = Some r.
Proof.
  induction a as [|x a IH]; intros Ha Hk Hmin.
  - simpl. destruct b; cbn [Re.lazy_star]; now rewrite Hk.
  - cbn [append Re.lazy_star].
    pose proof (Hmin "" (String x a) eq_refl ltac:(discriminate)) as H0.
    cbn [append] in H0. rewrite H0.
    simpl in Ha. apply andb_true_iff in Ha. destruct Ha as [Hx Ha].
    rewrite Hx. apply IH; auto.
    intros a1 a2 Hs Hne. apply (Hmin (String x a1) a2); [now rewrite Hs | exact Hne].
Qed.

Lemma span_decomp p s :
  exists body rest, s = body ++ rest /\ all_chars p body = true /\ stops p rest.
Proof.
  induction s as [|x s [body [rest [-> [Hb Hr]]]]].
  - exists "", "". simpl. auto.
  - destruct (p x) eqn:E.
    + exists (String x body), rest. simpl. rewrite E. auto.
    + exists "", (String x (body ++ rest)). simpl. auto.
Qed.

Lemma greedy_star_run p k body rest :
  (forall x s, p x = true -> k (String x s) = None) ->
  all_chars p body = true -> stops p rest ->
  Re.greedy_star p k (body ++ rest) = k rest.
Proof.
  intros Hk. induction body as [|x body IH]; intros Hb Hr.
  - simpl. destruct rest as [|y rest]; [reflexivity|].
    simpl in Hr. cbn [Re.greedy_star]. now rewrite Hr.
  - simpl in Hb. apply andb_true_iff in Hb. destruct Hb as [Hx Hb].
    cbn [append Re.greedy_star]. rewrite Hx, IH by auto.
    destruct (k rest); [reflexivity|]. now apply Hk.
Qed.

Lemma substring_prefix a b :
  String.substring 0 (String.length (a ++ b) - String.length b) (a ++ b) = a.
Proof.
  rewrite length_append. replace (String.length a + String.length b - String.length b) with (String.length a) by lia.
  induction a as [|x a IH]; simpl.
  - destruct b; reflexivity.
  - now rewrite IH.
Qed.

End ReFacts.

Section LinkFacts.

Lemma link_re_unfold g :
  Re.rmatch Re.link_re (String "["%char g) [] []
  = Re.lazy_star Re.dot (fun s => Re.rmatch link_tail s [g] []) g.
Proof. reflexivity. Qed.

Lemma link_re_head s :
  (forall g, s <> String "["%char g) -> Re.rmatch Re.link_re s [] [] = None.
Proof.
  intros H. destruct s as [|c g]; [reflexivity|].
  cbn. destruct (Ascii.eqb_spec c "["%char); [|reflexivity].
  subst. exfalso. now apply (H g).
Qed.

Lemma url_char_not_paren x :
  Re.url_char x = true -> Ascii.eqb x ")"%char = false.
Proof.
  unfold Re.url_char. intros H. apply andb_true_iff in H. destruct H as [_ H].
  now apply negb_true_iff in H.
Qed.

(** The part of [link_tail] after the scheme. *)
Lemma url_body_match body rest g c :
  body <> "" -> all_chars Re.url_char body = true ->
  Re.rmatch ([Re.GreedyPlus Re.url_char; Re.GClose] ++ Re.lits ")")%list
    (body ++ ")" ++ rest) [g] c
  = Some (rev (String.substring 0 (String.length g - String.length (")" ++ rest)) g :: c), rest).
Proof.
  intros Hne Hb. destruct body as [|x body]; [congruence|].
  simpl in Hb. apply andb_true_iff in Hb. destruct Hb as [Hx Hb].
  cbn [app Re.lits Re.rmatch append]. rewrite Hx.
  rewrite greedy_star_run; auto.
  - intros y s Hy. now rewrite (url_char_not_paren y Hy).
  - reflexivity.
Qed.

Lemma url_body_inv s g c r :
  Re.rmatch ([Re.GreedyPlus Re.url_char; Re.GClose] ++ Re.lits ")")%list
    s [g] c = Some r ->
  exists body rest, s = body ++ ")" ++ rest /\ body <> ""
    /\ all_chars Re.url_char body = true
    /\ r = (rev (String.substring 0 (String.length g - String.length (")" ++ rest)) g :: c), rest).
Proof.
  cbn [app Re.lits Re.rmatch]. destruct s as [|x s]; [discriminate|].
  destruct (Re.url_char x) eqn:Hx; [|discriminate].
  destruct (span_decomp Re.url_char s) as [body [rest0 [-> [Hb Hs]]]].
  rewrite greedy_star_run; auto.
  2: { intros y s' Hy. now rewrite (url_char_not_paren y Hy). }
  destruct rest0 as [|y rest]; [discriminate|].
  destruct (Ascii.eqb_spec y ")"%char); [|discriminate]. subst y.
  intros H. injection H as <-.
  exists (String x body), rest. repeat split.
  - discriminate.
  - simpl. now rewrite Hx.
Qed.

Lemma link_tail_match g u rest :
  UrlShape u ->
  Re.rmatch link_tail ("](" ++ u ++ ")" ++ rest) [g] []
  = Some ([String.substring 0 (String.length g - String.length ("](" ++ u ++ ")" ++ rest)) g; u], rest).
Proof.
  intros [body [Hu [Hne Hb]]]. unfold link_tail. cbn [Re.rmatch].
  rewrite rmatch_lits. cbn [app Re.rmatch].
  set (cap1 := String.substring 0 _ g).
  assert (Hcap : forall scheme,
             String.substring 0
               (String.length ((scheme ++ body) ++ ")" ++ rest)
                - String.length (")" ++ rest))
               ((scheme ++ body) ++ ")" ++ rest) = scheme ++ body)
    by (intros; apply substring_prefix).
  destruct Hu as [-> | ->].
  - change ("http://" ++ body) with ("http" ++ "://" ++ body) at 1.
    rewrite !append_assoc, (rmatch_lits "http").
    rewrite (rmatch_OptLit_skip "s" ":" "//") by discriminate.
    rewrite url_body_match by auto.
    cbn [rev app]. now rewrite <- (append_assoc "http://" body), Hcap.
  - rewrite !append_assoc.
    change ("https://" ++ body ++ ")" ++ rest)
      with ("http" ++ String "s" ("://" ++ body ++ ")" ++ rest)).
    rewrite (rmatch_lits "http").
    rewrite (rmatch_OptLit_take "s" ":" "//") by discriminate.
    rewrite url_body_match by auto.
    cbn [rev app].
    change ("http" ++ String "s" ("://" ++ body ++ ")" ++ rest))
      with ("https://" ++ body ++ ")" ++ rest).
    now rewrite <- (append_assoc "https://" body), Hcap.
Qed.

Lemma link_tail_inv g s caps rest :
  Re.rmatch link_tail s [g] [] = Some (caps, rest) ->
  exists u,
    s = "](" ++ u ++ ")" ++ rest /\ UrlShape u
    /\ caps = [String.substring 0 (String.length g - String.length s) g; u].
Proof.
  unfold link_tail. cbn [Re.rmatch]. intros H.
  apply rmatch_lits_inv in H. destruct H as [s2 [-> H]].
  cbn [app Re.rmatch] in H.
  apply rmatch_lits_inv in H. destruct H as [s3 [E3 H]].
  apply (rmatch_OptLit_inv "s" ":" "//") in H; [|discriminate].
  destruct H as [s4 [E4 H]].
  apply url_body_inv in H. destruct H as [body [rest' [-> [Hne [Hb H]]]]].
  injection H as -> ->.
  destruct E4 as [-> | ->].
  - exists ("http://" ++ body). subst s2. split; [|split].
    + reflexivity.
    + exists body. auto.
    + cbn [rev app]. do 2 f_equal.
      change ("http" ++ "://" ++ body ++ ")" ++ rest')
        with ("http://" ++ body ++ ")" ++ rest').
      rewrite <- (append_assoc "http://" body). apply substring_prefix.
  - exists ("https://" ++ body). subst s2. split; [|split].
    + reflexivity.
    + exists body. auto.
    + cbn [rev app]. do 2 f_equal.
      change ("http" ++ String "s" ("://" ++ body ++ ")" ++ rest'))
        with ("https://" ++ body ++ ")" ++ rest').
      rewrite <- (append_assoc "https://" body). apply substring_prefix.
Qed.

End LinkFacts.

Section LinkRoundTrip.

(** The first occurrence of a character: when [Q] lacks [c], a text that
    reads [Q ++ c ++ ...] and also [P ++ c ++ ...] has [Q ++ c] as a prefix
    of [P ++ c]. *)
Lemma first_char_split c Q : forall P r r',
  lacks c Q = true ->
  P ++ String c r = Q ++ String c r' ->
  exists z, forall r0, P ++ String c r0 = Q ++ String c (z ++ r0).
Proof.
  induction Q as [|q Q IH]; intros P r r' HQ E.
  - destruct P as [|x P].
    + exists "". reflexivity.
    + injection E as -> _. exists (P ++ String c "").
      intros r0. cbn [append]. now rewrite append_assoc.
  - cbn [lacks all_chars] in HQ. apply andb_true_iff in HQ.
    destruct HQ as [Hq HQ]. apply negb_true_iff, Ascii.eqb_neq in Hq.
    destruct P as [|x P].
    + injection E as E _. congruence.
    + injection E as -> E. destruct (IH _ _ _ HQ E) as [z Hz].
      exists z. intros r0. cbn [append]. now rewrite Hz.
Qed.

Lemma lacks_app c a b : lacks c (a ++ b) = lacks c a && lacks c b.
Proof. apply all_chars_app. Qed.

Lemma all_chars_weaken (p q : ascii -> bool) s :
  (forall x, p x = true -> q x = true) ->
  all_chars p s = true -> all_chars q s = true.
Proof.
  intros H. induction s as [|x s IH]; [reflexivity|].
  simpl. rewrite !andb_true_iff. intros [Hx Hs]. auto.
Qed.

Lemma url_shape_lacks_paren u : UrlShape u -> lacks ")" u = true.
Proof.
  intros [body [Hu [_ Hb]]].
  assert (Hl : lacks ")" body = true).
  { revert Hb. apply all_chars_weaken. intros x Hx.
    now rewrite (url_char_not_paren x Hx). }
  destruct Hu as [-> | ->]; rewrite lacks_app, Hl; reflexivity.
Qed.

(** Whether the tail matches after a remainder [a2] of the title does not
    depend on what follows the link. *)
Lemma link_tail_local g g' a2 u rest rest' :
  Re.rmatch link_tail (a2 ++ "](" ++ u ++ ")" ++ rest) [g] [] = None ->
  Re.rmatch link_tail (a2 ++ "](" ++ u ++ ")" ++ rest') [g'] [] = None.
Proof.
  intros Hnone.
  destruct (Re.rmatch link_tail (a2 ++ "](" ++ u ++ ")" ++ rest') [g'] [])
    as [[caps r'']|] eqn:E; [|reflexivity].
  apply link_tail_inv in E. destruct E as [u' [E [Hu' _]]].
  destruct (first_char_split ")" ("](" ++ u') (a2 ++ "](" ++ u) rest' r'')
    as [z Hz].
  - rewrite lacks_app, (url_shape_lacks_paren u' Hu'). reflexivity.
  - rewrite !append_assoc in *. exact E.
  - specialize (Hz rest). rewrite !append_assoc in Hz.
    change (String ")" rest) with (")" ++ rest) in Hz.
    rewrite Hz in Hnone.
    change (String ")" (z ++ rest)) with (")" ++ z ++ rest) in Hnone.
    rewrite (link_tail_match g u' (z ++ rest) Hu') in Hnone. discriminate.
Qed.

Lemma link_match_canon s caps rest :
  Re.rmatch Re.link_re s [] [] = Some (caps, rest) ->
  exists t u,
    caps = [t; u] /\ s = "[" ++ t ++ "](" ++ u ++ ")" ++ rest
    /\ LinkCanon t u.
Proof.
  intros H. destruct s as [|c g]; [discriminate|].
  destruct (Ascii.eqb_spec c "["%char) as [->|Hc].
  2: { rewrite link_re_head in H; [discriminate|]. intros g' E. congruence. }
  rewrite link_re_unfold in H. apply lazy_star_inv in H.
  destruct H as [t [b [-> [Ht [Hb Hmin]]]]].
  apply link_tail_inv in Hb. destruct Hb as [u [-> [Hu ->]]].
  rewrite substring_prefix.
  exists t, u. split; [reflexivity|]. split; [reflexivity|].
  intros r. change ("[" ++ t ++ "](" ++ u ++ ")" ++ r)
    with (String "["%char (t ++ "](" ++ u ++ ")" ++ r)).
  rewrite link_re_unfold. apply lazy_star_complete.
  - exact Ht.
  - rewrite link_tail_match by exact Hu. now rewrite substring_prefix.
  - intros a1 a2 Hs Hne. eapply link_tail_local. eapply Hmin; eauto.
Qed.

End LinkRoundTrip.

Section FindallFacts.

Lemma findall_from_skip pat a b :
  Re.findall_from pat (a ++ b) (String.length a) = Re.findall_from pat b 0.
Proof. induction a as [|x a IH]; [reflexivity | exact IH]. Qed.

Lemma findall_from_match pat c m rest caps :
  Re.rmatch pat (String c (m ++ rest)) [] [] = Some (caps, rest) ->
  Re.findall_from pat (String c (m ++ rest)) 0
  = caps :: Re.findall_from pat rest 0.
Proof.
  intros H. cbn [Re.findall_from]. rewrite H. f_equal.
  replace (String.length (String c (m ++ rest)) - String.length rest - 1)
    with (String.length m)
    by (cbn [String.length]; rewrite length_append; lia).
  apply findall_from_skip.
Qed.

Lemma findall_from_nomatch pat c s :
  Re.rmatch pat (String c s) [] [] = None ->
  Re.findall_from pat (String c s) 0 = Re.findall_from pat s 0.
Proof. intros H. cbn [Re.findall_from]. now rewrite H. Qed.

Lemma string_concat_cons (x : string) (l : list string) :
  String.concat "" (x :: l) = x ++ String.concat "" l.
Proof.
  destruct l as [|y l]; cbn [String.concat].
  - now rewrite append_nil_r.
  - reflexivity.
Qed.

End FindallFacts.

Section LinkSection.

Lemma link_re_skip_prefix h s :
  lacks "[" h = true ->
  Re.findall_from Re.link_re (h ++ s) 0 = Re.findall_from Re.link_re s 0.
Proof.
  induction h as [|x h IH]; intros Hh; [reflexivity|].
  cbn [lacks all_chars] in Hh. apply andb_true_iff in Hh.
  destruct Hh as [Hx Hh]. apply negb_true_iff, Ascii.eqb_neq in Hx.
  cbn [append]. rewrite findall_from_nomatch; [now apply IH|].
  apply link_re_head. intros g E. congruence.
Qed.

Lemma findall_link_lines (ls : list WebLink) :
  Forall (fun l => LinkCanon (link_title l) (link_url l)) ls ->
  Re.findall_from Re.link_re (String.concat "" (map link_line ls)) 0
  = map link_caps ls.
Proof.
  induction 1 as [|l ls Hl _ IH]; [reflexivity|].
  cbn [map]. rewrite string_concat_cons. unfold link_line at 1.
  change ("- [" ++ link_title l ++ "](" ++ link_url l ++ ")" ++ NL)
    with ("- " ++ "[" ++ link_title l ++ "](" ++ link_url l ++ ")" ++ NL).
  rewrite !append_assoc.
  rewrite link_re_skip_prefix by reflexivity.
  set (R := String.concat "" (map link_line ls)) in *.
  assert (E : "[" ++ link_title l ++ "](" ++ link_url l ++ ")" ++ NL ++ R
              = String "["%char ((link_title l ++ "](" ++ link_url l ++ ")")
                                   ++ NL ++ R))
    by (now rewrite !append_assoc).
  rewrite E.
  rewrite (findall_from_match _ _ _ _ (link_caps l)).
  - rewrite (link_re_skip_prefix NL) by reflexivity. now rewrite IH.
  - rewrite !append_assoc. apply Hl.
Qed.

Lemma findall_from_link_canon s : forall skip,
  Forall (fun caps => exists t u, caps = [t; u] /\ LinkCanon t u)
    (Re.findall_from Re.link_re s skip).
Proof.
  induction s as [|c s IH]; intros skip; [constructor|].
  cbn [Re.findall_from]. destruct skip as [|k]; [|apply IH].
  destruct (Re.rmatch Re.link_re (String c s) [] []) as [[caps rest]|] eqn:E;
    [|apply IH].
  constructor; [|apply IH].
  destruct (link_match_canon _ _ _ E) as [t [u [-> [_ Hc]]]]. eauto.
Qed.

Lemma extract_links_canon (text : string) :
  Forall (fun l => LinkCanon (link_title l) (link_url l)) (extract_links text).
Proof.
  unfold extract_links, Re.findall.
  pose proof (findall_from_link_canon text 0) as H.
  induction H as [|caps l [t [u [-> Hc]]] _ IH]; [constructor|].
  cbn [flat_map app]. constructor; [exact Hc | exact IH].
Qed.

Lemma flat_map_link_caps (ls : list WebLink) :
  flat_map (fun caps => match caps with
                        | [t; u] => [mkWebLink t u]
                        | _ => []
                        end) (map link_caps ls) = ls.
Proof.
  induction ls as [|[t u] ls IH]; [reflexivity|].
  cbn [map flat_map link_caps link_title link_url app]. now rewrite IH.
Qed.

(** The link regex, run over the Sources section written from canonical
    links, finds those links again. *)
Lemma extract_links_sources_section (ls : list WebLink) :
  Forall (fun l => LinkCanon (link_title l) (link_url l)) ls ->
  extract_links (sources_section ls) = ls.
Proof.
  intros H. destruct ls as [|l ls]; [reflexivity|].
  unfold extract_links, Re.findall, sources_section.
  rewrite <- !append_assoc.
  rewrite link_re_skip_prefix by reflexivity.
  rewrite findall_link_lines by exact H. apply flat_map_link_caps.
Qed.

End LinkSection.

Section VizFacts.

Lemma viz_re_unfold g :
  Re.rmatch Re.viz_re ("![" ++ g) [] []
  = Re.lazy_star Re.dot (fun s => Re.rmatch viz_k1 s [g] []) g.
Proof. reflexivity. Qed.

Lemma viz_re_head s :
  (forall g, s <> String "!"%char g) -> Re.rmatch Re.viz_re s [] [] = None.
Proof.
  intros H. destruct s as [|c g]; [reflexivity|].
  cbn. destruct (Ascii.eqb_spec c "!"%char); [|reflexivity].
  subst. exfalso. now apply (H g).
Qed.

(** A text all of whose non-empty suffixes start with another character
    than [x] lacks [x]. *)
Lemma lacks_of_suffixes x c :
  (forall a1 a2 y s, c = a1 ++ a2 -> a2 = String y s -> y <> x) ->
  lacks x c = true.
Proof.
  induction c as [|y c IH]; intros H; [reflexivity|].
  cbn [lacks all_chars]. apply andb_true_iff. split.
  - apply negb_true_iff, Ascii.eqb_neq. now apply (H "" (String y c) y c).
  - apply IH. intros a1 a2 z s E1 E2. apply (H (String y a1) a2 z s); [|exact E2].
    now rewrite E1.
Qed.

Lemma lacks_head x y s : lacks x (String y s) = true -> y <> x.
Proof.
  cbn [lacks all_chars]. intros H. apply andb_true_iff in H.
  destruct H as [H _]. now apply negb_true_iff, Ascii.eqb_neq in H.
Qed.

Lemma lacks_suffix x a1 a2 : lacks x (a1 ++ a2) = true -> lacks x a2 = true.
Proof. rewrite lacks_app, andb_true_iff. tauto. Qed.

(** The caption: up to the first [*] of its line. *)
Lemma caption_match c rest caps :
  all_chars Re.dot c = true -> lacks "*" c = true ->
  Re.lazy_star Re.dot
    (fun s => Re.rmatch viz_k3 s [c ++ "*" ++ rest] caps) (c ++ "*" ++ rest)
  = Some (rev (c :: caps), rest).
Proof.
  intros Hd Hl. apply lazy_star_complete; [exact Hd | |].
  - cbn [viz_k3 Re.lits app Re.rmatch append Ascii.eqb Bool.eqb].
    change (String "*" rest) with ("*" ++ rest). now rewrite substring_prefix.
  - intros a1 a2 E Hne. destruct a2 as [|y a2]; [congruence|].
    rewrite E in Hl. apply lacks_suffix, lacks_head in Hl.
    cbn [viz_k3 Re.lits app Re.rmatch append].
    destruct (Ascii.eqb_spec y "*"%char); [contradiction | reflexivity].
Qed.

Lemma caption_inv g caps r :
  Re.lazy_star Re.dot (fun s => Re.rmatch viz_k3 s [g] caps) g = Some r ->
  exists c rest,
    g = c ++ "*" ++ rest /\ all_chars Re.dot c = true /\ lacks "*" c = true
    /\ r = (rev (c :: caps), rest).
Proof.
  intros H. apply lazy_star_inv in H.
  destruct H as [c [b [-> [Hd [Hk Hmin]]]]].
  cbn [viz_k3 Re.lits app Re.rmatch] in Hk.
  destruct b as [|y rest]; [discriminate|].
  destruct (Ascii.eqb_spec y "*"%char); [subst y | discriminate].
  injection Hk as <-.
  exists c, rest. split; [reflexivity|]. split; [exact Hd|]. split.
  - apply lacks_of_suffixes. intros a1 a2 z s E1 E2 Ez. subst z a2.
    specialize (Hmin a1 (String "*"%char s) E1 ltac:(discriminate)).
    cbn [viz_k3 Re.lits app Re.rmatch append Ascii.eqb Bool.eqb] in Hmin.
    discriminate.
  - change (String "*" rest) with ("*" ++ rest). now rewrite substring_prefix.
Qed.

(** After the URL: [)\n\n*], the caption and its closing [*]. *)
Lemma viz_k2_match g c rest caps :
  all_chars Re.dot c = true -> lacks "*" c = true ->
  Re.rmatch viz_k2 (viz_mid ++ c ++ "*" ++ rest) [g] caps
  = Some (rev (c :: String.substring 0
                      (String.length g
                       - String.length (viz_mid ++ c ++ "*" ++ rest)) g
                 :: caps), rest).
Proof.
  intros Hd Hl. unfold viz_k2. cbn [Re.rmatch].
  rewrite rmatch_lits. cbn [app Re.rmatch].
  now apply caption_match.
Qed.

Lemma viz_k2_inv g s caps r :
  Re.rmatch viz_k2 s [g] caps = Some r ->
  exists c rest,
    s = viz_mid ++ c ++ "*" ++ rest
    /\ all_chars Re.dot c = true /\ lacks "*" c = true
    /\ r = (rev (c :: String.substring 0
                         (String.length g - String.length s) g :: caps), rest).
Proof.
  unfold viz_k2. cbn [Re.rmatch]. intros H.
  apply rmatch_lits_inv in H. destruct H as [s' [-> H]].
  cbn [app Re.rmatch] in H. apply caption_inv in H.
  destruct H as [c [rest [-> [Hd [Hl ->]]]]]. exists c, rest. auto.
Qed.

Lemma viz_k2_fails_early g a2 tail caps :
  a2 <> "" -> all_chars Re.dot a2 = true ->
  Re.rmatch viz_k2 (a2 ++ viz_mid ++ tail) [g] caps = None.
Proof.
  intros Hne Hd.
  destruct (Re.rmatch viz_k2 (a2 ++ viz_mid ++ tail) [g] caps) eqn:E;
    [|reflexivity].
  apply viz_k2_inv in E. destruct E as [c [rest [E _]]].
  destruct a2 as [|x [|y a2]]; [congruence | |].
  - discriminate.
  - injection E as _ E. subst y. cbn in Hd. rewrite andb_false_r in Hd.
    discriminate.
Qed.

(** The URL: any text of the line; the rest of the pattern cannot start
    inside it, since that needs a newline. *)
Lemma viz_url_match u c rest caps :
  all_chars Re.dot u = true ->
  all_chars Re.dot c = true -> lacks "*" c = true ->
  Re.lazy_star Re.dot
    (fun s => Re.rmatch viz_k2 s [u ++ viz_mid ++ c ++ "*" ++ rest] caps)
    (u ++ viz_mid ++ c ++ "*" ++ rest)
  = Some (rev (c :: u :: caps), rest).
Proof.
  intros Hu Hd Hl. apply lazy_star_complete; [exact Hu | |].
  - rewrite viz_k2_match by auto. now rewrite substring_prefix.
  - intros a1 a2 E Hne. apply viz_k2_fails_early; [exact Hne|].
    rewrite E, all_chars_app in Hu. apply andb_true_iff in Hu. tauto.
Qed.

Lemma viz_url_inv g caps r :
  Re.lazy_star Re.dot (fun s => Re.rmatch viz_k2 s [g] caps) g = Some r ->
  exists u c rest,
    g = u ++ viz_mid ++ c ++ "*" ++ rest
    /\ all_chars Re.dot u = true
    /\ all_chars Re.dot c = true /\ lacks "*" c = true
    /\ r = (rev (c :: u :: caps), rest).
Proof.
  intros H. apply lazy_star_inv in H.
  destruct H as [u [b [-> [Hu [Hk _]]]]].
  apply viz_k2_inv in Hk. destruct Hk as [c [rest [-> [Hd [Hl ->]]]]].
  exists u, c, rest. rewrite substring_prefix. auto.
Qed.

(** After the title: [](], the URL and the rest. *)
Lemma viz_k1_match g u c rest :
  all_chars Re.dot u = true ->
  all_chars Re.dot c = true -> lacks "*" c = true ->
  Re.rmatch viz_k1 ("](" ++ u ++ viz_mid ++ c ++ "*" ++ rest) [g] []
  = Some ([String.substring 0
             (String.length g
              - String.length ("](" ++ u ++ viz_mid ++ c ++ "*" ++ rest)) g;
           u; c], rest).
Proof.
  intros Hu Hd Hl. unfold viz_k1. cbn [Re.rmatch].
  rewrite rmatch_lits. cbn [app Re.rmatch].
  now rewrite viz_url_match by auto.
Qed.

Lemma viz_k1_inv g s caps rest :
  Re.rmatch viz_k1 s [g] [] = Some (caps, rest) ->
  exists u c,
    s = "](" ++ u ++ viz_mid ++ c ++ "*" ++ rest
    /\ all_chars Re.dot u = true
    /\ all_chars Re.dot c = true /\ lacks "*" c = true
    /\ caps = [String.substring 0 (String.length g - String.length s) g; u; c].
Proof.
  unfold viz_k1. cbn [Re.rmatch]. intros H.
  apply rmatch_lits_inv in H. destruct H as [s' [-> H]].
  cbn [app Re.rmatch] in H. apply viz_url_inv in H.
  destruct H as [u [c [rest' [-> [Hu [Hd [Hl H]]]]]]].
  injection H as -> ->. exists u, c. auto.
Qed.

End VizFacts.

Section VizRoundTrip.

Lemma split_unique x P : forall Q r r',
  lacks x P = true -> lacks x Q = true ->
  P ++ String x r = Q ++ String x r' -> P = Q /\ r = r'.
Proof.
  induction P as [|p P IH]; intros Q r r' HP HQ E.
  - destruct Q as [|q Q].
    + injection E as ->. auto.
    + injection E as <- _. apply lacks_head in HQ. congruence.
  - destruct Q as [|q Q].
    + injection E as -> _. apply lacks_head in HP. congruence.
    + injection E as -> E.
      cbn [lacks all_chars] in HP, HQ.
      apply andb_true_iff in HP. apply andb_true_iff in HQ.
      destruct (IH Q r r') as [-> ->]; tauto.
Qed.

Lemma viz_block_text_app t u c r :
  viz_block_text t u c ++ r = "![" ++ t ++ "](" ++ u ++ viz_mid ++ c ++ "*" ++ r.
Proof. unfold viz_block_text. now rewrite !append_assoc. Qed.

(** Whether the rest of the pattern matches after a remainder [a2] of the
    title does not depend on what follows the block. *)
Lemma viz_k1_local g g' a2 u c rest rest' :
  all_chars Re.dot a2 = true -> all_chars Re.dot u = true ->
  lacks "*" c = true ->
  Re.rmatch viz_k1 (a2 ++ "](" ++ u ++ viz_mid ++ c ++ "*" ++ rest) [g] [] = None ->
  Re.rmatch viz_k1 (a2 ++ "](" ++ u ++ viz_mid ++ c ++ "*" ++ rest') [g'] [] = None.
Proof.
  intros Ha Hu Hc Hnone.
  destruct (Re.rmatch viz_k1 (a2 ++ "](" ++ u ++ viz_mid ++ c ++ "*" ++ rest')
              [g'] []) as [[caps r'']|] eqn:E; [|reflexivity].
  apply viz_k1_inv in E. destruct E as [u' [c' [E [Hu' [Hd' [Hc' _]]]]]].
  assert (E1 : (a2 ++ "](" ++ u ++ ")")
               ++ String PyStr.nl (String PyStr.nl ("*" ++ c ++ "*" ++ rest'))
               = ("](" ++ u' ++ ")")
                 ++ String PyStr.nl (String PyStr.nl ("*" ++ c' ++ "*" ++ r''))).
  { rewrite !append_assoc. exact E. }
  apply (split_unique PyStr.nl) in E1.
  - destruct E1 as [EP E1]. injection E1 as E1.
    apply (split_unique "*"%char) in E1; auto. destruct E1 as [-> ->].
    assert (E2 : a2 ++ "](" ++ u ++ viz_mid ++ c' ++ "*" ++ rest
                 = "](" ++ u' ++ viz_mid ++ c' ++ "*" ++ rest).
    { transitivity ((a2 ++ "](" ++ u ++ ")")
                    ++ String PyStr.nl
                         (String PyStr.nl ("*" ++ c' ++ "*" ++ rest))).
      - rewrite !append_assoc. reflexivity.
      - rewrite EP, !append_assoc. reflexivity. }
    rewrite E2, viz_k1_match in Hnone by auto. discriminate.
  - change (lacks PyStr.nl) with (all_chars Re.dot).
    rewrite !all_chars_app, Ha, Hu. reflexivity.
  - change (lacks PyStr.nl) with (all_chars Re.dot).
    rewrite !all_chars_app, Hu'. reflexivity.
Qed.

Lemma viz_match_canon s caps rest :
  Re.rmatch Re.viz_re s [] [] = Some (caps, rest) ->
  exists t u c,
    caps = [t; u; c] /\ s = viz_block_text t u c ++ rest /\ VizCanon t u c.
Proof.
  intros H.
  change Re.viz_re
    with (Re.lits "![" ++ Re.GOpen :: Re.LazyStar Re.dot :: viz_k1)%list in H.
  pose proof H as H'. apply rmatch_lits_inv in H'. destruct H' as [g [-> _]].
  change (Re.lits "![" ++ Re.GOpen :: Re.LazyStar Re.dot :: viz_k1)%list
    with Re.viz_re in H.
  rewrite viz_re_unfold in H. apply lazy_star_inv in H.
  destruct H as [t [b [-> [Ht [Hb Hmin]]]]].
  apply viz_k1_inv in Hb. destruct Hb as [u [c [-> [Hu [Hd [Hc ->]]]]]].
  rewrite substring_prefix.
  exists t, u, c. split; [reflexivity|]. split.
  { now rewrite viz_block_text_app. }
  intros r. rewrite viz_block_text_app, viz_re_unfold.
  apply lazy_star_complete.
  - exact Ht.
  - rewrite viz_k1_match by auto. now rewrite substring_prefix.
  - intros a1 a2 Hs Hne. eapply viz_k1_local; auto.
    + rewrite Hs, all_chars_app in Ht. apply andb_true_iff in Ht. tauto.
    + eapply Hmin; eauto.
Qed.

End VizRoundTrip.

Section SplitFacts.

Lemma startswith_app p r : PyStr.startswith p (p ++ r) = true.
Proof. apply startswith_spec. eauto. Qed.

Lemma startswith_weaken p a r :
  PyStr.startswith p a = true -> PyStr.startswith p (a ++ r) = true.
Proof.
  rewrite !startswith_spec. intros [x ->]. exists (x ++ r).
  now rewrite append_assoc.
Qed.

Lemma split_from_skip sep a b :
  PyStr.split_from sep (a ++ b) (String.length a) = PyStr.split_from sep b 0.
Proof. induction a as [|x a IH]; [reflexivity | exact IH]. Qed.

(** A text without the separator is its own single piece. *)
Lemma split_without sep s :
  PyStr.contains sep s = false -> PyStr.split sep s = [s].
Proof.
  unfold PyStr.split. induction s as [|c s IH]; intros H; [reflexivity|].
  cbn [PyStr.contains] in H. apply orb_false_iff in H. destruct H as [H1 H2].
  cbn [PyStr.split_from]. rewrite H1, (IH H2). reflexivity.
Qed.

(** The pieces of a split hold no separator, and the first piece is a
    prefix of the text. *)
Lemma split_from_pieces sep s : sep <> "" -> forall skip,
  Forall (fun p => PyStr.contains sep p = false) (PyStr.split_from sep s skip)
  /\ (skip = 0 -> exists p ps r,
        PyStr.split_from sep s 0 = p :: ps /\ s = p ++ r).
Proof.
  intros Hsep. induction s as [|c s IH]; intros skip.
  - split.
    + constructor; [|constructor]. destruct sep; [congruence | reflexivity].
    + intros _. exists "", [], "". auto.
  - destruct skip as [|k].
    + cbn [PyStr.split_from].
      destruct (PyStr.startswith sep (String c s)) eqn:Es.
      * split.
        -- constructor; [destruct sep; [congruence | reflexivity]|].
           apply IH.
        -- intros _. exists "", (PyStr.split_from sep s (String.length sep - 1)),
             (String c s). auto.
      * destruct (IH 0) as [Hall Hfirst].
        destruct (Hfirst eq_refl) as [p [ps [r [Ep Er]]]].
        rewrite Ep in *. split.
        -- pose proof (Forall_inv Hall) as Hp. cbv beta in Hp.
           pose proof (Forall_inv_tail Hall) as Hps.
           constructor; [|exact Hps].
           cbn [PyStr.contains]. rewrite Hp, orb_false_r.
           destruct (PyStr.startswith sep (String c p)) eqn:E; [|reflexivity].
           apply (startswith_weaken _ _ r) in E. cbn [append] in E.
           rewrite <- Er in E. congruence.
        -- intros _. exists (String c p), ps, r. split; [reflexivity|].
           cbn [append]. now rewrite <- Er.
    + split; [apply IH | discriminate].
Qed.

(** A character that the needle lacks separates its occurrences. *)
Lemma startswith_delim x needle : forall A B,
  lacks x needle = true ->
  PyStr.startswith needle (A ++ String x B) = PyStr.startswith needle A.
Proof.
  induction needle as [|n needle IH]; intros A B H; [reflexivity|].
  pose proof (lacks_head _ _ _ H) as Hn.
  cbn [lacks all_chars] in H. apply andb_true_iff in H. destruct H as [_ H].
  destruct A as [|a A]; cbn [append PyStr.startswith].
  - destruct (Ascii.eqb_spec n x); [congruence | reflexivity].
  - now rewrite (IH A B H).
Qed.

Lemma contains_delim x needle A B :
  lacks x needle = true ->
  PyStr.contains needle (A ++ String x B)
  = PyStr.contains needle A || PyStr.contains needle B.
Proof.
  intros H. induction A as [|a A IH].
  - cbn [append PyStr.contains].
    pose proof (startswith_delim x needle "" B H) as E. cbn [append] in E.
    rewrite E. now rewrite orb_false_r.
  - cbn [append PyStr.contains].
    pose proof (startswith_delim x needle (String a A) B H) as E.
    cbn [append] in E. rewrite E, IH. now rewrite orb_assoc.
Qed.

Lemma contains_delim_head x needle B :
  lacks x needle = true -> needle <> "" ->
  PyStr.contains needle (String x B) = PyStr.contains needle B.
Proof.
  intros H Hne. change (String x B) with ("" ++ String x B).
  rewrite contains_delim by exact H.
  destruct needle; [congruence | reflexivity].
Qed.

Lemma contains_app_false needle a b :
  PyStr.contains needle (a ++ b) = false ->
  PyStr.contains needle a = false /\ PyStr.contains needle b = false.
Proof.
  intros H. split.
  - destruct (PyStr.contains needle a) eqn:E; [|reflexivity].
    apply contains_spec in E. destruct E as [x [y ->]].
    apply not_contains_spec in H. exfalso. apply H.
    exists x, (y ++ b). now rewrite !append_assoc.
  - destruct (PyStr.contains needle b) eqn:E; [|reflexivity].
    apply contains_spec in E. destruct E as [x [y ->]].
    apply not_contains_spec in H. exfalso. apply H.
    exists (a ++ x), y. now rewrite !append_assoc.
Qed.

End SplitFacts.

Section VizSection.

Lemma findall_from_match_app pat m rest caps :
  m <> "" ->
  Re.rmatch pat (m ++ rest) [] [] = Some (caps, rest) ->
  Re.findall_from pat (m ++ rest) 0 = caps :: Re.findall_from pat rest 0.
Proof.
  intros Hm H. destruct m as [|c m]; [congruence|].
  now apply findall_from_match.
Qed.

Lemma viz_re_skip_prefix h s :
  lacks "!" h = true ->
  Re.findall_from Re.viz_re (h ++ s) 0 = Re.findall_from Re.viz_re s 0.
Proof.
  induction h as [|x h IH]; intros Hh; [reflexivity|].
  pose proof (lacks_head _ _ _ Hh) as Hx.
  cbn [lacks all_chars] in Hh. apply andb_true_iff in Hh.
  destruct Hh as [_ Hh].
  cbn [append]. rewrite findall_from_nomatch; [now apply IH|].
  apply viz_re_head. intros g E. congruence.
Qed.

Lemma viz_block_app (v : VizRef) (R : string) :
  viz_block v ++ R
  = viz_block_text (ref_title v) (ref_url v) (ref_caption v) ++ NL ++ NL ++ R.
Proof.
  unfold viz_block, viz_block_text. rewrite !append_assoc. reflexivity.
Qed.

Lemma findall_viz_blocks (vs : list VizRef) :
  Forall VizOK vs ->
  Re.findall_from Re.viz_re (String.concat "" (map viz_block vs)) 0
  = map viz_caps vs.
Proof.
  induction 1 as [|v vs [Hv _] _ IH]; [reflexivity|].
  cbn [map]. rewrite string_concat_cons, viz_block_app.
  rewrite (findall_from_match_app _ _ _ (viz_caps v)).
  - rewrite <- append_assoc.
    rewrite (viz_re_skip_prefix (NL ++ NL)) by reflexivity. now rewrite IH.
  - discriminate.
  - apply Hv.
Qed.

Lemma sentinel_not_empty : viz_sentinel <> "".
Proof. discriminate. Qed.

Lemma blocks_without_sentinel (vs : list VizRef) :
  Forall VizOK vs ->
  PyStr.contains viz_sentinel (String.concat "" (map viz_block vs)) = false.
Proof.
  induction 1 as [|v vs [_ [Ht [Hu Hc]]] _ IH]; [reflexivity|].
  cbn [map]. rewrite string_concat_cons.
  set (R := String.concat "" (map viz_block vs)) in *.
  unfold viz_block. rewrite !append_assoc. cbn [append NL].
  repeat (first
    [ rewrite contains_delim_head by (reflexivity || exact sentinel_not_empty)
    | rewrite contains_delim by reflexivity ]).
  now rewrite Ht, Hu, Hc, IH.
Qed.

Lemma contains_section (B : string) :
  PyStr.contains viz_sentinel (NL ++ NL ++ viz_sentinel ++ NL ++ NL ++ B) = true.
Proof. apply contains_spec. exists (NL ++ NL), (NL ++ NL ++ B). now rewrite !append_assoc. Qed.

Lemma split_section (B : string) :
  PyStr.contains viz_sentinel B = false ->
  nth 1 (PyStr.split viz_sentinel
           (NL ++ NL ++ viz_sentinel ++ NL ++ NL ++ B)) ""
  = NL ++ NL ++ B.
Proof.
  intros HB. unfold PyStr.split.
  change (NL ++ NL ++ viz_sentinel ++ NL ++ NL ++ B)
    with (String PyStr.nl (String PyStr.nl (viz_sentinel ++ NL ++ NL ++ B))).
  cbn [PyStr.split_from]. 
  change (PyStr.startswith viz_sentinel
            (String PyStr.nl (String PyStr.nl (viz_sentinel ++ NL ++ NL ++ B))))
    with false.
  change (PyStr.startswith viz_sentinel
            (String PyStr.nl (viz_sentinel ++ NL ++ NL ++ B)))
    with false.
  cbv iota.
  remember (viz_sentinel ++ NL ++ NL ++ B) as S eqn:ES.
  destruct S as [|c S']; [discriminate|].
  cbn [PyStr.split_from].
  rewrite ES at 1. rewrite startswith_app.
  assert (E : S' = "# Visualizations" ++ NL ++ NL ++ B)
    by (injection ES as _ ES; exact ES).
  rewrite E.
  change (String.length viz_sentinel - 1) with (String.length "# Visualizations").
  rewrite split_from_skip.
  assert (HB' : PyStr.contains viz_sentinel (NL ++ NL ++ B) = false).
  { cbn [append NL].
    now rewrite !contains_delim_head by (reflexivity || exact sentinel_not_empty). }
  pose proof (split_without viz_sentinel _ HB') as Hs. unfold PyStr.split in Hs.
  rewrite Hs. reflexivity.
Qed.

Lemma flat_map_viz_caps (vs : list VizRef) :
  flat_map (fun caps => match caps with
                        | [t; u; c] => [mkVizRef t u c]
                        | _ => []
                        end) (map viz_caps vs) = vs.
Proof.
  induction vs as [|[t u c] vs IH]; [reflexivity|].
  cbn [map flat_map viz_caps ref_title ref_url ref_caption app].
  now rewrite IH.
Qed.

(** The extraction of visualization blocks, run over the Visualizations
    section written from extracted references, finds them again. *)
Lemma extract_visualizations_section (vs : list VizRef) :
  Forall VizOK vs ->
  extract_visualizations (visualizations_section vs) = vs.
Proof.
  intros H. destruct vs as [|v vs]; [reflexivity|].
  unfold extract_visualizations, visualizations_section.
  change "## Visualizations" with viz_sentinel.
  rewrite contains_section.
  rewrite split_section by now apply blocks_without_sentinel.
  unfold Re.findall.
  rewrite <- append_assoc.
  rewrite (viz_re_skip_prefix (NL ++ NL)) by reflexivity.
  rewrite findall_viz_blocks by exact H. apply flat_map_viz_caps.
Qed.

End VizSection.

Section ExtractionFacts.

(** Every match [findall] reports is canonical and stands in the text. *)
Lemma findall_from_viz_canon s : forall skip,
  Forall (fun caps => exists t u c pre post,
            caps = [t; u; c] /\ VizCanon t u c
            /\ s = pre ++ viz_block_text t u c ++ post)
    (Re.findall_from Re.viz_re s skip).
Proof.
  induction s as [|x s IH]; intros skip; [constructor|].
  assert (Hlift : forall k,
    Forall (fun caps => exists t u c pre post,
              caps = [t; u; c] /\ VizCanon t u c
              /\ String x s = pre ++ viz_block_text t u c ++ post)
      (Re.findall_from Re.viz_re s k)).
  { intros k. eapply Forall_impl; [|apply (IH k)].
    intros caps [t [u [c [pre [post [E [Hc Hs]]]]]]].
    exists t, u, c, (String x pre), post. rewrite Hs. auto. }
  cbn [Re.findall_from]. destruct skip as [|k]; [|apply Hlift].
  destruct (Re.rmatch Re.viz_re (String x s) [] []) as [[caps rest]|] eqn:E;
    [|apply Hlift].
  constructor; [|apply Hlift].
  destruct (viz_match_canon _ _ _ E) as [t [u [c [-> [Hs Hc]]]]].
  exists t, u, c, "", rest. auto.
Qed.

Lemma nth_split_clean sep s n :
  sep <> "" -> PyStr.contains sep (nth n (PyStr.split sep s) "") = false.
Proof.
  intros Hsep. destruct (split_from_pieces sep s Hsep 0) as [Hall _].
  unfold PyStr.split. revert n.
  induction Hall as [|p ps Hp _ IH]; intros [|n]; cbn [nth]; auto;
    destruct sep; congruence || reflexivity.
Qed.

Lemma extract_visualizations_ok (text : string) :
  Forall VizOK (extract_visualizations text).
Proof.
  unfold extract_visualizations.
  destruct (PyStr.contains viz_sentinel text); [|constructor].
  set (viz_section := nth 1 (PyStr.split viz_sentinel text) "").
  assert (Hclean : PyStr.contains viz_sentinel viz_section = false)
    by (apply nth_split_clean; discriminate).
  unfold Re.findall.
  pose proof (findall_from_viz_canon viz_section 0) as H.
  induction H as [|caps l [t [u [c [pre [post [-> [Hc Hs]]]]]]] _ IH];
    [constructor|].
  cbn [flat_map app]. constructor; [|exact IH].
  rewrite Hs in Hclean. unfold viz_block_text in Hclean.
  rewrite !append_assoc in Hclean.
  repeat match type of Hclean with
  | PyStr.contains _ (_ ++ _) = false =>
      apply contains_app_false in Hclean;
      let H1 := fresh "Hp" in destruct Hclean as [H1 Hclean]
  end.
  repeat split; assumption.
Qed.

Lemma collect_step_ok (acc : Collected) (step : AgentAction) :
  collected_ok acc -> collected_ok (collect_step acc step).
Proof.
  intros [Hl Hv]. unfold collect_step.
  destruct (tool step =? "rag_search_result")%string; [now split|].
  destruct (tool step =? "web_search_result")%string.
  { split; [|exact Hv]. cbn [web_links]. apply Forall_app. split; [exact Hl|].
    apply extract_links_canon. }
  destruct (tool step =? "snowflake_search_result")%string; [|now split].
  destruct (PyStr.contains viz_sentinel (log step)); [|now split].
  split; [exact Hl|]. cbn [visualization_urls]. apply Forall_app.
  split; [exact Hv | apply extract_visualizations_ok].
Qed.

Lemma collect_ok (steps : list AgentAction) : collected_ok (collect steps).
Proof.
  unfold collect.
  assert (H : collected_ok (mkCollected "" "" "" [] []))
    by (split; constructor).
  revert H. generalize (mkCollected "" "" "" [] []).
  induction steps as [|a steps IH]; intros acc H; [exact H|].
  cbn [fold_left]. apply IH. now apply collect_step_ok.
Qed.

End ExtractionFacts.

Section ImageLinks.

Lemma append_cancel_l (a b c : string) : a ++ b = a ++ c -> b = c.
Proof.
  induction a as [|x a IH]; cbn [append]; intros H; [exact H|].
  injection H as H. now apply IH.
Qed.

(** What a canonical block says of its parts: each stays on its line, and
    the rest of [viz_re] matches nowhere inside the title. *)
Lemma viz_canon_parts (t u c : string) :
  VizCanon t u c ->
  all_chars Re.dot t = true /\ all_chars Re.dot u = true
  /\ all_chars Re.dot c = true /\ lacks "*" c = true
  /\ (forall a1 a2, t = a1 ++ a2 -> a2 <> "" ->
      Re.rmatch viz_k1 (a2 ++ "](" ++ u ++ viz_mid ++ c ++ "*")
        [t ++ "](" ++ u ++ viz_mid ++ c ++ "*"] [] = None).
Proof.
  intros Hv. pose proof (Hv "") as H.
  rewrite viz_block_text_app, append_nil_r in H.
  set (b0 := "](" ++ u ++ viz_mid ++ c ++ "*") in *.
  change ("![" ++ t ++ b0) with ("![" ++ (t ++ b0)) in H.
  rewrite viz_re_unfold in H. apply lazy_star_inv in H.
  destruct H as [t' [b [E [Ht [Hb Hmin]]]]].
  pose proof Hb as Hb'. apply viz_k1_inv in Hb'.
  destruct Hb' as [u' [c' [Eb [Hu [Hd [Hc Ecaps]]]]]].
  rewrite E, substring_prefix in Ecaps.
  injection Ecaps as <- <- <-.
  apply append_cancel_l in E. subst b.
  repeat split; try assumption.
Qed.

(** An image whose URL has the shape the link pattern asks for reads as a
    link: the pattern matches from the bracket of [![title](url)]. *)
Lemma viz_canon_link_canon (t u c : string) :
  VizCanon t u c -> UrlShape u -> LinkCanon t u.
Proof.
  intros Hv Hu r.
  destruct (viz_canon_parts t u c Hv) as [Ht [Hud [Hd [Hc Hmin]]]].
  change ("[" ++ t ++ "](" ++ u ++ ")" ++ r)
    with (String "["%char (t ++ "](" ++ u ++ ")" ++ r)).
  rewrite link_re_unfold. apply lazy_star_complete.
  - exact Ht.
  - rewrite link_tail_match by exact Hu. now rewrite substring_prefix.
  - intros a1 a2 Hs Hne.
    destruct (Re.rmatch link_tail (a2 ++ "](" ++ u ++ ")" ++ r)
                [t ++ "](" ++ u ++ ")" ++ r] []) as [[caps rest]|] eqn:El;
      [|reflexivity].
    exfalso. apply link_tail_inv in El. destruct El as [u2 [El _]].
    destruct a2 as [|x [|y a2]]; [congruence | discriminate El |].
    injection El as -> -> _.
    specialize (Hmin a1 ("](" ++ a2) Hs Hne).
    replace (("](" ++ a2) ++ "](" ++ u ++ viz_mid ++ c ++ "*")
      with ("](" ++ (a2 ++ "](" ++ u) ++ viz_mid ++ c ++ "*" ++ "")
      in Hmin by now rewrite !append_assoc, append_nil_r.
    rewrite viz_k1_match in Hmin; [discriminate | | exact Hd | exact Hc].
    rewrite Hs, !all_chars_app in Ht. rewrite !all_chars_app, Hud.
    apply andb_true_iff in Ht. destruct Ht as [_ Ht].
    cbn [append all_chars] in Ht |- *.
    apply andb_true_iff in Ht. destruct Ht as [_ Ht].
    apply andb_true_iff in Ht. destruct Ht as [_ Ht].
    now rewrite Ht.
Qed.

(** A link at the start of a text is the first match, and the scan goes on
    after it. *)
Lemma findall_link_here (t u R : string) :
  LinkCanon t u ->
  Re.findall_from Re.link_re ("[" ++ t ++ "](" ++ u ++ ")" ++ R) 0
  = [t; u] :: Re.findall_from Re.link_re R 0.
Proof.
  intros H.
  replace ("[" ++ t ++ "](" ++ u ++ ")" ++ R)
    with (("[" ++ t ++ "](" ++ u ++ ")") ++ R)
    by now rewrite !append_assoc.
  apply findall_from_match_app; [discriminate|].
  rewrite !append_assoc. apply H.
Qed.

(** The link pattern over the blocks of the Visualizations section: one
    match per image, none in the captions. *)
Lemma findall_link_viz_blocks (vs : list VizRef) :
  Forall (fun v => LinkCanon (ref_title v) (ref_url v)
                   /\ lacks "[" (ref_caption v) = true) vs ->
  Re.findall_from Re.link_re (String.concat "" (map viz_block vs)) 0
  = map (fun v => [ref_title v; ref_url v]) vs.
Proof.
  induction 1 as [|v vs [Hl Hc] _ IH]; [reflexivity|].
  cbn [map]. rewrite string_concat_cons.
  set (R := String.concat "" (map viz_block vs)) in *.
  unfold viz_block. rewrite !append_assoc.
  change ("![" ++ ref_title v ++ "](" ++ ref_url v ++ ")" ++ NL ++ NL
          ++ "*" ++ ref_caption v ++ "*" ++ NL ++ NL ++ R)
    with ("!" ++ "[" ++ ref_title v ++ "](" ++ ref_url v ++ ")" ++ NL ++ NL
          ++ "*" ++ ref_caption v ++ "*" ++ NL ++ NL ++ R).
  rewrite (link_re_skip_prefix "!") by reflexivity.
  rewrite findall_link_here by exact Hl.
  rewrite (link_re_skip_prefix NL) by reflexivity.
  rewrite (link_re_skip_prefix NL) by reflexivity.
  rewrite (link_re_skip_prefix "*") by reflexivity.
  rewrite (link_re_skip_prefix (ref_caption v)) by exact Hc.
  rewrite (link_re_skip_prefix "*") by reflexivity.
  rewrite (link_re_skip_prefix NL) by reflexivity.
  rewrite (link_re_skip_prefix NL) by reflexivity.
  now rewrite IH.
Qed.

(** The link pattern, run over the Visualizations section, reports every
    image of the section as a link when each URL has the shape the pattern
    asks for and no caption holds a bracket. *)
Lemma extract_links_visualizations_section (vs : list VizRef) :
  Forall VizOK vs ->
  Forall (fun v => UrlShape (ref_url v)
                   /\ lacks "[" (ref_caption v) = true) vs ->
  extract_links (visualizations_section vs)
  = map (fun v => mkWebLink (ref_title v) (ref_url v)) vs.
Proof.
  intros Hok Hs.
  assert (H : Forall (fun v => LinkCanon (ref_title v) (ref_url v)
                               /\ lacks "[" (ref_caption v) = true) vs).
  { induction Hok as [|v vs [Hv _] _ IH]; [constructor|].
    inversion Hs as [|? ? [Hu Hc] Hs']; subst.
    constructor; [|now apply IH].
    split; [|exact Hc]. now apply (viz_canon_link_canon _ _ (ref_caption v)). }
  destruct vs as [|v vs]; [reflexivity|].
  unfold extract_links, Re.findall, visualizations_section.
  rewrite <- !append_assoc.
  rewrite link_re_skip_prefix by reflexivity.
  rewrite findall_link_viz_blocks by exact H.
  generalize (v :: vs). intros l.
  induction l as [|x l IH]; [reflexivity|].
  cbn [map flat_map app]. now rewrite IH.
Qed.

End ImageLinks.

(** C9, as the code has it: for every history, the link regex run over the
    Sources and References section the finalizer appends finds exactly the
    links it appended, and the visualization extraction run over the
    Visualizations section it appends finds exactly the images it appended.
    The link regex does not stop at images: when every appended image has a
    URL of the shape [https?://[^\s\)]+] and a caption without an opening
    bracket, the link regex run over the Visualizations section reports
    every appended image, with its title and URL, as a link. *)
Theorem extraction_round_trip (steps : list AgentAction) :
  extract_links (sources_section (web_links (collect steps)))
  = web_links (collect steps)
  /\ extract_visualizations
       (visualizations_section (visualization_urls (collect steps)))
     = visualization_urls (collect steps)
  /\ (Forall (fun v => UrlShape (ref_url v)
                       /\ lacks "[" (ref_caption v) = true)
        (visualization_urls (collect steps)) ->
      extract_links
        (visualizations_section (visualization_urls (collect steps)))
      = map (fun v => mkWebLink (ref_title v) (ref_url v))
          (visualization_urls (collect steps))).
Proof.
  destruct (collect_ok steps) as [Hl Hv]. split; [|split].
  - now apply extract_links_sources_section.
  - now apply extract_visualizations_section.
  - now apply extract_links_visualizations_section.
Qed.

Lemma extraction_round_trip_witness :
  Forall (fun v => UrlShape (ref_url v) /\ lacks "[" (ref_caption v) = true)
    (visualization_urls (collect Sample.snowflake_history))
  /\ extract_links
       (visualizations_section
          (visualization_urls (collect Sample.snowflake_history)))
     = map (fun v => mkWebLink (ref_title v) (ref_url v))
         (visualization_urls (collect Sample.snowflake_history)).
Proof.
  assert (H : Forall (fun v => UrlShape (ref_url v)
                               /\ lacks "[" (ref_caption v) = true)
                (visualization_urls (collect Sample.snowflake_history))).
  { vm_compute. constructor; [|constructor]. split; [|reflexivity].
    exists "s3.example/ts.png".
    split; [right; reflexivity|]. split; [discriminate | reflexivity]. }
  split; [exact H|].
  exact (proj2 (proj2 (extraction_round_trip Sample.snowflake_history)) H).
Defined.

(** C9 as stated fails for the link regex: it does not stop at images.  A
    history with one Snowflake result and one chart has no link; the
    appended output is the Visualizations section alone, and the link regex
    finds the chart in it.  Fed back as a web result, the final answer would
    list the chart under Sources and References as well. *)
Lemma extraction_round_trip_counterexample :
  web_links (collect Sample.snowflake_history) = []
  /\ visualization_urls (collect Sample.snowflake_history)
     = [mkVizRef "Key Metrics Time Series" "https://s3.example/ts.png"
          "Key Metrics Time Series - CLOSE, VOLUME"]
  /\ extract_links
       (sources_section (web_links (collect Sample.snowflake_history))
        ++ visualizations_section
             (visualization_urls (collect Sample.snowflake_history)))
     = [mkWebLink "Key Metrics Time Series" "https://s3.example/ts.png"]
  /\ web_links
       (collect
          [mkAgentAction "web_search_result" (mkToolInput (Some "q") None)
             ("Report."
              ++ sources_section
                   (web_links (collect Sample.snowflake_history))
              ++ visualizations_section
                   (visualization_urls (collect Sample.snowflake_history)))])
     = [mkWebLink "Key Metrics Time Series" "https://s3.example/ts.png"].
Proof. repeat split; vm_compute; reflexivity. Qed.

Section AnswerFacts.

Variable W : World.

Lemma adapter_step_log (st : ResearchState) (calls : nat) (v : list Node)
  (t : string) :
  (t = "pinecone" -> pinecone_init W = Ret tt) ->
  In t all_tools ->
  graph_step W (node_of_tool t)
    (mkRun (append_step st (selection st t)) calls v)
  = Ret (oracle,
         mkRun (set_steps st (intermediate_steps st ++ cycle_steps W st t))
           calls (v ++ [node_of_tool t])).
Proof.
  intros Hi Ht. unfold graph_step.
  destruct Ht as [<- | [<- | [<- | []]]];
    cbn [node_of_tool String.eqb Ascii.eqb Bool.eqb node_function
         llm_calls run_state];
    [unfold web_search | unfold rag_search | unfold snowflake_search];
    rewrite last_step_append; try rewrite (Hi eq_refl);
    unfold cycle_steps, adapter_log, append_step;
    cbn [String.eqb Ascii.eqb Bool.eqb result_tool selection tool_input
         get_query get_metadata_filters ti_query ti_metadata_filters
         set_steps intermediate_steps input chat_history metadata_filters
         mode output next_node];
    rewrite <- app_assoc; cbn [app].
  - reflexivity.
  - reflexivity.
  - destruct (generate_snowflake_insights W _ _); reflexivity.
Qed.

Lemma cycle_steps_set_steps (st : ResearchState) (l : list AgentAction)
  (t : string) :
  cycle_steps W (set_steps st l) t = cycle_steps W st t.
Proof. reflexivity. Qed.

Lemma after_cycles_nil (st : ResearchState) : after_cycles W st [] = st.
Proof.
  unfold after_cycles. cbn [flat_map]. rewrite app_nil_r. now destruct st.
Qed.

Lemma after_cycles_cons (st : ResearchState) (t : string) (ts : list string) :
  after_cycles W
    (set_steps st (intermediate_steps st ++ cycle_steps W st t)) ts
  = after_cycles W st (t :: ts).
Proof.
  unfold after_cycles, set_steps.
  cbn [flat_map intermediate_steps input chat_history metadata_filters mode
       output].
  rewrite <- !app_assoc.
  replace (flat_map (cycle_steps W
             (mkResearchState (input st) (chat_history st)
                (intermediate_steps st ++ cycle_steps W st t)
                (metadata_filters st) (mode st) (output st))) ts)
    with (flat_map (cycle_steps W st) ts); [reflexivity|].
  apply flat_map_ext. intros a. reflexivity.
Qed.

(** From the oracle, with a non-empty history: the run consults every unused
    tool once, each with the request's query and filters, and then hands the
    history to the finalizer; every tool choice costs one model call. *)
Lemma combined_loop_answer (Hinit : pinecone_init W = Ret tt) :
  forall (k : nat) (st : ResearchState) (calls : nat) (v : list Node),
    mode st = "combined" ->
    intermediate_steps st <> [] ->
    List.length (unused_tools (map tool (intermediate_steps st))) = k ->
    forall limit, 2 * k + 2 <= limit ->
    exists r ts,
      graph_invoke W limit oracle (mkRun st calls v) = Finished r
      /\ generate_final_answer W (calls + k)
           (append_step (after_cycles W st ts) (selection st "final_answer"))
         = Ret (run_state r, llm_calls r)
      /\ List.length ts = k
      /\ NoDup ts
      /\ (forall t, In t ts ->
            In t (unused_tools (map tool (intermediate_steps st)))).
Proof.
  induction k as [|k IH]; intros st calls v Hm Hs Hk limit Hl.
  - apply length_zero_iff_nil in Hk.
    destruct limit as [|[|limit]]; try lia.
    pose proof (run_oracle_done W calls st Hm Hs Hk) as Ho.
    apply (oracle_step_finishes W st calls calls v) in Ho.
    eexists. exists []. split; [|split; [|split; [|split]]].
    + rewrite (graph_invoke_step W _ oracle _ _ _ ltac:(discriminate) Ho).
      cbn [graph_invoke]. unfold graph_step.
      cbn [node_function llm_calls run_state generate_final_answer next_node].
      apply graph_invoke_END.
    + rewrite after_cycles_nil, Nat.add_0_r. reflexivity.
    + reflexivity.
    + constructor.
    + intros t [].
  - destruct limit as [|[|limit]]; try lia.
    assert (Hu : unused_tools (map tool (intermediate_steps st)) <> [])
      by (intros E; rewrite E in Hk; discriminate).
    destruct (run_oracle_next W calls st Hm Hs Hu) as [t [Hin Ho]].
    pose proof (unused_in_all _ _ Hin) as Hall.
    apply (oracle_step_selects W st calls (S calls) v t Hall) in Ho.
    pose proof (adapter_step_log st (S calls) (v ++ [oracle])%list t
                  (fun _ => Hinit) Hall) as Ha.
    destruct (unused_after_cycle _ _ Hin) as [Hlen Hsub].
    set (st2 := set_steps st (intermediate_steps st ++ cycle_steps W st t))
      in *.
    assert (E2 : map tool (intermediate_steps st2)
                 = (map tool (intermediate_steps st) ++ [t; result_tool t])%list).
    { unfold st2. cbn. rewrite !map_app. reflexivity. }
    assert (Hs2 : intermediate_steps st2 <> []).
    { unfold st2. cbn. intros E. apply app_eq_nil in E. destruct E.
      discriminate. }
    assert (Hk2 : List.length (unused_tools (map tool (intermediate_steps st2)))
                  = k).
    { rewrite E2. rewrite Hk in Hlen. now injection Hlen. }
    destruct (IH st2 (S calls) ((v ++ [oracle]) ++ [node_of_tool t])%list
                Hm Hs2 Hk2 limit ltac:(lia))
      as [r [ts [Hr [Hf [Hn [Hnd Hts]]]]]].
    exists r, (t :: ts). split; [|split; [|split; [|split]]].
      * rewrite (graph_invoke_step W _ oracle _ _ _ ltac:(discriminate) Ho).
        assert (Hne : node_of_tool t <> END).
        { destruct Hall as [<- | [<- | [<- | []]]]; discriminate. }
        rewrite (graph_invoke_step W _ _ _ _ _ Hne Ha). exact Hr.
      * unfold st2 in Hf. rewrite after_cycles_cons in Hf.
        replace (calls + S k) with (S calls + k) by lia. exact Hf.
      * simpl. now rewrite Hn.
      * constructor; [|exact Hnd].
        intros Hi. apply Hts in Hi. rewrite E2 in Hi.
        apply Hsub in Hi. destruct Hi as [_ Hi]. now apply Hi.
      * intros x [<- | Hx]; [exact Hin|].
        apply Hts in Hx. rewrite E2 in Hx. now apply Hsub in Hx.
Qed.

End AnswerFacts.

Lemma collect_cycles (W : World) (q : string) (yq : YearQuarterDict)
  (m : string) (t1 t2 t3 : string) (a : AgentAction) :
  let st := initial_state q yq m in
  In t1 all_tools -> In t2 all_tools -> In t3 all_tools ->
  NoDup [t1; t2; t3] ->
  ~ In (tool a) ["rag_search_result"; "web_search_result";
                 "snowflake_search_result"] ->
  collect (flat_map (cycle_steps W st) [t1; t2; t3] ++ [a])
  = mkCollected (adapter_log W "pinecone" q yq)
      (adapter_log W "web_search" q yq)
      (snowflake_text (adapter_log W "snowflake" q yq))
      (extract_visualizations (adapter_log W "snowflake" q yq))
      (extract_links (adapter_log W "web_search" q yq)).
Proof.
  intros st H1 H2 H3 Hnd Ha.
  assert (Hlast : forall acc, collect_step acc a = acc).
  { intros acc. unfold collect_step.
    destruct (String.eqb_spec (tool a) "rag_search_result") as [E|_];
      [rewrite E in Ha; simpl in Ha; tauto|].
    destruct (String.eqb_spec (tool a) "web_search_result") as [E|_];
      [rewrite E in Ha; simpl in Ha; tauto|].
    destruct (String.eqb_spec (tool a) "snowflake_search_result") as [E|_];
      [rewrite E in Ha; simpl in Ha; tauto|].
    reflexivity. }
  rewrite collect_app. cbn [fold_left]. rewrite Hlast.
  set (rag := adapter_log W "pinecone" q yq).
  set (web := adapter_log W "web_search" q yq).
  set (snow := adapter_log W "snowflake" q yq).
  inversion Hnd as [|x l N1 Hnd']; subst.
  inversion Hnd' as [|x l N2 _]; subst.
  simpl in N1, N2.
  unfold all_tools in H1, H2, H3.
  destruct H1 as [<- | [<- | [<- | []]]];
  destruct H2 as [<- | [<- | [<- | []]]]; try (exfalso; tauto);
  destruct H3 as [<- | [<- | [<- | []]]]; try (exfalso; tauto);
  unfold collect, cycle_steps;
  cbn [flat_map app fold_left collect_step tool result_tool selection
       String.eqb Ascii.eqb Bool.eqb log st initial_state input
       metadata_filters rag_result web_result snowflake_result
       visualization_urls web_links];
  fold rag; fold web; fold snow;
  destruct (PyStr.contains viz_sentinel snow) eqn:Ec;
  unfold snowflake_text, extract_visualizations; rewrite ?Ec;
  cbn [rag_result web_result snowflake_result visualization_urls web_links
       app];
  reflexivity.
Qed.

(** X4: in a combined run whose first model answer names a tool (and in which
    the Pinecone client can be constructed) all three tools are consulted,
    the model is called 4 times, and the answer returned is the model's
    reply to the combined prompt built from the three results (the Snowflake
    text cut at its visualization header, an empty text replaced by its
    default sentence), followed by the Sources section of the links of the
    web result and the Visualizations section of the charts of the Snowflake
    result.  The order in which the tools were chosen does not show in
    it. *)
Theorem combined_answer_any_order (W : World) (q : string)
  (yq : YearQuarterDict) :
  pinecone_init W = Ret tt ->
  normalize_tool (PyStr.lower (PyStr.strip
                    (llm_invoke W 0 (OraclePrompt q)))) <> "final_answer" ->
  exists r,
    invoke_research_graph W q yq "combined" = Finished r
    /\ llm_calls r = 4
    /\ run_research_graph W q yq "combined"
       = Ret (llm_invoke W 3
                (CombinedPrompt q
                   (or_default
                      (snowflake_text (adapter_log W "snowflake" q yq))
                      "No financial metrics data available.")
                   (or_default (adapter_log W "pinecone" q yq)
                      "No historical financial data available.")
                   (or_default (adapter_log W "web_search" q yq)
                      "No recent news data available."))
              ++ sources_section
                   (extract_links (adapter_log W "web_search" q yq))
              ++ visualizations_section
                   (extract_visualizations
                      (adapter_log W "snowflake" q yq))).
Proof.
  intros Hinit Hfirst.
  set (t1 := normalize_tool (PyStr.lower (PyStr.strip
                (llm_invoke W 0 (OraclePrompt q))))) in *.
  assert (H1 : In t1 all_tools).
  { destruct (normalize_tool_cases
                (PyStr.lower (PyStr.strip (llm_invoke W 0 (OraclePrompt q)))))
      as [E | [E | [E | [E | []]]]]; fold t1 in E; unfold all_tools;
      simpl; try tauto. congruence. }
  unfold run_research_graph, invoke_research_graph, recursion_limit.
  set (st := initial_state q yq "combined").
  pose proof (run_oracle_first W 0 st eq_refl eq_refl) as Ho.
  change (input st) with q in Ho. fold t1 in Ho.
  apply (oracle_step_selects W st 0 1 [] t1 H1) in Ho.
  pose proof (adapter_step_log W st 1 ([] ++ [oracle])%list t1
                (fun _ => Hinit) H1) as Ha.
  set (st2 := set_steps st (intermediate_steps st ++ cycle_steps W st t1))
    in *.
  assert (Hne : node_of_tool t1 <> END).
  { destruct H1 as [<- | [<- | [<- | []]]]; discriminate. }
  assert (Hk2 : List.length
                  (unused_tools (map tool (intermediate_steps st2))) = 2).
  { destruct H1 as [<- | [<- | [<- | []]]]; reflexivity. }
  assert (Hs2 : intermediate_steps st2 <> []) by discriminate.
  destruct (combined_loop_answer W Hinit 2 st2 1
              (([] ++ [oracle]) ++ [node_of_tool t1])%list
              eq_refl Hs2 Hk2 23 ltac:(lia))
    as [r [ts [Hr [Hf [Hn [Hnd Hts]]]]]].
  rewrite (graph_invoke_step W _ oracle _ _ _ ltac:(discriminate) Ho).
  rewrite (graph_invoke_step W _ _ _ _ _ Hne Ha).
  rewrite Hr. exists r. split; [reflexivity|].
  destruct ts as [|t2 [|t3 [|? ?]]]; try discriminate.
  assert (H2 : In t2 all_tools)
    by (eapply unused_in_all, Hts; simpl; auto).
  assert (H3 : In t3 all_tools)
    by (eapply unused_in_all, Hts; simpl; auto).
  assert (N : NoDup [t1; t2; t3]).
  { constructor; [|exact Hnd].
    intros [E | [E | []]].
    - apply (unused_not_used (map tool (intermediate_steps st2)) t2);
        [apply Hts; simpl; auto|]. rewrite E. simpl. auto.
    - apply (unused_not_used (map tool (intermediate_steps st2)) t3);
        [apply Hts; simpl; auto|]. rewrite E. simpl. auto. }
  pose proof (collect_cycles W q yq "combined" t1 t2 t3
             (selection st2 "final_answer") H1 H2 H3 N) as Hcol.
  cbv zeta in Hcol. fold st in Hcol.
  unfold generate_final_answer in Hf. cbv zeta in Hf.
  change (intermediate_steps
            (append_step (after_cycles W st2 [t2; t3])
               (selection st2 "final_answer")))
    with (flat_map (cycle_steps W st) [t1; t2; t3]
          ++ [selection st2 "final_answer"])%list in Hf.
  rewrite Hcol in Hf
    by (simpl; intros [E | [E | [E | []]]]; discriminate).
  injection Hf as Hst Hc.
  split; [now rewrite <- Hc|].
  rewrite <- Hst. reflexivity.
Qed.

Lemma combined_answer_any_order_witness :
  exists r,
    invoke_research_graph Sample.world "q" Sample.filters "combined"
    = Finished r
    /\ llm_calls r = 4
    /\ run_research_graph Sample.world "q" Sample.filters "combined"
       = Ret (llm_invoke Sample.world 3
                (CombinedPrompt "q"
                   (or_default
                      (snowflake_text
                         (adapter_log Sample.world "snowflake" "q"
                            Sample.filters))
                      "No financial metrics data available.")
                   (or_default
                      (adapter_log Sample.world "pinecone" "q" Sample.filters)
                      "No historical financial data available.")
                   (or_default
                      (adapter_log Sample.world "web_search" "q"
                         Sample.filters)
                      "No recent news data available."))
              ++ sources_section
                   (extract_links
                      (adapter_log Sample.world "web_search" "q"
                         Sample.filters))
              ++ visualizations_section
                   (extract_visualizations
                      (adapter_log Sample.world "snowflake" "q"
                         Sample.filters))).
Proof.
  apply (combined_answer_any_order Sample.world "q" Sample.filters);
    [reflexivity | vm_compute; discriminate].
Defined.


(** X6: a combined request with a quarter selected, in a world where the
    Pinecone client cannot be constructed and the model's first answer names
    a tool, is answered with a server error carrying the constructor's
    message, whatever the other two tools returned. *)
Theorem combined_request_needs_pinecone (W : World) (q : string)
  (yq : YearQuarterDict) (e : string) :
  pinecone_init W = Raise e ->
  any_values yq = true ->
  normalize_tool (PyStr.lower (PyStr.strip
                    (llm_invoke W 0 (OraclePrompt q)))) <> "final_answer" ->
  fst (research_endpoint W (mkResearchRequest q yq "combined"))
  = ServerError ("Error running research workflow: " ++ e).
Proof.
  intros Hinit Hyq Hfirst.
  assert (Hrun : exists r,
             invoke_research_graph W q yq "combined" = Failed e r).
  { destruct (normalize_tool_cases
                (PyStr.lower (PyStr.strip (llm_invoke W 0 (OraclePrompt q)))))
      as [E | [E | [E | [E | []]]]].
    - unfold invoke_research_graph, recursion_limit.
      set (st := initial_state q yq "combined").
      pose proof (run_oracle_first W 0 st eq_refl eq_refl) as Ho.
      change (input st) with q in Ho. rewrite <- E in Ho.
      apply (oracle_step_selects W st 0 1 [] "pinecone") in Ho;
        [|unfold all_tools; simpl; tauto].
      rewrite (graph_invoke_step W _ oracle _ _ _ ltac:(discriminate) Ho).
      eexists. apply graph_invoke_fail; [discriminate|].
      now apply rag_step_fails.
    - destruct (combined_run_fails_later W q yq e "web_search" Hinit)
        as [r [Hr _]]; simpl; auto. now exists r.
    - destruct (combined_run_fails_later W q yq e "snowflake" Hinit)
        as [r [Hr _]]; simpl; auto. now exists r.
    - congruence. }
  destruct Hrun as [r Hr].
  unfold research_endpoint, run_research_graph.
  cbn [req_mode req_year_quarter_dict req_query].
  change (PySet.mem "combined" valid_modes) with true.
  change (PySet.mem "combined" ["pinecone"; "snowflake"; "combined"])
    with true.
  rewrite Hyq.
  assert (Hd : dict_empty yq = false) by (destruct yq; [discriminate|reflexivity]).
  rewrite Hd, Hr. reflexivity.
Qed.

Lemma combined_request_needs_pinecone_witness :
  fst (research_endpoint Sample.no_pinecone_world
         (mkResearchRequest "q" Sample.filters "combined"))
  = ServerError
      ("Error running research workflow: "
       ++ "PineconeConfigurationError: no API key").
Proof.
  apply (combined_request_needs_pinecone Sample.no_pinecone_world "q"
           Sample.filters "PineconeConfigurationError: no API key");
    [reflexivity | reflexivity | vm_compute; discriminate].
Defined.

Section CanonFacts.


Lemma link_canon_intro (t u : string) :
  all_chars Re.dot t = true -> lacks "]" t = true -> UrlShape u ->
  LinkCanon t u.
Proof.
  intros Ht Hb Hu r.
  change ("[" ++ t ++ "](" ++ u ++ ")" ++ r)
    with (String "["%char (t ++ "](" ++ u ++ ")" ++ r)).
  rewrite link_re_unfold. apply lazy_star_complete.
  - exact Ht.
  - rewrite link_tail_match by exact Hu. now rewrite substring_prefix.
  - intros a1 a2 E Hne. destruct a2 as [|y s]; [congruence|].
    rewrite E in Hb. apply lacks_suffix, lacks_head in Hb.
    cbn [append link_tail Re.lits app Re.rmatch].
    destruct (Ascii.eqb_spec y "]"%char); [contradiction | reflexivity].
Qed.


End CanonFacts.

Section ChartFacts.






End ChartFacts.

Section SingleAnswer.

Variable W : World.

Lemma final_step_answer (st : ResearchState) (calls : nat) (v : list Node) :
  exists st' calls',
    graph_step W final_answer_node (mkRun st calls v)
    = Ret (END, mkRun st' calls' (v ++ [final_answer_node]))
    /\ generate_final_answer W calls st = Ret (st', calls').
Proof. eexists. eexists. split; reflexivity. Qed.

(** A single-tool run hands the finalizer the tool's cycle and the oracle's
    last selection, and makes no model call before it. *)
Lemma single_run_answer (q : string) (yq : YearQuarterDict) (m : string) :
  In m ["pinecone"; "web_search"; "snowflake"] ->
  (m = "pinecone" -> pinecone_init W = Ret tt) ->
  let st := initial_state q yq m in
  exists r,
    invoke_research_graph W q yq m = Finished r
    /\ generate_final_answer W 0
         (append_step (after_cycles W st [m]) (selection st "final_answer"))
       = Ret (run_state r, llm_calls r).
Proof.
  intros Hm Hinit st. unfold invoke_research_graph, recursion_limit.
  fold st.
  assert (Hall : In m all_tools) by (unfold all_tools; simpl in *; tauto).
  pose proof (run_oracle_single W 0 st Hm) as Ho.
  cbn [intermediate_steps st initial_state mode] in Ho.
  apply (oracle_step_selects W st 0 0 [] m Hall) in Ho.
  pose proof (adapter_step_log W st 0 ([] ++ [oracle])%list m Hinit Hall)
    as Ha.
  set (st2 := set_steps st (intermediate_steps st ++ cycle_steps W st m))
    in *.
  pose proof (run_oracle_single W 0 st2 Hm) as Ho2.
  cbn [intermediate_steps st2 set_steps app cycle_steps st initial_state]
    in Ho2.
  apply (oracle_step_finishes W st2 0 0
           (([] ++ [oracle]) ++ [node_of_tool m])%list) in Ho2.
  assert (Hne : node_of_tool m <> END).
  { destruct Hall as [<- | [<- | [<- | []]]]; discriminate. }
  rewrite (graph_invoke_step W _ oracle _ _ _ ltac:(discriminate) Ho).
  rewrite (graph_invoke_step W _ _ _ _ _ Hne Ha).
  rewrite (graph_invoke_step W _ oracle _ _ _ ltac:(discriminate) Ho2).
  destruct (final_step_answer
              (append_step st2 (selection st2 "final_answer")) 0
              ((([] ++ [oracle]) ++ [node_of_tool m]) ++ [oracle])%list)
    as [st' [c' [Hf Hg]]].
  rewrite (graph_invoke_step W _ final_answer_node _ _ _
             ltac:(discriminate) Hf).
  rewrite graph_invoke_END.
  exists (mkRun st' c'
            ((((([] ++ [oracle]) ++ [node_of_tool m]) ++ [oracle])
              ++ [final_answer_node]))%list).
  split; [reflexivity|]. exact Hg.
Qed.

End SingleAnswer.



Section WebLinkFacts.

Lemma after_prefix_spec (p s b : string) :
  after_prefix p s = Some b -> s = p ++ b.
Proof.
  revert s. induction p as [|a p IH]; intros [|c s] H; cbn in H;
    try discriminate; try (now injection H as <-).
  destruct (Ascii.eqb_spec a c) as [->|_]; [|discriminate].
  cbn. f_equal. now apply IH.
Qed.

Lemma url_shape_spec (u : string) : url_shape u = true -> UrlShape u.
Proof.
  unfold url_shape, url_body_ok. intros H. apply orb_true_iff in H.
  destruct H as [H | H].
  - destruct (after_prefix "http://" u) as [b|] eqn:E; [|discriminate].
    apply andb_true_iff in H. destruct H as [Hb Hc].
    exists b. split; [left; now apply after_prefix_spec|].
    split; [now destruct b|exact Hc].
  - destruct (after_prefix "https://" u) as [b|] eqn:E; [|discriminate].
    apply andb_true_iff in H. destruct H as [Hb Hc].
    exists b. split; [right; now apply after_prefix_spec|].
    split; [now destruct b|exact Hc].
Qed.

Lemma of_nat_lacks_bracket (n : nat) : lacks "[" (PyStr.of_nat n) = true.
Proof.
  unfold PyStr.of_nat. generalize (Nat.to_uint n). intros d.
  induction d; cbn; auto.
Qed.

Lemma item_ok_links (item : SearchItem) :
  item_ok item = true ->
  LinkCanon (item_title item) (item_link item)
  /\ LinkCanon (item_source item) (item_link item)
  /\ lacks "[" (item_date item) = true
  /\ lacks "[" (item_snippet item) = true.
Proof.
  unfold item_ok. rewrite !andb_true_iff.
  intros [[[[[[Ht Hb] Hs] Hsb] Hu] Hd] Hn].
  apply url_shape_spec in Hu.
  repeat split; try assumption; now apply link_canon_intro.
Qed.

Lemma findall_news_lines (item : SearchItem) (R : string) :
  item_ok item = true ->
  Re.findall_from Re.link_re (news_lines item ++ R) 0
  = [item_source item; item_link item] :: Re.findall_from Re.link_re R 0.
Proof.
  intros H. destruct (item_ok_links item H) as [_ [Hs [Hd Hn]]].
  unfold news_lines.
  replace (("📅 " ++ item_date item ++ " | 🔗 [" ++ item_source item ++ "]("
            ++ item_link item ++ ")" ++ NL
            ++ "Summary: " ++ item_snippet item ++ NL ++ NL) ++ R)
    with (("📅 " ++ item_date item ++ " | 🔗 ")
          ++ "[" ++ item_source item ++ "](" ++ item_link item ++ ")"
          ++ (NL ++ "Summary: " ++ item_snippet item ++ NL ++ NL) ++ R)
    by (rewrite !append_assoc; reflexivity).
  rewrite link_re_skip_prefix
    by (rewrite !lacks_app, Hd; reflexivity).
  rewrite findall_link_here by exact Hs.
  rewrite link_re_skip_prefix
    by (rewrite !lacks_app, Hn; reflexivity).
  reflexivity.
Qed.

Lemma findall_trend_lines (item : SearchItem) (R : string) :
  item_ok item = true ->
  Re.findall_from Re.link_re (trend_lines item ++ R) 0
  = [item_source item; item_link item] :: Re.findall_from Re.link_re R 0.
Proof.
  intros H. destruct (item_ok_links item H) as [_ [Hs [Hd Hn]]].
  unfold trend_lines.
  replace (("Source: [" ++ item_source item ++ "](" ++ item_link item ++ ")"
            ++ NL ++ "Key Points: " ++ item_snippet item ++ NL ++ NL) ++ R)
    with ("Source: "
          ++ "[" ++ item_source item ++ "](" ++ item_link item ++ ")"
          ++ (NL ++ "Key Points: " ++ item_snippet item ++ NL ++ NL) ++ R)
    by (rewrite !append_assoc; reflexivity).
  rewrite (link_re_skip_prefix "Source: ") by reflexivity.
  rewrite findall_link_here by exact Hs.
  rewrite link_re_skip_prefix
    by (rewrite !lacks_app, Hn; reflexivity).
  reflexivity.
Qed.

Lemma findall_format_items (second : SearchItem -> string)
  (Hsecond : forall item R, item_ok item = true ->
     Re.findall_from Re.link_re (second item ++ R) 0
     = [item_source item; item_link item] :: Re.findall_from Re.link_re R 0)
  (items : list SearchItem) (R : string) :
  forallb item_ok items = true ->
  forall i,
  Re.findall_from Re.link_re (format_items second i items ++ R) 0
  = (map link_caps (flat_map item_links items)
     ++ Re.findall_from Re.link_re R 0)%list.
Proof.
  induction items as [|item items IH]; intros Hok i; [reflexivity|].
  cbn [forallb] in Hok. apply andb_true_iff in Hok. destruct Hok as [Hi Hr].
  destruct (item_ok_links item Hi) as [Ht _].
  cbn [format_items flat_map item_links map app link_caps link_title
       link_url].
  replace (("**" ++ PyStr.of_nat i ++ ". [" ++ item_title item ++ "]("
            ++ item_link item ++ ")**" ++ NL ++ second item
            ++ format_items second (S i) items) ++ R)
    with (("**" ++ PyStr.of_nat i ++ ". ")
          ++ "[" ++ item_title item ++ "](" ++ item_link item ++ ")"
          ++ ("**" ++ NL)
          ++ second item ++ format_items second (S i) items ++ R)
    by (rewrite !append_assoc; reflexivity).
  rewrite link_re_skip_prefix
    by (rewrite !lacks_app, of_nat_lacks_bracket; reflexivity).
  rewrite findall_link_here by exact Ht.
  rewrite (link_re_skip_prefix ("**" ++ NL)) by reflexivity.
  rewrite Hsecond by exact Hi.
  rewrite IH by exact Hr. reflexivity.
Qed.

End WebLinkFacts.

Section WebResultFacts.

Lemma findall_items_section (hdr : string) (second : SearchItem -> string)
  (Hsecond : forall item R, item_ok item = true ->
     Re.findall_from Re.link_re (second item ++ R) 0
     = [item_source item; item_link item] :: Re.findall_from Re.link_re R 0)
  (items : list SearchItem) (R : string) :
  lacks "[" hdr = true ->
  forallb item_ok items = true ->
  Re.findall_from Re.link_re
    (match items with
     | [] => ""
     | _ :: _ => hdr ++ format_items second 1 items
     end ++ R) 0
  = (map link_caps (flat_map item_links items)
     ++ Re.findall_from Re.link_re R 0)%list.
Proof.
  intros Hh Hok. destruct items as [|item items]; [reflexivity|].
  rewrite append_assoc, link_re_skip_prefix by exact Hh.
  now apply findall_format_items.
Qed.

Lemma findall_link_none (s : string) :
  lacks "[" s = true -> Re.findall_from Re.link_re s 0 = [].
Proof.
  intros H. rewrite <- (append_nil_r s). now rewrite link_re_skip_prefix.
Qed.

Lemma flat_map_link_records (ls : list WebLink) (l2 : list WebLink) :
  flat_map (fun caps => match caps with
                        | [t; u] => [mkWebLink t u]
                        | _ => []
                        end) (map link_caps ls ++ map link_caps l2)
  = (ls ++ l2)%list.
Proof. rewrite <- map_app. apply flat_map_link_caps. Qed.

(** What the finalizer's link regex finds in a formatted web result. *)
Lemma extract_links_web_results (news trends : list SearchItem)
  (insights : string) :
  forallb item_ok news = true ->
  forallb item_ok trends = true ->
  lacks "[" insights = true ->
  extract_links (format_web_results news trends insights)
  = (flat_map item_links news ++ flat_map item_links trends)%list.
Proof.
  intros Hn Ht Hi. unfold extract_links, Re.findall, format_web_results.
  rewrite (link_re_skip_prefix "### Recent News and Analysis")
    by reflexivity.
  rewrite !(link_re_skip_prefix NL) by reflexivity.
  rewrite (findall_items_section ("#### 📰 Latest News" ++ NL ++ NL)
             news_lines findall_news_lines) by (reflexivity || exact Hn).
  rewrite (findall_items_section
             ("#### 📈 Market Trends & Analysis" ++ NL ++ NL)
             trend_lines findall_trend_lines) by (reflexivity || exact Ht).
  rewrite (findall_link_none
             (if PyStr.truthy insights
              then "#### 🔍 Analysis" ++ NL ++ NL ++ insights ++ NL ++ NL
              else "")).
  2: { destruct (PyStr.truthy insights); [|reflexivity].
       rewrite !lacks_app, Hi. reflexivity. }
  rewrite app_nil_r. apply flat_map_link_records.
Qed.

End WebResultFacts.

Lemma collect_web_cycle (st : ResearchState) (ti : ToolInput)
  (text : string) :
  collect [selection st "web_search";
           mkAgentAction "web_search_result" ti text;
           selection st "final_answer"]
  = mkCollected "" text "" [] (extract_links text).
Proof. reflexivity. Qed.


(** X8: every article of a web result is listed twice under Sources.  For a
    web_search request whose agent returns news and trend items with
    one-line titles and sources without a closing bracket, http(s) links
    without white space or a closing parenthesis, and no other opening
    bracket in dates, snippets and insights, the Sources section of the
    answer holds, for each item in order, one link under its title and one
    under its source, both to the item's URL. *)
Theorem web_answer_lists_items_twice (W : World) (q : string)
  (yq : YearQuarterDict) (news trends : list SearchItem) (insights : string) :
  web_agent_run W q = Ret (WebSuccess news trends insights) ->
  forallb item_ok news = true ->
  forallb item_ok trends = true ->
  lacks "[" insights = true ->
  fst (research_endpoint W (mkResearchRequest q yq "web_search"))
  = ResultBody
      (llm_invoke W 0
         (WebSearchPrompt q (format_web_results news trends insights))
       ++ sources_section
            (flat_map item_links news ++ flat_map item_links trends))
      "web_search".
Proof.
  intros Hweb Hn Ht Hi.
  destruct (single_run_answer W q yq "web_search"
              ltac:(simpl; tauto) ltac:(discriminate)) as [r [Hr Hf]].
  unfold research_endpoint.
  cbn [req_mode req_year_quarter_dict req_query].
  change (PySet.mem "web_search" valid_modes) with true.
  change (PySet.mem "web_search" ["pinecone"; "snowflake"; "combined"])
    with false.
  cbn [negb andb].
  unfold run_research_graph. rewrite Hr.
  unfold generate_final_answer in Hf.
  set (st := initial_state q yq "web_search") in Hf.
  change (intermediate_steps
            (append_step (after_cycles W st ["web_search"])
               (selection st "final_answer")))
    with [selection st "web_search";
          mkAgentAction "web_search_result"
            (tool_input (selection st "web_search"))
            (adapter_log W "web_search" q yq);
          selection st "final_answer"] in Hf.
  rewrite collect_web_cycle in Hf.
  unfold adapter_log in Hf.
  cbn [String.eqb Ascii.eqb Bool.eqb] in Hf. rewrite Hweb in Hf.
  cbn [web_links visualization_urls visualizations_section] in Hf.
  rewrite (extract_links_web_results news trends insights Hn Ht Hi) in Hf.
  injection Hf as Hst _. rewrite <- Hst.
  cbn [output set_output fst]. rewrite append_nil_r. reflexivity.
Qed.

Lemma web_answer_lists_items_twice_witness :
  fst (research_endpoint Sample.world
         (mkResearchRequest "q" [] "web_search"))
  = ResultBody
      (" Pinecone "
       ++ sources_section
            [mkWebLink "Earnings beat" "https://news.example/a";
             mkWebLink "Newswire" "https://news.example/a"])
      "web_search".
Proof.
  apply (web_answer_lists_items_twice Sample.world "q" [] Sample.news []
           "Outlook is stable."); reflexivity.
Defined.

Section SnowflakeAgentFacts.

Import SnowflakeAgent.

Variable E : Env.

Lemma findall_from_Forall (pat : Re.pattern) (P : list string -> Prop) :
  (forall s caps rest, Re.rmatch pat s [] [] = Some (caps, rest) -> P caps) ->
  forall s skip, Forall P (Re.findall_from pat s skip).
Proof.
  intros HP. induction s as [|x s IH]; intros skip; [constructor|].
  cbn [Re.findall_from]. destruct skip as [|k]; [|apply IH].
  destruct (Re.rmatch pat (String x s) [] []) as [[caps rest]|] eqn:Em;
    [|apply IH].
  constructor; [|apply IH]. eapply HP, Em.
Qed.

(** A match of [select_re]: the word SELECT, then the shortest text that a
    semicolon follows. *)
Lemma select_match_shape (s : string) (caps : list string) (rest : string) :
  Re.rmatch select_re s [] [] = Some (caps, rest) ->
  exists body,
    caps = ["SELECT" ++ body] /\ s = "SELECT" ++ body ++ ";" ++ rest
    /\ lacks ";" body = true.
Proof.
  unfold select_re. cbn [app Re.rmatch].
  change (Re.Lit "S" :: Re.Lit "E" :: Re.Lit "L" :: Re.Lit "E" :: Re.Lit "C"
            :: Re.Lit "T" :: Re.LazyStar (fun _ => true) :: Re.GClose
            :: Re.lits ";")%list
    with (Re.lits "SELECT"
          ++ Re.LazyStar (fun _ => true) :: Re.GClose :: Re.lits ";")%list.
  intros H. apply rmatch_lits_inv in H. destruct H as [s1 [-> H]].
  cbn [Re.rmatch] in H. apply lazy_star_inv in H.
  destruct H as [a [b [-> [_ [Hb Hmin]]]]].
  assert (Hk : forall t r,
             Re.rmatch (Re.GClose :: Re.lits ";")%list t
               ["SELECT" ++ a ++ b] [] = Some r ->
             exists t', t = ";" ++ t').
  { intros t r Hr. cbn [Re.rmatch Re.lits] in Hr.
    destruct t as [|x t']; [discriminate|].
    destruct (Ascii.eqb_spec x ";"%char) as [->|]; [|discriminate].
    now exists t'. }
  destruct (Hk _ _ Hb) as [b' ->].
  cbn [Re.rmatch Re.lits append] in Hb.
  change (Ascii.eqb ";" ";") with true in Hb. cbv iota in Hb.
  injection Hb as <- <-.
  exists a. split; [|split].
  - cbn [rev app]. f_equal.
    pose proof (substring_prefix ("SELECT" ++ a) (String ";" b')) as Hs.
    rewrite append_assoc in Hs. exact Hs.
  - reflexivity.
  - apply lacks_of_suffixes. intros a1 a2 y t Ha Ha2 Hy. subst y a2.
    specialize (Hmin a1 (String ";" t) Ha ltac:(discriminate)).
    cbn [Re.rmatch Re.lits append] in Hmin.
    change (Ascii.eqb ";" ";") with true in Hmin. discriminate.
Qed.

End SnowflakeAgentFacts.

Lemma snowflake_queries_are_select_statements_aux (text : string) :
  Forall (fun q => exists body,
            q = "SELECT" ++ body /\ lacks ";" body = true
            /\ Substring (q ++ ";") text)
    (SnowflakeAgent.find_queries text).
Proof.
  unfold SnowflakeAgent.find_queries, Re.findall.
  assert (H : forall s skip,
    Forall (fun caps => exists body pre post,
              caps = ["SELECT" ++ body] /\ lacks ";" body = true
              /\ s = pre ++ ("SELECT" ++ body ++ ";") ++ post)
      (Re.findall_from SnowflakeAgent.select_re s skip)).
  { induction s as [|x s IH]; intros skip; [constructor|].
    assert (Hlift : forall k,
      Forall (fun caps => exists body pre post,
                caps = ["SELECT" ++ body] /\ lacks ";" body = true
                /\ String x s = pre ++ ("SELECT" ++ body ++ ";") ++ post)
        (Re.findall_from SnowflakeAgent.select_re s k)).
    { intros k. eapply Forall_impl; [|apply (IH k)].
      intros caps [body [pre [post [Ec [Hb Hs]]]]].
      exists body, (String x pre), post. rewrite Hs. auto. }
    cbn [Re.findall_from]. destruct skip as [|k]; [|apply Hlift].
    destruct (Re.rmatch SnowflakeAgent.select_re (String x s) [] [])
      as [[caps rest]|] eqn:Em; [|apply Hlift].
    constructor; [|apply Hlift].
    destruct (select_match_shape _ _ _ Em) as [body [-> [Hs Hb]]].
    exists body, "", rest. rewrite Hs, !append_assoc. auto. }
  specialize (H text 0).
  induction H as [|caps l [body [pre [post [-> [Hb Hs]]]]] _ IH];
    [constructor|].
  cbn [flat_map app]. constructor; [|exact IH].
  exists body. split; [reflexivity|]. split; [exact Hb|].
  exists pre, post. rewrite Hs, !append_assoc. reflexivity.
Qed.

Section ColumnFacts.

Import SnowflakeAgent.

Variable E : Env.

Lemma filter_mem_In (avail l : list string) (c : string) :
  In c (filter (fun col => PySet.mem col avail) l) -> In c avail.
Proof.
  intros H. apply filter_In in H. destruct H as [_ H]. now apply mem_spec.
Qed.

Lemma firstn_In (A : Type) (n : nat) (l : list A) (x : A) :
  In x (firstn n l) -> In x l.
Proof.
  revert l. induction n as [|n IH]; intros [|y l] H; simpl in *; try tauto.
  destruct H as [H | H]; auto.
Qed.

Lemma get_relevant_columns_available (query : string)
  (available : list string) (cols : list string) :
  get_relevant_columns E query available = Ret cols ->
  forall c, In c cols -> In c available.
Proof.
  unfold get_relevant_columns.
  destruct (gemini_columns E query _) as [text|e]; [|discriminate].
  cbv zeta.
  set (named := filter (fun col => PySet.mem col available)
                  (map PyStr.strip (PyStr.split "," text))).
  set (price := filter (fun col => PySet.mem col available)
                  ["HIGH"; "LOW"; "CLOSE"; "DOLLARVOLUME"]).
  set (tech := filter (fun col => PySet.mem col available)
                 ["MA10"; "MA30"; "RSI"; "VOLATILITY20D"]).
  intros H c Hc.
  assert (Hn : In c named -> In c available) by apply filter_mem_In.
  assert (Hp : In c (firstn 3 price) -> In c available)
    by (intros Hi; apply firstn_In in Hi; revert Hi; apply filter_mem_In).
  assert (Ht : In c (firstn 3 tech) -> In c available)
    by (intros Hi; apply firstn_In in Hi; revert Hi; apply filter_mem_In).
  destruct (_ || _) in H.
  - destruct price; destruct tech; injection H as <-; auto.
  - injection H as <-. auto.
Qed.

End ColumnFacts.

(** X9: the columns chosen for the charts exist.  Every column
    [get_relevant_columns] returns is a column of the frame; they are the
    columns the model named that exist in the frame when one of them is not
    Year, Quarter or DATE, and otherwise the first three available price
    columns, or failing those the first three available technical
    indicators, or failing those the columns the model named. *)
Theorem relevant_columns_are_available (E : SnowflakeAgent.Env)
  (query : string) (available cols : list string) :
  SnowflakeAgent.get_relevant_columns E query available = Ret cols ->
  Forall (fun c => In c available) cols
  /\ (forall text,
        SnowflakeAgent.gemini_columns E query
          (filter (fun col =>
                     negb (PySet.mem col ["DATE"; "Date"; "Year"; "Quarter"]))
             available) = Ret text ->
        let named := filter (fun col => PySet.mem col available)
                       (map PyStr.strip (PyStr.split "," text)) in
        let price := filter (fun col => PySet.mem col available)
                       ["HIGH"; "LOW"; "CLOSE"; "DOLLARVOLUME"] in
        let tech := filter (fun col => PySet.mem col available)
                      ["MA10"; "MA30"; "RSI"; "VOLATILITY20D"] in
        ((exists c, In c named /\ ~ In c ["Year"; "Quarter"; "DATE"]) ->
         cols = named)
        /\ ((forall c, In c named -> In c ["Year"; "Quarter"; "DATE"]) ->
            (price <> [] -> cols = firstn 3 price)
            /\ (price = [] -> tech <> [] -> cols = firstn 3 tech)
            /\ (price = [] -> tech = [] -> cols = named))).
Proof.
  intros H. split.
  { apply Forall_forall. now apply (get_relevant_columns_available E query). }
  intros text Ht. unfold SnowflakeAgent.get_relevant_columns in H.
  rewrite Ht in H. cbv zeta in H |- *.
  set (named := filter (fun col => PySet.mem col available)
                  (map PyStr.strip (PyStr.split "," text))) in *.
  set (price := filter _ ["HIGH"; "LOW"; "CLOSE"; "DOLLARVOLUME"]) in *.
  set (tech := filter _ ["MA10"; "MA30"; "RSI"; "VOLATILITY20D"]) in *.
  split.
  - intros [c [Hc Hn]].
    assert (E1 : match named with [] => true | _ :: _ => false end = false)
      by (destruct named; [contradiction|reflexivity]).
    assert (E2 : forallb (fun col => PySet.mem col ["Year"; "Quarter"; "DATE"])
                   named = false).
    { apply not_true_is_false. intros Hall. rewrite forallb_forall in Hall.
      apply Hn, mem_spec, Hall, Hc. }
    rewrite E1, E2 in H. now injection H as <-.
  - intros Hnone.
    assert (Hall : forallb (fun col => PySet.mem col ["Year"; "Quarter"; "DATE"])
                     named = true).
    { apply forallb_forall. intros c Hc. apply mem_spec. now apply Hnone. }
    rewrite Hall, orb_true_r in H.
    destruct price as [|p ps]; destruct tech as [|t ts];
      injection H as <-; repeat split; intros; congruence.
Qed.

Lemma relevant_columns_are_available_witness :
  SnowflakeAgent.get_relevant_columns SampleSnowflake.env "q"
    ["DATE"; "CLOSE"; "HIGH"; "Date"] = Ret ["CLOSE"; "HIGH"]
  /\ Forall (fun c => In c ["DATE"; "CLOSE"; "HIGH"; "Date"])
       ["CLOSE"; "HIGH"].
Proof.
  split; [reflexivity|].
  exact (proj1 (relevant_columns_are_available SampleSnowflake.env "q"
                  ["DATE"; "CLOSE"; "HIGH"; "Date"] ["CLOSE"; "HIGH"]
                  eq_refl)).
Defined.

Section ChartShape.

Import SnowflakeAgent.

Variable E : Env.


Lemma firstn_length_le3 (A : Type) (l : list A) :
  List.length (firstn 3 l) <= 3.
Proof. rewrite length_firstn. lia. Qed.


Lemma charts_are_all_or_nothing_aux (df : DataFrame)
  (query timestamp : string) :
  fst (create_and_save_graph E df query timestamp) <> [] ->
  In "DATE" (columns df).
Proof.
  unfold create_and_save_graph.
  destruct (PySet.mem "DATE" (columns df)) eqn:Hd; cbn [negb fst];
    [|intros H; now contradiction H].
  intros _. now apply mem_spec.
Qed.

End ChartShape.


Section InsightFacts.

Import SnowflakeAgent.

Variable E : Env.

Lemma find_queries_truthy (text q : string) (n : nat) :
  nth_error (find_queries text) n = Some q -> PyStr.truthy q = true.
Proof.
  intros H. apply nth_error_In in H.
  pose proof (snowflake_queries_are_select_statements_aux text) as Hall.
  rewrite Forall_forall in Hall. destruct (Hall q H) as [body [-> _]].
  reflexivity.
Qed.

Lemma fetch_optional_Some (q : string) (df : DataFrame) :
  fetch_optional E (Some q) = Ret (Some df) ->
  connect E = Ret tt
  /\ (execute E q = Ret df
      \/ (df = empty_frame /\ exists e, execute E q = Raise e)).
Proof.
  unfold fetch_optional, fetch_snowflake_df.
  destruct (PyStr.truthy q); [|discriminate].
  destruct (connect E) as [[]|e]; [|discriminate].
  destruct (execute E q) as [d|e] eqn:Ex; intros H; injection H as <-.
  - auto.
  - split; [reflexivity|]. right. split; [reflexivity|]. now exists e.
Qed.

End InsightFacts.

(** X11: charts are drawn only from the second query of the model's reply.
    When the insights hold a chart, the model's reply held at least two
    [SELECT ...;] statements, the connection succeeded, and the second
    statement, run without its semicolon, gave a frame that is not empty and
    has a DATE column. *)
Theorem charts_need_second_query (E : SnowflakeAgent.Env) (query : string)
  (yq : YearQuarterDict) :
  visualizations (SnowflakeAgent.generate_snowflake_insights E query yq)
  <> [] ->
  exists text body df,
    SnowflakeAgent.gemini_sql E query yq = Ret text
    /\ nth_error (SnowflakeAgent.find_queries (PyStr.strip text)) 1
       = Some ("SELECT" ++ body)
    /\ lacks ";" body = true
    /\ SnowflakeAgent.connect E = Ret tt
    /\ SnowflakeAgent.execute E ("SELECT" ++ body) = Ret df
    /\ SnowflakeAgent.is_empty df = false
    /\ In "DATE" (SnowflakeAgent.columns df).
Proof.
  unfold SnowflakeAgent.generate_snowflake_insights,
    SnowflakeAgent.insights_of, SnowflakeAgent.fetch_snowflake_response.
  destruct (SnowflakeAgent.gemini_sql E query yq) as [text|e];
    [|intros H; now contradiction H].
  cbv zeta.
  set (queries := SnowflakeAgent.find_queries (PyStr.strip text)).
  destruct (SnowflakeAgent.fetch_optional E (nth_error queries 0))
    as [agg|e]; [|intros H; now contradiction H].
  destruct (nth_error queries 1) as [q2|] eqn:Eq.
  2: { cbn [SnowflakeAgent.fetch_optional fst snd].
       destruct (SnowflakeAgent.generate_data_summary E query agg None);
         intros H; now contradiction H. }
  destruct (SnowflakeAgent.fetch_optional E (Some q2)) as [[df|]|e] eqn:Ef.
  2: { cbn [fst snd].
       destruct (SnowflakeAgent.generate_data_summary E query agg None);
         intros H; now contradiction H. }
  2: { intros H; now contradiction H. }
  destruct (SnowflakeAgent.is_empty df) eqn:Ee; cbn [negb].
  { cbn [fst snd].
    destruct (SnowflakeAgent.generate_data_summary E query agg (Some df));
      intros H; now contradiction H. }
  destruct (SnowflakeAgent.create_and_save_graph E df query
              (SnowflakeAgent.now E)) as [charts df'] eqn:Eg.
  cbn [fst snd].
  intros H.
  assert (Hc : charts <> []).
  { destruct (SnowflakeAgent.generate_data_summary E query agg (Some df'));
      [exact H | now contradiction H]. }
  clear H.
  pose proof (snowflake_queries_are_select_statements_aux (PyStr.strip text))
    as Hall.
  rewrite Forall_forall in Hall.
  destruct (Hall q2 (nth_error_In _ _ Eq)) as [body [-> [Hb _]]].
  destruct (fetch_optional_Some E _ _ Ef) as [Hconn [Hx | [-> _]]];
    [|discriminate Ee].
  exists text, body, df. repeat split; try assumption.
  apply (charts_are_all_or_nothing_aux E df query (SnowflakeAgent.now E)).
  now rewrite Eg.
Qed.

Lemma charts_need_second_query_witness :
  exists text body df,
    SnowflakeAgent.gemini_sql SampleSnowflake.env "q" Sample.filters = Ret text
    /\ nth_error (SnowflakeAgent.find_queries (PyStr.strip text)) 1
       = Some ("SELECT" ++ body)
    /\ lacks ";" body = true
    /\ SnowflakeAgent.connect SampleSnowflake.env = Ret tt
    /\ SnowflakeAgent.execute SampleSnowflake.env ("SELECT" ++ body) = Ret df
    /\ SnowflakeAgent.is_empty df = false
    /\ In "DATE" (SnowflakeAgent.columns df).
Proof.
  apply (charts_need_second_query SampleSnowflake.env "q" Sample.filters).
  vm_compute. discriminate.
Defined.

(** X12: a failure inside the Snowflake agent reads as an analysis.  With the
    agent of the repository as backend, the Snowflake node always returns,
    and the text it records starts with the header of the financial
    analysis, never with Error: an exception inside the agent (the model,
    the connection, the summary) is recorded as that header followed by
    [Error generating insights:] and the message. *)
Theorem snowflake_failure_reads_as_analysis (W : World)
  (E : SnowflakeAgent.Env) (calls : nat) (st : ResearchState)
  (latest : AgentAction) :
  last_step st = Ret latest ->
  let query := get_query (tool_input latest) in
  let filters := get_metadata_filters (tool_input latest) in
  exists text,
    snowflake_search (with_snowflake_agent W E) calls st
    = Ret (append_step st
             (mkAgentAction "snowflake_search_result" (tool_input latest)
                text), calls)
    /\ PyStr.startswith "## Financial Data Analysis" text = true
    /\ ~ starts_with_Error text
    /\ (forall e,
          SnowflakeAgent.insights_of E query filters = Raise e ->
          text = "## Financial Data Analysis" ++ NL ++ NL
                 ++ "Error generating insights: " ++ e ++ NL ++ NL).
Proof.
  intros Hl. cbv zeta. unfold snowflake_search. rewrite Hl.
  cbn [with_snowflake_agent generate_snowflake_insights].
  eexists. split; [reflexivity|].
  assert (Hs : PyStr.startswith "## Financial Data Analysis"
                 (snowflake_markdown
                    (SnowflakeAgent.generate_snowflake_insights E
                       (get_query (tool_input latest))
                       (get_metadata_filters (tool_input latest)))) = true).
  { unfold snowflake_markdown. cbv zeta.
    destruct (visualizations _); [|rewrite <- !append_assoc];
      apply startswith_spec; eexists; rewrite ?append_assoc; reflexivity. }
  split; [exact Hs|]. split.
  - intros [rest Hr]. rewrite Hr in Hs. discriminate Hs.
  - intros e He. unfold SnowflakeAgent.generate_snowflake_insights.
    rewrite He. reflexivity.
Qed.

Lemma snowflake_failure_reads_as_analysis_witness :
  exists text,
    snowflake_search
      (with_snowflake_agent Sample.world SampleSnowflake.offline) 0
      (append_step (initial_state "q" Sample.filters "snowflake")
         (selection (initial_state "q" Sample.filters "snowflake")
            "snowflake"))
    = Ret (append_step
             (append_step (initial_state "q" Sample.filters "snowflake")
                (selection (initial_state "q" Sample.filters "snowflake")
                   "snowflake"))
             (mkAgentAction "snowflake_search_result"
                (tool_input
                   (selection (initial_state "q" Sample.filters "snowflake")
                      "snowflake")) text), 0)
    /\ PyStr.startswith "## Financial Data Analysis" text = true
    /\ ~ starts_with_Error text
    /\ (forall e,
          SnowflakeAgent.insights_of SampleSnowflake.offline "q"
            Sample.filters = Raise e ->
          text = "## Financial Data Analysis" ++ NL ++ NL
                 ++ "Error generating insights: " ++ e ++ NL ++ NL).
Proof.
  exact (snowflake_failure_reads_as_analysis Sample.world
           SampleSnowflake.offline 0
           (append_step (initial_state "q" Sample.filters "snowflake")
              (selection (initial_state "q" Sample.filters "snowflake")
                 "snowflake"))
           (selection (initial_state "q" Sample.filters "snowflake")
              "snowflake")
           eq_refl).
Defined.

(** X13: a rejected SQL statement leaves no trace in the insights.  When
    Snowflake can be reached but rejects both statements of the model's
    reply, the insights are the summary the model writes for two empty
    frames, stripped, and no chart: nothing in them says that a query
    failed. *)
Theorem rejected_queries_leave_no_trace (E : SnowflakeAgent.Env)
  (query : string) (yq : YearQuarterDict) (text q1 q2 s : string) :
  SnowflakeAgent.gemini_sql E query yq = Ret text ->
  nth_error (SnowflakeAgent.find_queries (PyStr.strip text)) 0 = Some q1 ->
  nth_error (SnowflakeAgent.find_queries (PyStr.strip text)) 1 = Some q2 ->
  SnowflakeAgent.connect E = Ret tt ->
  (exists e, SnowflakeAgent.execute E q1 = Raise e) ->
  (exists e, SnowflakeAgent.execute E q2 = Raise e) ->
  SnowflakeAgent.gemini_summary E query (Some SnowflakeAgent.empty_frame)
    (Some SnowflakeAgent.empty_frame) = Ret s ->
  SnowflakeAgent.generate_snowflake_insights E query yq
  = mkSnowflakeInsights (PyStr.strip s) [].
Proof.
  intros Ht H1 H2 Hc [e1 He1] [e2 He2] Hs.
  unfold SnowflakeAgent.generate_snowflake_insights,
    SnowflakeAgent.insights_of, SnowflakeAgent.fetch_snowflake_response.
  rewrite Ht. cbv zeta. rewrite H1, H2.
  unfold SnowflakeAgent.fetch_optional, SnowflakeAgent.fetch_snowflake_df.
  rewrite (find_queries_truthy _ _ _ H1), (find_queries_truthy _ _ _ H2).
  rewrite Hc, He1, He2.
  cbn [SnowflakeAgent.is_empty SnowflakeAgent.empty_frame
       SnowflakeAgent.columns SnowflakeAgent.rows negb fst snd].
  unfold SnowflakeAgent.generate_data_summary.
  fold SnowflakeAgent.empty_frame. rewrite Hs. reflexivity.
Qed.

Lemma rejected_queries_leave_no_trace_witness :
  SnowflakeAgent.generate_snowflake_insights SampleSnowflake.bad_sql "q"
    Sample.filters
  = mkSnowflakeInsights "Close rose." [].
Proof.
  apply (rejected_queries_leave_no_trace SampleSnowflake.bad_sql "q"
           Sample.filters
           "1. SELECT SUM(CLOSE) FROM T; 2. SELECT DATE, CLOSE, HIGH FROM T; "
           "SELECT SUM(CLOSE) FROM T" "SELECT DATE, CLOSE, HIGH FROM T"
           " Close rose. ");
    try reflexivity; eexists; reflexivity.
Defined.

(** X14: a failure inside the web search agent reads as an analysis.  With
    the agent of the repository as backend, the web node always returns, and
    the text it records starts with the header of the news section, never
    with Error.  When every search fails the agent still reports success,
    with no item and the text [No relevant results found.]; when in addition
    the model cannot be set up, the recorded text is the two headers
    followed by [Error generating response:] and the message. *)
Theorem web_failure_reads_as_analysis (W : World) (E : WebAgent.Env)
  (calls : nat) (st : ResearchState) (latest : AgentAction) :
  last_step st = Ret latest ->
  exists text,
    web_search (with_web_agent W E) calls st
    = Ret (append_step st
             (mkAgentAction "web_search_result" (tool_input latest) text),
           calls)
    /\ PyStr.startswith "### Recent News and Analysis" text = true
    /\ ~ starts_with_Error text
    /\ ((forall p, exists e, WebAgent.google_search E p = Raise e) ->
        (WebAgent.run E (get_query (tool_input latest))
         = WebAgent.Success "No relevant results found."
             (fst (WebAgent.synthesize_results E [] []))
             (snd (WebAgent.synthesize_results E [] []))
             [] [] (get_query (tool_input latest)) false false)
        /\ forall c key e,
             WebAgent.google_api_key E = Some (String c key) ->
             WebAgent.gemini_setup E "gemini-1.5-pro" = Raise e ->
             text = "### Recent News and Analysis" ++ NL ++ NL
                    ++ "#### 🔍 Analysis" ++ NL ++ NL
                    ++ "Error generating response: " ++ e ++ NL ++ NL).
Proof.
  intros Hl. unfold web_search. rewrite Hl.
  cbn [with_web_agent web_agent_run].
  set (query := get_query (tool_input latest)).
  eexists. split; [reflexivity|].
  assert (Hs : forall r,
             PyStr.startswith "### Recent News and Analysis"
               match WebAgent.read_by_node r with
               | WebError err => "Error in web search: " ++ err
               | WebSuccess news trends insights =>
                   format_web_results news trends insights
               end = true
             \/ exists e q, r = WebAgent.Failure e q).
  { intros [s i t n tr q0 hn ht | e q0]; [left | right; eauto].
    cbn [WebAgent.read_by_node]. unfold format_web_results.
    apply startswith_spec. eexists. reflexivity. }
  assert (Hrun : exists s i t n tr hn ht,
             WebAgent.run E query = WebAgent.Success s i t n tr query hn ht).
  { unfold WebAgent.run. cbv zeta.
    destruct (WebAgent.synthesize_results E _ _). repeat eexists. }
  destruct Hrun as [s [i [t [n [tr [hn [ht Hrun]]]]]]].
  split; [|split].
  - destruct (Hs (WebAgent.run E query)) as [H | [e [q0 H]]]; [exact H|].
    rewrite Hrun in H. discriminate.
  - intros [rest Hr].
    destruct (Hs (WebAgent.run E query)) as [H | [e [q0 H]]];
      [|rewrite Hrun in H; discriminate].
    rewrite Hr in H. discriminate H.
  - intros Hdown.
    assert (Hn : forall k, WebAgent.search_news E query k = []).
    { intros k. unfold WebAgent.search_news. cbv zeta.
      destruct (Hdown (WebAgent.mkSearchParams ("NVIDIA " ++ query) k
                         (Some "nws") "qdr:m" (Some "United States")))
        as [e ->]. reflexivity. }
    assert (Ht : forall k, WebAgent.search_trends E query k = []).
    { intros k. unfold WebAgent.search_trends. cbv zeta.
      destruct (Hdown (WebAgent.mkSearchParams
                         ("NVIDIA " ++ query ++ " trends analysis research")
                         k None "qdr:m" None)) as [e ->]. reflexivity. }
    assert (Hr : WebAgent.run E query
                 = WebAgent.Success "No relevant results found."
                     (fst (WebAgent.synthesize_results E [] []))
                     (snd (WebAgent.synthesize_results E [] []))
                     [] [] query false false).
    { unfold WebAgent.run. cbv zeta. rewrite Hn, Ht.
      now destruct (WebAgent.synthesize_results E [] []). }
    split; [exact Hr|].
    intros c key e Hk He. rewrite Hr. cbn [WebAgent.read_by_node].
    unfold WebAgent.synthesize_results,
      WebAgent.generate_response_with_gemini, WebAgent.ask_gemini.
    cbv zeta. rewrite Hk, He. reflexivity.
Qed.

Lemma web_failure_reads_as_analysis_witness :
  exists text,
    web_search (with_web_agent Sample.world SampleWeb.offline) 0
      (append_step (initial_state "q" [] "web_search")
         (selection (initial_state "q" [] "web_search") "web_search"))
    = Ret (append_step
             (append_step (initial_state "q" [] "web_search")
                (selection (initial_state "q" [] "web_search") "web_search"))
             (mkAgentAction "web_search_result"
                (tool_input
                   (selection (initial_state "q" [] "web_search")
                      "web_search")) text), 0)
    /\ PyStr.startswith "### Recent News and Analysis" text = true
    /\ ~ starts_with_Error text
    /\ ((forall p, exists e,
           WebAgent.google_search SampleWeb.offline p = Raise e) ->
        (WebAgent.run SampleWeb.offline "q"
         = WebAgent.Success "No relevant results found."
             (fst (WebAgent.synthesize_results SampleWeb.offline [] []))
             (snd (WebAgent.synthesize_results SampleWeb.offline [] []))
             [] [] "q" false false)
        /\ forall c key e,
             WebAgent.google_api_key SampleWeb.offline = Some (String c key) ->
             WebAgent.gemini_setup SampleWeb.offline "gemini-1.5-pro"
             = Raise e ->
             text = "### Recent News and Analysis" ++ NL ++ NL
                    ++ "#### 🔍 Analysis" ++ NL ++ NL
                    ++ "Error generating response: " ++ e ++ NL ++ NL).
Proof.
  exact (web_failure_reads_as_analysis Sample.world SampleWeb.offline 0
           (append_step (initial_state "q" [] "web_search")
              (selection (initial_state "q" [] "web_search") "web_search"))
           (selection (initial_state "q" [] "web_search") "web_search")
           eq_refl).
Defined.

Section WordFacts.

Import PyLib.

Lemma split_ws_head (d : ascii) (r : string) :
  PyStr.is_space d = false -> split_ws (String d r) <> [].
Proof.
  intros Hd. cbn [split_ws]. rewrite Hd.
  destruct r as [|e r']; [discriminate|].
  destruct (PyStr.is_space e); [discriminate|].
  destruct (split_ws (String e r')); discriminate.
Qed.

(** [split()] cuts at a white space character. *)
Lemma split_ws_app (a : string) (c : ascii) (b : string) :
  PyStr.is_space c = true ->
  split_ws (a ++ String c b) = (split_ws a ++ split_ws b)%list.
Proof.
  intros Hc. induction a as [|x a IH].
  - cbn [append split_ws app]. now rewrite Hc.
  - cbn [append]. cbn [split_ws].
    destruct (PyStr.is_space x) eqn:Hx; [exact IH|].
    destruct a as [|d a'].
    + cbn [append]. rewrite Hc. cbn [split_ws app]. now rewrite Hc.
    + cbn [append] in *. destruct (PyStr.is_space d) eqn:Hd.
      * rewrite IH. reflexivity.
      * rewrite IH.
        pose proof (split_ws_head d a' Hd) as Hne.
        destruct (split_ws (String d a')) as [|w ws]; [congruence|].
        reflexivity.
Qed.

Lemma split_ws_lstrip (s : string) : split_ws (PyStr.lstrip s) = split_ws s.
Proof.
  induction s as [|c s IH]; [reflexivity|].
  cbn [PyStr.lstrip]. destruct (PyStr.is_space c) eqn:Hc; [|reflexivity].
  rewrite IH. cbn [split_ws]. now rewrite Hc.
Qed.

Lemma rstrip_head (s : string) (e : ascii) (r : string) :
  PyStr.rstrip s = String e r -> exists s', s = String e s'.
Proof.
  destruct s as [|c s']; [discriminate|]. cbn [PyStr.rstrip].
  destruct (PyStr.rstrip s').
  - destruct (PyStr.is_space c); [discriminate|].
    intros H. injection H as <- _. now exists s'.
  - intros H. injection H as <- _. now exists s'.
Qed.

Lemma split_ws_eq (c d : ascii) (t : string) :
  split_ws (String c (String d t))
  = if PyStr.is_space c then split_ws (String d t)
    else if PyStr.is_space d then String c "" :: split_ws (String d t)
    else match split_ws (String d t) with
         | w :: ws => String c w :: ws
         | [] => [String c ""]
         end.
Proof. reflexivity. Qed.

Lemma split_ws_rstrip (s : string) : split_ws (PyStr.rstrip s) = split_ws s.
Proof.
  induction s as [|c s IH]; [reflexivity|].
  cbn [PyStr.rstrip].
  destruct (PyStr.rstrip s) as [|e r] eqn:Er.
  - change (split_ws "") with (@nil string) in IH.
    destruct (PyStr.is_space c) eqn:Hc.
    + cbn [split_ws]. now rewrite Hc.
    + destruct s as [|d s']; [reflexivity|].
      rewrite split_ws_eq, Hc, <- IH.
      cbn [split_ws]. rewrite Hc. now destruct (PyStr.is_space d).
  - destruct (rstrip_head s e r Er) as [s' ->].
    rewrite !split_ws_eq. now rewrite IH.
Qed.

Lemma split_ws_strip (s : string) : split_ws (PyStr.strip s) = split_ws s.
Proof. unfold PyStr.strip. now rewrite split_ws_lstrip, split_ws_rstrip. Qed.

Lemma split_ws_words (s : string) : Forall is_word (split_ws s).
Proof.
  induction s as [|c s IH]; [constructor|].
  cbn [split_ws]. destruct (PyStr.is_space c) eqn:Hc; [exact IH|].
  assert (H1 : is_word (String c ""))
    by (split; [discriminate | cbn; now rewrite Hc]).
  destruct s as [|d s']; [now constructor|].
  destruct (PyStr.is_space d); [now constructor|].
  destruct (split_ws (String d s')) as [|w ws]; [now constructor|].
  inversion IH as [|? ? [Hw1 Hw2] Hws]; subst.
  constructor; [|exact Hws].
  split; [discriminate|]. cbn [all_chars]. now rewrite Hc, Hw2.
Qed.

Lemma split_ws_word (w : string) : is_word w -> split_ws w = [w].
Proof.
  intros [Hne Hw]. induction w as [|c w IH]; [congruence|].
  cbn [all_chars] in Hw. apply andb_true_iff in Hw. destruct Hw as [Hc Hw].
  apply negb_true_iff in Hc. cbn [split_ws]. rewrite Hc.
  destruct w as [|d w']; [reflexivity|].
  pose proof Hw as Hw'. cbn [all_chars] in Hw'.
  apply andb_true_iff in Hw'. destruct Hw' as [Hd _].
  apply negb_true_iff in Hd. rewrite Hd.
  rewrite IH by (discriminate || exact Hw). reflexivity.
Qed.

Lemma split_ws_word_app (w : string) (c : ascii) (b : string) :
  is_word w -> PyStr.is_space c = true ->
  split_ws (w ++ String c b) = w :: split_ws b.
Proof.
  intros Hw Hc. rewrite split_ws_app by exact Hc.
  now rewrite split_ws_word.
Qed.

(** Words joined by single spaces split into the same words. *)
Lemma split_ws_join (ws : list string) :
  Forall is_word ws -> split_ws (PyStr.join " " ws) = ws.
Proof.
  unfold PyStr.join. induction 1 as [|w ws Hw Hws IH]; [reflexivity|].
  destruct ws as [|w2 ws'].
  - cbn [String.concat]. now apply split_ws_word.
  - change (String.concat " " (w :: w2 :: ws'))
      with (w ++ String " " (String.concat " " (w2 :: ws'))).
    rewrite split_ws_word_app by (exact Hw || reflexivity).
    now rewrite IH.
Qed.

Lemma Forall_firstn (A : Type) (P : A -> Prop) (n : nat) (l : list A) :
  Forall P l -> Forall P (firstn n l).
Proof.
  intros H. revert n. induction H; intros [|n]; cbn; constructor; auto.
Qed.

Lemma Forall_skipn (A : Type) (P : A -> Prop) (n : nat) (l : list A) :
  Forall P l -> Forall P (skipn n l).
Proof.
  intros H. revert n. induction H; intros [|n]; cbn; auto.
Qed.

End WordFacts.

Section SliceFacts.

Import PyLib.

Lemma substring_split (s : string) : forall i a b,
  String.substring i (a + b) s
  = String.substring i a s ++ String.substring (i + a) b s.
Proof.
  induction s as [|c s IH]; intros i a b.
  - destruct i; destruct a; destruct b; reflexivity.
  - destruct i as [|i].
    + destruct a as [|a].
      * reflexivity.
      * cbn [String.substring Nat.add append]. f_equal.
        apply (IH 0 a b).
    + cbn [String.substring Nat.add]. apply IH.
Qed.

Lemma slice_split (s : string) (i j k : nat) :
  i <= j -> j <= k -> slice s i k = slice s i j ++ slice s j k.
Proof.
  intros H1 H2. unfold slice.
  replace (k - i) with ((j - i) + (k - j)) by lia.
  rewrite substring_split. do 2 f_equal. lia.
Qed.

Lemma substring_get (s : string) : forall n c,
  String.get n s = Some c -> String.substring n 1 s = String c "".
Proof.
  induction s as [|x s IH]; intros n c H; [destruct n; discriminate|].
  destruct n as [|n].
  - cbn in H. injection H as ->. cbn. now destruct s.
  - cbn in H. cbn [String.substring]. now apply IH.
Qed.

Lemma get_app_length (p : string) (c : ascii) (s : string) :
  String.get (String.length p) ((p ++ String c "") ++ s) = Some c.
Proof. induction p as [|x p IH]; [reflexivity | exact IH]. Qed.

(** A slice that ends just after a white space character. *)
Lemma split_ws_slices (s : string) (i j k : nat) (c : ascii) :
  i < j -> j <= k ->
  String.get (j - 1) s = Some c -> PyStr.is_space c = true ->
  split_ws (slice s i k)
  = (split_ws (slice s i j) ++ split_ws (slice s j k))%list.
Proof.
  intros H1 H2 Hg Hc.
  rewrite (slice_split s i j k) by lia.
  rewrite (slice_split s i (j - 1) j) by lia.
  unfold slice at 2 5.
  replace (j - (j - 1)) with 1 by lia.
  rewrite (substring_get _ _ _ Hg).
  rewrite append_assoc. cbn [append].
  rewrite !split_ws_app by exact Hc.
  cbn [split_ws app]. now rewrite app_nil_r.
Qed.

End SliceFacts.

Section FinditerFacts.

Import PyLib Chunking.

Lemma length_app_char (p : string) (c : ascii) :
  String.length (p ++ String c "") = S (String.length p).
Proof. rewrite length_append. cbn. lia. Qed.

Lemma substring_all (s : string) :
  String.substring 0 (String.length s) s = s.
Proof. induction s as [|c s IH]; [reflexivity|]. cbn. now rewrite IH. Qed.

Lemma slice_suffix (pre s : string) :
  slice (pre ++ s) (String.length pre) (String.length (pre ++ s)) = s.
Proof.
  unfold slice. rewrite length_append.
  replace (String.length pre + String.length s - String.length pre)
    with (String.length s) by lia.
  induction pre as [|c pre IH]; [apply substring_all | exact IH].
Qed.

(** The matches [finditer] reports start at line starts, at increasing
    positions inside the text. *)
Lemma finditer_from_starts (text : string) :
  forall s pre bol skip,
    text = pre ++ s ->
    (bol = true -> line_start text (String.length pre)) ->
    Forall (fun m => String.length pre <= m_start m < String.length text
                     /\ line_start text (m_start m)
                     /\ exists tail,
                          slice text (m_start m) (String.length text)
                          = String "#" tail)
      (finditer_from s (String.length pre) bol skip)
    /\ StronglySorted (fun a b => m_start a < m_start b)
         (finditer_from s (String.length pre) bol skip).
Proof.
  induction s as [|c s IH]; intros pre bol skip Ht Hb;
    [split; constructor|].
  assert (Ht' : text = (pre ++ String c "") ++ s)
    by (rewrite Ht, append_assoc; reflexivity).
  assert (Hb' : Ascii.eqb c PyStr.nl = true ->
                line_start text (String.length (pre ++ String c ""))).
  { intros Hc. apply Ascii.eqb_eq in Hc. subst c. right.
    rewrite length_app_char, Ht'.
    replace (S (String.length pre) - 1) with (String.length pre) by lia.
    apply get_app_length. }
  assert (Hlen : String.length pre < String.length text).
  { rewrite Ht, length_append. cbn. lia. }
  assert (Hnext : forall k,
    Forall (fun m => String.length pre <= m_start m < String.length text
                     /\ line_start text (m_start m)
                     /\ exists tail,
                          slice text (m_start m) (String.length text)
                          = String "#" tail)
      (finditer_from s (S (String.length pre)) (Ascii.eqb c PyStr.nl) k)
    /\ StronglySorted (fun a b => m_start a < m_start b)
         (finditer_from s (S (String.length pre)) (Ascii.eqb c PyStr.nl) k)
    /\ Forall (fun m => String.length pre < m_start m)
         (finditer_from s (S (String.length pre)) (Ascii.eqb c PyStr.nl) k)).
  { intros k. rewrite <- (length_app_char pre c).
    destruct (IH (pre ++ String c "") (Ascii.eqb c PyStr.nl) k Ht' Hb')
      as [Hf Hs].
    rewrite length_app_char in *.
    repeat split; [|exact Hs|].
    - eapply Forall_impl; [|exact Hf]. cbv beta. intros m [[H1 H2] H3].
      split; [lia | exact H3].
    - eapply Forall_impl; [|exact Hf]. cbv beta. intros m [[H1 H2] H3]. lia. }
  cbn [finditer_from]. cbv zeta.
  destruct skip as [|k]; [|destruct (Hnext k) as [H1 [H2 _]]; now split].
  destruct (if bol then match_header (String c s) else None)
    as [[caps rest]|] eqn:Em;
    [|destruct (Hnext 0) as [H1 [H2 _]]; now split].
  destruct (Hnext (String.length (String c s) - String.length rest - 1))
    as [H1 [H2 H3]].
  split.
  - constructor; [|exact H1]. cbn [m_start].
    split; [lia|]. split; [apply Hb; now destruct bol|].
    destruct bol; [|discriminate].
    assert (Hs : slice text (String.length pre) (String.length text)
                 = String c s).
    { rewrite Ht. apply slice_suffix. }
    rewrite Hs. unfold match_header in Em.
    destruct (Ascii.eqb_spec c "#"%char) as [->|]; [|discriminate].
    now exists s.
  - constructor; [exact H2|].
    eapply Forall_impl; [|exact H3]. cbv beta. cbn [m_start]. auto.
Qed.

Lemma finditer_starts (text : string) :
  Forall (fun m => m_start m < String.length text
                   /\ line_start text (m_start m)
                   /\ exists tail,
                        slice text (m_start m) (String.length text)
                        = String "#" tail)
    (finditer text)
  /\ StronglySorted (fun a b => m_start a < m_start b) (finditer text).
Proof.
  destruct (finditer_from_starts text text "" true 0 eq_refl) as [H1 H2].
  { intros _. now left. }
  split; [|exact H2].
  eapply Forall_impl; [|exact H1]. cbv beta. tauto.
Qed.

End FinditerFacts.

Section ChunkFacts.

Import PyLib Chunking.

Lemma chunks_of_match_words (text : string) (threshold : nat)
  (m : HeaderMatch) (end_index : nat) :
  flat_map chunk_words (chunks_of_match text threshold m end_index)
  = split_ws (slice text (m_start m) end_index).
Proof.
  unfold chunks_of_match. cbv zeta.
  rewrite <- (split_ws_strip (slice text (m_start m) end_index)).
  set (words := split_ws (PyStr.strip (slice text (m_start m) end_index))).
  assert (Hw : Forall is_word words) by apply split_ws_words.
  destruct (threshold <? List.length words)%nat.
  - cbn [flat_map app]. unfold chunk_words. cbn [content].
    rewrite !split_ws_join
      by (apply Forall_firstn || apply Forall_skipn; exact Hw).
    rewrite app_nil_r. apply firstn_skipn.
  - cbn [flat_map app]. unfold chunk_words. cbn [content].
    now rewrite app_nil_r.
Qed.

Lemma chunk_loop_words (text : string) (threshold : nat) :
  forall matches,
    StronglySorted (fun a b => m_start a < m_start b) matches ->
    Forall (fun m => m_start m < String.length text
                     /\ line_start text (m_start m)) matches ->
    flat_map chunk_words (chunk_loop text threshold matches)
    = match matches with
      | [] => []
      | m :: _ => split_ws (slice text (m_start m) (String.length text))
      end.
Proof.
  induction matches as [|m rest IH]; intros Hs Hf; [reflexivity|].
  cbn [chunk_loop]. cbv zeta. rewrite flat_map_app, chunks_of_match_words.
  inversion Hs as [|? ? Hs' Hlt]; subst.
  inversion Hf as [|? ? _ Hf']; subst.
  rewrite (IH Hs' Hf'). destruct rest as [|m2 rest']; [apply app_nil_r|].
  inversion Hlt as [|? ? Hlt2 _]; subst.
  inversion Hf' as [|? ? [Hlen Hline] _]; subst.
  destruct Hline as [H0 | Hg]; [lia|].
  symmetry. apply (split_ws_slices text _ _ _ PyStr.nl);
    [exact Hlt2 | lia | exact Hg | reflexivity].
Qed.

End ChunkFacts.

(** X15: chunking keeps the words of the document from its first header on.
    The list of chunks is never empty.  For a text without a header the
    words of the chunks are the words of the text; otherwise the first
    header starts a line with a number sign, and the words of the chunks, in
    order, are the words of the text from that header on: what precedes the
    first header is dropped, and nothing else is lost, repeated or
    reordered. *)
Theorem chunks_keep_the_words (text : string) (ideal_word_count : nat) :
  Chunking.chunk_markdown_by_headers text ideal_word_count <> []
  /\ match Chunking.finditer text with
     | [] =>
         flat_map chunk_words
           (Chunking.chunk_markdown_by_headers text ideal_word_count)
         = PyLib.split_ws text
     | m :: _ =>
         line_start text (Chunking.m_start m)
         /\ (exists tail,
               PyLib.slice text (Chunking.m_start m) (String.length text)
               = String "#" tail)
         /\ flat_map chunk_words
              (Chunking.chunk_markdown_by_headers text ideal_word_count)
            = PyLib.split_ws
                (PyLib.slice text (Chunking.m_start m) (String.length text))
     end.
Proof.
  unfold Chunking.chunk_markdown_by_headers. cbv zeta.
  destruct (finditer_starts text) as [Hf Hs].
  destruct (Chunking.finditer text) as [|m rest] eqn:Em.
  - split; [discriminate|].
    cbn [flat_map app]. unfold chunk_words. cbn [Chunking.content].
    now rewrite app_nil_r, split_ws_strip.
  - split.
    + cbn [Chunking.chunk_loop]. unfold Chunking.chunks_of_match. cbv zeta.
      destruct (_ <? _)%nat; discriminate.
    + inversion Hf as [|? ? [Hlen [Hline Hhash]] _]; subst.
      split; [exact Hline|]. split; [exact Hhash|].
      rewrite (chunk_loop_words text _ (m :: rest) Hs); [reflexivity|].
      eapply Forall_impl; [|exact Hf]. cbv beta. tauto.
Qed.

Section HeaderFacts.

Import PyLib Chunking.








End HeaderFacts.

Section GroupFacts.

Import PyLib Chunking.

Lemma substring_head (a b : string) :
  String.substring 0 (String.length a) (a ++ b) = a.
Proof.
  induction a as [|c a IH]; [now destruct b|]. cbn. now rewrite IH.
Qed.



End GroupFacts.


(** X17: failures of the Pinecone search are reported in band.  With
    [search_pinecone_db] of the repository as backend and a client that can
    be constructed, the Pinecone node always returns.  A failure to embed
    the query is recorded as [Error searching Pinecone:] and the message; a
    failure of the index query or of the model is recorded as the fixed text
    [Error occurred during search.], without the message; both begin with
    Error.  An index that returns no match is recorded as the fixed text
    that no relevant information was found, and the model is not asked. *)
Theorem pinecone_failures_are_in_band (Emb : Type) (W : World)
  (E : PineconeDb.Env Emb) (calls : nat) (st : ResearchState)
  (latest : AgentAction) :
  pinecone_init W = Ret tt ->
  last_step st = Ret latest ->
  let query := get_query (tool_input latest) in
  let filters := get_metadata_filters (tool_input latest) in
  exists text,
    rag_search (with_pinecone_db W E) calls st
    = Ret (append_step st
             (mkAgentAction "rag_search_result" (tool_input latest) text),
           calls)
    /\ (forall e,
          PineconeDb.encode E [query] = Raise e ->
          text = "Error searching Pinecone: " ++ e)
    /\ (forall v e,
          PineconeDb.encode E [query] = Ret v ->
          PineconeDb.search_body E query v filters 20 = Raise e ->
          text = "Error occurred during search.")
    /\ ((forall v,
           PineconeDb.encode E [query] = Ret v ->
           exists e, PineconeDb.search_body E query v filters 20 = Raise e) ->
        starts_with_Error text)
    /\ (forall v,
          PineconeDb.encode E [query] = Ret v ->
          PineconeDb.index_query E v 20 filters = Ret [] ->
          text
          = "No relevant information found for the specified year and quarters.").
Proof.
  intros Hi Hl. cbv zeta. unfold rag_search. rewrite Hl.
  cbn [with_pinecone_db pinecone_init search_pinecone_db]. rewrite Hi.
  eexists. split; [reflexivity|].
  unfold PineconeDb.search_pinecone_db.
  destruct (PineconeDb.encode E _) as [v|e0].
  - split; [discriminate|]. split; [|split].
    + intros v' e Hv Hb. injection Hv as <-. now rewrite Hb.
    + intros Hf. destruct (Hf v eq_refl) as [e ->].
      now exists " occurred during search.".
    + intros v' Hv Hq. injection Hv as <-. unfold PineconeDb.search_body.
      now rewrite Hq.
  - split; [intros e He; now injection He as <-|].
    split; [discriminate|]. split; [|discriminate].
    intros _. now exists (" searching Pinecone: " ++ e0).
Qed.

Lemma pinecone_failures_are_in_band_witness :
  exists text,
    rag_search (with_pinecone_db Sample.world SamplePinecone.broken_index) 0
      (append_step (initial_state "q" Sample.filters "pinecone")
         (selection (initial_state "q" Sample.filters "pinecone") "pinecone"))
    = Ret (append_step
             (append_step (initial_state "q" Sample.filters "pinecone")
                (selection (initial_state "q" Sample.filters "pinecone")
                   "pinecone"))
             (mkAgentAction "rag_search_result"
                (tool_input
                   (selection (initial_state "q" Sample.filters "pinecone")
                      "pinecone")) text), 0)
    /\ (forall e,
          PineconeDb.encode SamplePinecone.broken_index ["q"] = Raise e ->
          text = "Error searching Pinecone: " ++ e)
    /\ (forall v e,
          PineconeDb.encode SamplePinecone.broken_index ["q"] = Ret v ->
          PineconeDb.search_body SamplePinecone.broken_index "q" v
            Sample.filters 20 = Raise e ->
          text = "Error occurred during search.")
    /\ ((forall v,
           PineconeDb.encode SamplePinecone.broken_index ["q"] = Ret v ->
           exists e,
             PineconeDb.search_body SamplePinecone.broken_index "q" v
               Sample.filters 20 = Raise e) ->
        starts_with_Error text)
    /\ (forall v,
          PineconeDb.encode SamplePinecone.broken_index ["q"] = Ret v ->
          PineconeDb.index_query SamplePinecone.broken_index v 20
            Sample.filters = Ret [] ->
          text
          = "No relevant information found for the specified year and quarters.").
Proof.
  exact (pinecone_failures_are_in_band nat Sample.world
           SamplePinecone.broken_index 0
           (append_step (initial_state "q" Sample.filters "pinecone")
              (selection (initial_state "q" Sample.filters "pinecone")
                 "pinecone"))
           (selection (initial_state "q" Sample.filters "pinecone")
              "pinecone")
           eq_refl eq_refl).
Defined.

Section IdFacts.

Import PineconeDb.

Lemma of_nat_inj (n m : nat) : PyStr.of_nat n = PyStr.of_nat m -> n = m.
Proof.
  unfold PyStr.of_nat. intros H. apply Unsigned.to_uint_inj.
  apply (f_equal NilEmpty.uint_of_string) in H.
  rewrite !NilEmpty.usu in H. now injection H.
Qed.

Lemma append_inj_l (a x y : string) : a ++ x = a ++ y -> x = y.
Proof.
  induction a as [|c a IH]; intros H; [exact H|].
  cbn in H. injection H as H. now apply IH.
Qed.

Lemma vector_id_inj (year quarter : string) (i j : nat) :
  year ++ "_" ++ quarter ++ "_" ++ PyStr.of_nat i
  = year ++ "_" ++ quarter ++ "_" ++ PyStr.of_nat j -> i = j.
Proof.
  intros H. apply append_inj_l in H. apply (append_inj_l "_") in H.
  apply append_inj_l in H. apply (append_inj_l "_") in H.
  now apply of_nat_inj.
Qed.

Lemma pinecone_data_ids (Emb : Type) (year quarter filename : string) :
  forall (chunks : list Chunking.Chunk) (embeddings : list Emb) (i : nat),
    map (fun v => fst (fst v))
      (pinecone_data year quarter filename i chunks embeddings)
    = map (fun k => year ++ "_" ++ quarter ++ "_" ++ PyStr.of_nat k)
        (seq i (List.length
                  (pinecone_data year quarter filename i chunks embeddings)))
    /\ List.length (pinecone_data year quarter filename i chunks embeddings)
       = Nat.min (List.length chunks) (List.length embeddings)
    /\ Forall (fun v => md_year (snd v) = year
                        /\ md_quarter (snd v) = quarter
                        /\ md_filename (snd v) = filename)
         (pinecone_data year quarter filename i chunks embeddings).
Proof.
  induction chunks as [|c chunks IH]; intros [|e embeddings] i;
    try (repeat split; constructor).
  destruct (IH embeddings (S i)) as [H1 [H2 H3]].
  cbn [pinecone_data map List.length seq fst snd Nat.min].
  rewrite <- H1, H2. repeat split. constructor; [|exact H3].
  now repeat split.
Qed.

Lemma ids_NoDup (year quarter : string) (i n : nat) :
  NoDup (map (fun k => year ++ "_" ++ quarter ++ "_" ++ PyStr.of_nat k)
           (seq i n)).
Proof.
  revert i. induction n as [|n IH]; intros i; [constructor|].
  cbn [seq map]. constructor; [|apply IH].
  intros Hin. apply in_map_iff in Hin. destruct Hin as [k [Hk Hin]].
  apply vector_id_inj in Hk. apply in_seq in Hin. lia.
Qed.

Lemma ids_incl (year quarter : string) (n m : nat) :
  n <= m ->
  incl (map (fun k => year ++ "_" ++ quarter ++ "_" ++ PyStr.of_nat k)
          (seq 0 n))
       (map (fun k => year ++ "_" ++ quarter ++ "_" ++ PyStr.of_nat k)
          (seq 0 m)).
Proof.
  intros H x Hx. apply in_map_iff in Hx. destruct Hx as [k [<- Hk]].
  apply in_map_iff. exists k. split; [reflexivity|].
  apply in_seq in Hk. apply in_seq. lia.
Qed.

Lemma insert_embeddings_ids (Emb : Type) (E : Env Emb)
  (url year quarter filename : string)
  (batch : list (string * Emb * Metadata)) :
  insert_embeddings E url year quarter filename = Some batch ->
  map (fun v => fst (fst v)) batch
  = map (fun k => year ++ "_" ++ quarter ++ "_" ++ PyStr.of_nat k)
      (seq 0 (List.length batch))
  /\ Forall (fun v => md_year (snd v) = year
                      /\ md_quarter (snd v) = quarter
                      /\ md_filename (snd v) = filename) batch.
Proof.
  unfold insert_embeddings.
  destruct (http_get E url) as [text|e]; [|discriminate].
  cbv zeta.
  destruct (Chunking.chunk_markdown_by_headers text 500) as [|c cs];
    [discriminate|].
  destruct (encode E _) as [embs|e]; [|discriminate].
  intros H. injection H as <-.
  destruct (pinecone_data_ids Emb year quarter filename (c :: cs) embs 0)
    as [H1 [_ H3]].
  now split.
Qed.

End IdFacts.

(** X18: the ids of a document's vectors.  The batch [insert_embeddings] hands
    to the index has the ids year_quarter_0, year_quarter_1, ... in order,
    all distinct, and every vector carries the document's file name.  The
    ids do not name the document: a second document of the same year and
    quarter with no more chunks gets ids that are all taken already. *)
Theorem vector_ids_name_the_quarter_only (Emb : Type)
  (E : PineconeDb.Env Emb) (url year quarter filename : string)
  (batch : list (string * Emb * PineconeDb.Metadata)) :
  PineconeDb.insert_embeddings E url year quarter filename = Some batch ->
  map (fun v => fst (fst v)) batch
  = map (fun k => year ++ "_" ++ quarter ++ "_" ++ PyStr.of_nat k)
      (seq 0 (List.length batch))
  /\ NoDup (map (fun v => fst (fst v)) batch)
  /\ Forall (fun v => PineconeDb.md_filename (snd v) = filename) batch
  /\ (forall url' filename' batch',
        PineconeDb.insert_embeddings E url' year quarter filename'
        = Some batch' ->
        List.length batch' <= List.length batch ->
        incl (map (fun v => fst (fst v)) batch')
             (map (fun v => fst (fst v)) batch)).
Proof.
  intros H. destruct (insert_embeddings_ids Emb E _ _ _ _ _ H) as [Hi Hm].
  split; [exact Hi|]. split; [rewrite Hi; apply ids_NoDup|].
  split; [eapply Forall_impl; [|exact Hm]; cbv beta; tauto|].
  intros url' filename' batch' H' Hl.
  destruct (insert_embeddings_ids Emb E _ _ _ _ _ H') as [Hi' _].
  rewrite Hi, Hi'. now apply ids_incl.
Qed.

Lemma vector_ids_name_the_quarter_only_witness :
  exists batch,
    PineconeDb.insert_embeddings SamplePinecone.broken_index "u" "2024" "1"
      "2024_First_Quarter.md" = Some batch
    /\ map (fun v => fst (fst v)) batch = ["2024_1_0"; "2024_1_1"]
    /\ NoDup (map (fun v => fst (fst v)) batch).
Proof.
  eexists. split; [vm_compute; reflexivity|]. split; [reflexivity|].
  refine (proj1 (proj2 (vector_ids_name_the_quarter_only nat
                          SamplePinecone.broken_index "u" "2024" "1"
                          "2024_First_Quarter.md" _ _))).
  vm_compute. reflexivity.
Defined.

Section PathFacts.

Import PyLib.

Lemma rfind_none (c : ascii) (s : string) :
  lacks c s = true -> rfind c s = None.
Proof.
  induction s as [|x s IH]; [reflexivity|].
  unfold lacks. cbn [all_chars rfind]. intros H.
  apply andb_true_iff in H. destruct H as [Hx Hs].
  rewrite (IH Hs). apply negb_true_iff in Hx. now rewrite Hx.
Qed.

Lemma rfind_last (c : ascii) (a b : string) :
  lacks c b = true -> rfind c (a ++ String c b) = Some (String.length a).
Proof.
  intros Hb. induction a as [|x a IH].
  - cbn [append rfind String.length]. rewrite (rfind_none c b Hb).
    now rewrite Ascii.eqb_refl.
  - cbn [append rfind String.length]. now rewrite IH.
Qed.

Lemma slice_tail (a b : string) (c : ascii) :
  slice (a ++ String c b) (S (String.length a))
    (String.length (a ++ String c b)) = b.
Proof.
  replace (a ++ String c b) with ((a ++ String c "") ++ b)
    by now rewrite append_assoc.
  rewrite <- length_app_char with (c := c). apply slice_suffix.
Qed.

Lemma slice_head (a b : string) : slice (a ++ b) 0 (String.length a) = a.
Proof. unfold slice. rewrite Nat.sub_0_r. apply substring_head. Qed.

Lemma basename_of_path (dir base : string) :
  lacks "/" base = true -> basename (dir ++ String "/" base) = base.
Proof.
  intros H. unfold basename. rewrite (rfind_last "/" dir base H).
  apply slice_tail.
Qed.

Lemma basename_plain (base : string) :
  lacks "/" base = true -> basename base = base.
Proof. intros H. unfold basename. now rewrite rfind_none. Qed.

Lemma splitext_name (name ext : string) :
  lacks "/" name = true -> lacks "/" ext = true -> lacks "." ext = true ->
  all_chars (fun x => Ascii.eqb x ".") name = false ->
  splitext (name ++ String "." ext) = (name, String "." ext).
Proof.
  intros Hn He Hd Hnd. unfold splitext.
  rewrite (rfind_last "." name ext Hd).
  assert (Hb : lacks "/" (name ++ String "." ext) = true).
  { rewrite lacks_app, Hn. unfold lacks in *. cbn [all_chars].
    now rewrite He. }
  rewrite (rfind_none _ _ Hb).
  cbn [Nat.leb andb]. rewrite slice_head, Hnd. cbn [negb].
  f_equal. apply slice_suffix.
Qed.

(** [s.split(c)] cuts at the first [c]. *)
Lemma split_char (c : ascii) (a b : string) :
  lacks c a = true ->
  PyStr.split (String c "") (a ++ String c b)
  = a :: PyStr.split (String c "") b.
Proof.
  unfold PyStr.split. induction a as [|x a IH]; intros H.
  - cbn [append PyStr.split_from PyStr.startswith].
    rewrite Ascii.eqb_refl. cbn [andb String.length Nat.sub].
    reflexivity.
  - unfold lacks in H. cbn [all_chars] in H.
    apply andb_true_iff in H. destruct H as [Hx Ha].
    apply negb_true_iff in Hx.
    cbn [append PyStr.split_from PyStr.startswith].
    rewrite Ascii.eqb_sym, Hx. cbn [andb]. now rewrite (IH Ha).
Qed.

Lemma all_dots_lacks (c : ascii) (s : string) :
  c <> "."%char -> all_chars (fun x => Ascii.eqb x ".") (s ++ String c "")
                   = false.
Proof.
  intros Hc. rewrite all_chars_app. cbn [all_chars].
  destruct (Ascii.eqb_spec c "."%char); [contradiction|].
  now rewrite andb_false_r.
Qed.

End PathFacts.

Lemma report_name_gives_year_and_quarter_aux
  (dir year word tail ext : string) :
  lacks "/" year = true -> lacks "_" year = true ->
  lacks "/" word = true -> lacks "_" word = true ->
  lacks "/" tail = true ->
  lacks "/" ext = true -> lacks "." ext = true ->
  let filename := year ++ "_" ++ word ++ "_" ++ tail ++ "." ++ ext in
  PineconeDb.extract_filename_year_quarter (dir ++ "/" ++ filename)
  = (filename, year, PineconeDb.quarter_of (PyStr.lower word)).
Proof.
  intros Hy1 Hy2 Hw1 Hw2 Ht He1 He2. cbv zeta.
  set (name := year ++ "_" ++ word ++ "_" ++ tail).
  assert (Hfile : year ++ "_" ++ word ++ "_" ++ tail ++ "." ++ ext
                  = name ++ String "." ext)
    by (unfold name; now rewrite !append_assoc).
  rewrite Hfile.
  assert (Hname : lacks "/" name = true).
  { unfold name. rewrite !lacks_app, Hy1, Hw1, Ht. reflexivity. }
  assert (Hbase : lacks "/" (name ++ String "." ext) = true).
  { rewrite lacks_app, Hname. unfold lacks in *. cbn [all_chars].
    now rewrite He1. }
  unfold PineconeDb.extract_filename_year_quarter,
    PineconeDb.extract_year_and_quarter.
  change (dir ++ "/" ++ name ++ String "." ext)
    with (dir ++ String "/" (name ++ String "." ext)).
  rewrite (basename_of_path dir _ Hbase). cbv zeta.
  rewrite (basename_plain _ Hbase).
  rewrite (splitext_name name ext Hname He1 He2).
  2: { unfold name.
       replace (year ++ "_" ++ word ++ "_" ++ tail)
         with ((year ++ String "_" "") ++ word ++ "_" ++ tail)
         by now rewrite !append_assoc.
       rewrite all_chars_app, all_dots_lacks by discriminate.
       reflexivity. }
  cbn [fst]. unfold name.
  change (year ++ "_" ++ word ++ "_" ++ tail)
    with (year ++ String "_" (word ++ String "_" tail)).
  rewrite (split_char "_" year _ Hy2), (split_char "_" word _ Hw2).
  reflexivity.
Qed.

(** X19: the year and quarter read off a report's file name.  For a path whose
    last component reads year_word_tail.ext (no slash in it, no underscore
    in year and word, no dot in ext), the function returns that component,
    the year as written, and the quarter the lower-cased word stands for:
    first, second, third and fourth give 1 to 4, any other word gives
    Unknown. *)
Theorem report_name_gives_year_and_quarter
  (dir year word tail ext : string) :
  lacks "/" year = true -> lacks "_" year = true ->
  lacks "/" word = true -> lacks "_" word = true ->
  lacks "/" tail = true ->
  lacks "/" ext = true -> lacks "." ext = true ->
  let filename := year ++ "_" ++ word ++ "_" ++ tail ++ "." ++ ext in
  PineconeDb.extract_filename_year_quarter (dir ++ "/" ++ filename)
  = (filename, year, PineconeDb.quarter_of (PyStr.lower word))
  /\ In (PineconeDb.quarter_of (PyStr.lower word))
       ["1"; "2"; "3"; "4"; "Unknown"].
Proof.
  intros Hy1 Hy2 Hw1 Hw2 Ht He1 He2. cbv zeta. split.
  - now apply report_name_gives_year_and_quarter_aux.
  - unfold PineconeDb.quarter_of.
    repeat match goal with
    | |- context [if ?b then _ else _] => destruct b
    end; simpl; tauto.
Qed.

Lemma report_name_gives_year_and_quarter_witness :
  PineconeDb.extract_filename_year_quarter
    ("/markdown/2024" ++ "/" ++ "2024" ++ "_" ++ "First" ++ "_" ++ "Quarter"
     ++ "." ++ "md")
  = ("2024" ++ "_" ++ "First" ++ "_" ++ "Quarter" ++ "." ++ "md", "2024",
     PineconeDb.quarter_of (PyStr.lower "First"))
  /\ In (PineconeDb.quarter_of (PyStr.lower "First"))
       ["1"; "2"; "3"; "4"; "Unknown"].
Proof.
  apply (report_name_gives_year_and_quarter "/markdown/2024" "2024" "First"
           "Quarter" "md"); reflexivity.
Defined.

Section UnparsedNames.

Import PyLib.

Lemma lacks_substring (c : ascii) (s : string) : forall i n,
  lacks c s = true -> lacks c (String.substring i n s) = true.
Proof.
  unfold lacks. induction s as [|x s IH]; intros i n H.
  - destruct i; destruct n; reflexivity.
  - cbn [all_chars] in H. apply andb_true_iff in H. destruct H as [Hx Hs].
    destruct i as [|i].
    + destruct n as [|n]; [reflexivity|].
      cbn [String.substring all_chars]. rewrite Hx. now apply IH.
    + cbn [String.substring]. now apply IH.
Qed.

Lemma lacks_basename (c : ascii) (p : string) :
  lacks c p = true -> lacks c (basename p) = true.
Proof.
  intros H. unfold basename. destruct (rfind "/" p); [|exact H].
  now apply lacks_substring.
Qed.

Lemma lacks_splitext (c : ascii) (p : string) :
  lacks c p = true -> lacks c (fst (splitext p)) = true.
Proof.
  intros H. unfold splitext. destruct (rfind "." p); [|exact H].
  cbv zeta. destruct (_ && _); [|exact H].
  now apply lacks_substring.
Qed.

Lemma lacks_not_contains (c : ascii) (s : string) :
  lacks c s = true -> PyStr.contains (String c "") s = false.
Proof.
  unfold lacks. induction s as [|x s IH]; intros H; [reflexivity|].
  cbn [all_chars] in H. apply andb_true_iff in H. destruct H as [Hx Hs].
  apply negb_true_iff in Hx. cbn [PyStr.contains PyStr.startswith].
  rewrite Ascii.eqb_sym, Hx. now rewrite (IH Hs).
Qed.

Lemma extract_unparsed (path : string) :
  lacks "_" path = true ->
  PineconeDb.extract_filename_year_quarter path
  = (basename path, "Unknown", "Unknown").
Proof.
  intros H. unfold PineconeDb.extract_filename_year_quarter,
    PineconeDb.extract_year_and_quarter. cbv zeta.
  rewrite split_without; [reflexivity|].
  apply lacks_not_contains, lacks_splitext, lacks_basename, lacks_basename.
  exact H.
Qed.

End UnparsedNames.

(** X20: documents whose names do not parse share their vector ids.  A path
    without an underscore gives the year and the quarter Unknown, and the
    pipeline then stores the document's vectors under the ids
    Unknown_Unknown_0, Unknown_Unknown_1, ...: every other such document
    with no more chunks gets ids among them. *)
Theorem unparsed_names_share_vector_ids (Emb : Type)
  (E : PineconeDb.Env Emb) (url path : string)
  (batch : list (string * Emb * PineconeDb.Metadata)) :
  lacks "_" path = true ->
  Pipeline.embed_document E url path = Some batch ->
  PineconeDb.extract_filename_year_quarter path
  = (PyLib.basename path, "Unknown", "Unknown")
  /\ map (fun v => fst (fst v)) batch
     = map (fun k => "Unknown_Unknown_" ++ PyStr.of_nat k)
         (seq 0 (List.length batch))
  /\ (forall url' path' batch',
        lacks "_" path' = true ->
        Pipeline.embed_document E url' path' = Some batch' ->
        List.length batch' <= List.length batch ->
        incl (map (fun v => fst (fst v)) batch')
             (map (fun v => fst (fst v)) batch)).
Proof.
  intros Hp Hb. unfold Pipeline.embed_document in *.
  rewrite (extract_unparsed path Hp) in *. split; [reflexivity|].
  destruct (insert_embeddings_ids Emb E _ _ _ _ _ Hb) as [Hi _].
  split; [exact Hi|].
  intros url' path' batch' Hp' Hb' Hl.
  rewrite (extract_unparsed path' Hp') in Hb'.
  destruct (insert_embeddings_ids Emb E _ _ _ _ _ Hb') as [Hi' _].
  rewrite Hi, Hi'. now apply (ids_incl "Unknown" "Unknown").
Qed.

Lemma unparsed_names_share_vector_ids_witness :
  exists batch,
    Pipeline.embed_document SamplePinecone.broken_index "u" "/markdown/a.md"
    = Some batch
    /\ map (fun v => fst (fst v)) batch
       = map (fun k => "Unknown_Unknown_" ++ PyStr.of_nat k)
           (seq 0 (List.length batch)).
Proof.
  eexists. split; [vm_compute; reflexivity|].
  refine (proj1 (proj2 (unparsed_names_share_vector_ids nat
                          SamplePinecone.broken_index "u" "/markdown/a.md"
                          _ _ _))).
  - reflexivity.
  - vm_compute. reflexivity.
Defined.

Section KeyFacts.

Lemma middle_of (p3 mid s3 : string) :
  String.length p3 = 3 -> String.length s3 = 3 ->
  Pipeline.middle (p3 ++ mid ++ s3) = mid.
Proof.
  intros Hp Hs. unfold Pipeline.middle. rewrite !length_append, Hp, Hs.
  replace (3 + (String.length mid + 3) - 3 - 3) with (String.length mid)
    by lia.
  destruct p3 as [|a [|b [|c [|d p]]]]; try discriminate.
  cbn [append String.substring]. apply substring_head.
Qed.

End KeyFacts.

(** X21: the markdown key of a report keeps its year and quarter.  The key
    written for the PDF key pdf, dir, year_word_tail.pdf is markdown, dir,
    year_word_tail.md, and the year and quarter read off a path that ends
    with that key are those of the PDF's name. *)
Theorem markdown_key_keeps_year_and_quarter
  (prefix dir year word tail : string) :
  lacks "/" year = true -> lacks "_" year = true ->
  lacks "/" word = true -> lacks "_" word = true ->
  lacks "/" tail = true ->
  let name := year ++ "_" ++ word ++ "_" ++ tail in
  Pipeline.output_url ("pdf" ++ (dir ++ "/" ++ name ++ ".") ++ "pdf")
  = "markdown" ++ dir ++ "/" ++ name ++ ".md"
  /\ PineconeDb.extract_filename_year_quarter
       (prefix
        ++ Pipeline.output_url ("pdf" ++ (dir ++ "/" ++ name ++ ".") ++ "pdf"))
     = (name ++ ".md", year, PineconeDb.quarter_of (PyStr.lower word)).
Proof.
  intros Hy1 Hy2 Hw1 Hw2 Ht. cbv zeta.
  assert (Ho : Pipeline.output_url
                 ("pdf" ++ (dir ++ "/" ++ (year ++ "_" ++ word ++ "_" ++ tail)
                            ++ ".") ++ "pdf")
               = ("markdown" ++ dir) ++ "/" ++ year ++ "_" ++ word ++ "_"
                 ++ tail ++ "." ++ "md").
  { unfold Pipeline.output_url. rewrite middle_of by reflexivity.
    rewrite !append_assoc. reflexivity. }
  rewrite Ho. split; [now rewrite !append_assoc|].
  rewrite <- (append_assoc prefix ("markdown" ++ dir)).
  pose proof (report_name_gives_year_and_quarter_aux
                (prefix ++ "markdown" ++ dir) year
                word tail "md" Hy1 Hy2 Hw1 Hw2 Ht eq_refl eq_refl) as H.
  cbv zeta in H.
  rewrite H. now rewrite !append_assoc.
Qed.

Lemma markdown_key_keeps_year_and_quarter_witness :
  Pipeline.output_url
    ("pdf" ++ ("/2025" ++ "/" ++ ("2025" ++ "_" ++ "Third" ++ "_" ++ "Quarter")
               ++ ".") ++ "pdf")
  = "markdown" ++ "/2025" ++ "/"
    ++ ("2025" ++ "_" ++ "Third" ++ "_" ++ "Quarter") ++ ".md"
  /\ PineconeDb.extract_filename_year_quarter
       ("/"
        ++ Pipeline.output_url
             ("pdf" ++ ("/2025" ++ "/"
                        ++ ("2025" ++ "_" ++ "Third" ++ "_" ++ "Quarter")
                        ++ ".") ++ "pdf"))
     = (("2025" ++ "_" ++ "Third" ++ "_" ++ "Quarter") ++ ".md", "2025",
        PineconeDb.quarter_of (PyStr.lower "Third")).
Proof.
  apply (markdown_key_keeps_year_and_quarter "/" "/2025" "2025" "Third"
           "Quarter"); reflexivity.
Defined.

Lemma contains_cons (needle : string) (c : ascii) (s : string) :
  PyStr.contains needle (String c s)
  = PyStr.startswith needle (String c s) || PyStr.contains needle s.
Proof. reflexivity. Qed.

Lemma startswith_cons (a b : ascii) (p s : string) :
  PyStr.startswith (String a p) (String b s)
  = Ascii.eqb a b && PyStr.startswith p s.
Proof. reflexivity. Qed.

(** X22: the short expiry never applies to a key the module builds.  The key
    of a temporary visualization is visualizations/temp/ and the file name,
    with no slash in front; unless the file name itself holds
    visualizations/temp/, the test for /visualizations/temp/ fails on it and
    the presigned URL gets the expiry asked for, however long. *)
Theorem temporary_key_escapes_short_expiry (filename : string) (expiry : N) :
  PyStr.contains "visualizations/temp/" filename = false ->
  S3Utils.s3_key filename "visualizations" true
  = "visualizations/temp/" ++ filename
  /\ S3Utils.actual_expiry
       (S3Utils.s3_key filename "visualizations" true) expiry
     = expiry.
Proof.
  intros H. split; [reflexivity|].
  unfold S3Utils.actual_expiry, S3Utils.s3_key.
  cbn [andb String.eqb Ascii.eqb Bool.eqb].
  assert (Hs : PyStr.startswith "visualizations/temp/" filename = false).
  { destruct (PyStr.startswith "visualizations/temp/" filename) eqn:E;
      [|reflexivity].
    destruct filename; cbn [PyStr.contains] in H; rewrite E in H;
      discriminate H. }
  assert (Hc : PyStr.contains "/visualizations/temp/" filename = false).
  { apply not_contains_spec. intros [a [b Hab]].
    apply not_contains_spec in H. apply H.
    exists (a ++ "/"), b. rewrite Hab, !append_assoc. reflexivity. }
  assert (Hk : PyStr.contains "/visualizations/temp/"
                 ("visualizations" ++ "/temp/" ++ filename) = false).
  { cbn [append]. rewrite !contains_cons, !startswith_cons, Hs, Hc.
    reflexivity. }
  now rewrite Hk.
Qed.

Lemma temporary_key_escapes_short_expiry_witness :
  S3Utils.s3_key "chart.png" "visualizations" true
  = "visualizations/temp/" ++ "chart.png"
  /\ S3Utils.actual_expiry
       (S3Utils.s3_key "chart.png" "visualizations" true) 86400%N
     = 86400%N.
Proof.
  apply (temporary_key_escapes_short_expiry "chart.png" 86400%N).
  reflexivity.
Defined.

Lemma combined_run_without_pinecone_witness :
  (exists r,
     invoke_research_graph Sample.no_pinecone_world "q" Sample.filters
       "combined" = Finished r
     /\ history_tools r = tools_of_run []
     /\ oracle_decisions r = 1)
  \/ (exists r,
        invoke_research_graph Sample.no_pinecone_world "q" Sample.filters
          "combined"
        = Failed "PineconeConfigurationError: no API key" r
        /\ oracle_decisions r <= 3).
Proof.
  apply (combined_run_without_pinecone Sample.no_pinecone_world "q"
           Sample.filters "PineconeConfigurationError: no API key").
  reflexivity.
Defined.

Lemma adapter_errors_in_band_witness :
  exists text,
    node_function Sample.world (node_of_tool "web_search") 1
      (append_step Sample.after_first_cycle
         (selection Sample.after_first_cycle "web_search"))
    = Ret (append_step
             (append_step Sample.after_first_cycle
                (selection Sample.after_first_cycle "web_search"))
             (mkAgentAction (result_tool "web_search")
                (tool_input (selection Sample.after_first_cycle "web_search"))
                text), 1).
Proof.
  destruct (adapter_errors_in_band Sample.world "web_search"
              (append_step Sample.after_first_cycle
                 (selection Sample.after_first_cycle "web_search"))
              1 (selection Sample.after_first_cycle "web_search"))
    as [text [H _]].
  - simpl. tauto.
  - reflexivity.
  - discriminate.
  - exists text. exact H.
Defined.

Section SubmitFacts.

Variable checked : nat -> string -> bool.

Lemma lookup_map (g : nat -> list string) (l : list nat) (y : nat) :
  In y l ->
  Frontend.lookup (map (fun year => (year, g year)) l) y = Some (g y).
Proof.
  induction l as [|a l IH]; intros H; [destruct H|].
  cbn [map Frontend.lookup]. destruct (Nat.eqb_spec a y) as [->|Hne].
  - reflexivity.
  - destruct H as [H|H]; [congruence | now apply IH].
Qed.

Lemma lookup_display_sidebar (years : list nat) (y : nat) :
  In y years ->
  Frontend.lookup (Frontend.display_sidebar checked years) y
  = Some (Frontend.quarters_of checked y).
Proof.
  intros H. unfold Frontend.display_sidebar. apply lookup_map.
  now apply in_rev in H.
Qed.

Lemma get_display_sidebar (years : list nat) (y : nat) :
  In y years ->
  Frontend.get (Frontend.display_sidebar checked years) y
  = Frontend.quarters_of checked y.
Proof.
  intros H. unfold Frontend.get. now rewrite lookup_display_sidebar.
Qed.

Lemma year_quarter_dict_built (years ys : list nat) :
  incl ys years ->
  Frontend.year_quarter_dict (Frontend.display_sidebar checked years) ys
  = Some (map (fun y => (PyStr.of_nat y, Frontend.quarters_of checked y)) ys).
Proof.
  induction ys as [|y ys IH]; intros H; [reflexivity|].
  cbn [Frontend.year_quarter_dict map].
  rewrite lookup_display_sidebar by (apply H; now left).
  rewrite IH; [reflexivity|]. intros z Hz. apply H. now right.
Qed.

Lemma any_values_built (years ys : list nat) :
  incl ys years ->
  forallb (fun year =>
             (List.length
                (Frontend.get (Frontend.display_sidebar checked years) year)
              =? 0)%nat) ys = false ->
  any_values
    (map (fun y => (PyStr.of_nat y, Frontend.quarters_of checked y)) ys)
  = true.
Proof.
  induction ys as [|y ys IH]; intros H Hf; [discriminate Hf|].
  cbn [forallb] in Hf. cbn [map any_values existsb snd].
  rewrite get_display_sidebar in Hf by (apply H; now left).
  destruct (Frontend.quarters_of checked y) as [|q qs]; [|reflexivity].
  cbn [List.length Nat.eqb andb orb] in Hf |- *.
  apply IH; [|exact Hf]. intros z Hz. apply H. now right.
Qed.

End SubmitFacts.

(** X23: what the page posts for the Pinecone, web and combined modes is never
    turned down by the endpoint.  A request the page posts in one of these
    modes carries the query typed, the mode of the chosen option and, for
    every selected year in order, the quarters ticked; the endpoint runs the
    research graph on it. *)
Theorem posted_requests_pass_validation (W : World)
  (checked : nat -> string -> bool) (prompt action : string)
  (years : list nat) (r : ResearchRequest) :
  In action ["Pinecone RAG Search"; "Web Search"; "Combined Research"] ->
  NoDup years ->
  Frontend.submit prompt action years (Frontend.display_sidebar checked years)
  = Frontend.Posted r ->
  r = mkResearchRequest prompt
        (map (fun y => (PyStr.of_nat y, Frontend.quarters_of checked y)) years)
        (req_mode r)
  /\ Frontend.mode_mapping action = Some (req_mode r)
  /\ snd (research_endpoint W r)
     = Some (invoke_research_graph W prompt (req_year_quarter_dict r)
               (req_mode r)).
Proof.
  intros Ha _ Hs. unfold Frontend.submit in Hs.
  destruct (PyStr.truthy prompt); [|discriminate Hs]. cbn [negb] in Hs.
  rewrite year_quarter_dict_built in Hs by apply incl_refl.
  assert (Hrun : forall m d,
             In m valid_modes ->
             (PySet.mem m ["pinecone"; "snowflake"; "combined"] = true ->
              d <> [] /\ any_values d = true) ->
             snd (research_endpoint W (mkResearchRequest prompt d m))
             = Some (invoke_research_graph W prompt d m)).
  { intros m d Hm Hd. unfold research_endpoint.
    cbn [req_mode req_query req_year_quarter_dict].
    apply mem_spec in Hm. rewrite Hm. cbn [negb].
    destruct (PySet.mem m ["pinecone"; "snowflake"; "combined"]).
    - destruct (Hd eq_refl) as [Hne Hany]. rewrite Hany.
      destruct d; [congruence|]. cbn [dict_empty negb orb andb].
      now destruct (run_research_graph W prompt _ m).
    - cbn [andb]. now destruct (run_research_graph W prompt _ m). }
  destruct Ha as [<- | [<- | [<- | []]]].
  - cbn [PySet.mem existsb String.eqb Ascii.eqb Bool.eqb orb andb] in Hs.
    destruct years as [|y ys]; [discriminate Hs|].
    destruct (forallb _ (y :: ys)) eqn:Ef; [discriminate Hs|].
    cbn in Hs. injection Hs as <-.
    cbn [req_mode req_year_quarter_dict].
    split; [reflexivity|]. split; [reflexivity|].
    apply Hrun; [unfold valid_modes; simpl; tauto|].
    intros _. split; [discriminate|].
    apply (any_values_built checked (y :: ys) (y :: ys)
             (incl_refl _) Ef).
  - cbn in Hs. injection Hs as <-.
    cbn [req_mode req_year_quarter_dict].
    split; [reflexivity|]. split; [reflexivity|].
    apply Hrun; [unfold valid_modes; simpl; tauto|].
    intros H. discriminate H.
  - cbn [PySet.mem existsb String.eqb Ascii.eqb Bool.eqb orb andb] in Hs.
    destruct years as [|y ys]; [discriminate Hs|].
    destruct (forallb _ (y :: ys)) eqn:Ef; [discriminate Hs|].
    cbn in Hs. injection Hs as <-.
    cbn [req_mode req_year_quarter_dict].
    split; [reflexivity|]. split; [reflexivity|].
    apply Hrun; [unfold valid_modes; simpl; tauto|].
    intros _. split; [discriminate|].
    apply (any_values_built checked (y :: ys) (y :: ys)
             (incl_refl _) Ef).
Qed.

Lemma posted_requests_pass_validation_witness :
  snd (research_endpoint Sample.world
         (mkResearchRequest "q" [("2024", ["1"])] "combined"))
  = Some (invoke_research_graph Sample.world "q" [("2024", ["1"])]
            "combined").
Proof.
  refine (proj2 (proj2 (posted_requests_pass_validation Sample.world
                          (fun y q => (y =? 2024)%nat && (q =? "1")%string)
                          "q" "Combined Research" [2024]
                          (mkResearchRequest "q" [("2024", ["1"])] "combined")
                          _ _ _))).
  - simpl. tauto.
  - repeat constructor. simpl. tauto.
  - vm_compute. reflexivity.
Defined.

(** X24: a Snowflake request without a quarter is posted, turned down by the
    endpoint, and shown as an empty result.  The input validation of the
    page names the Pinecone and combined modes only: with a query typed, the
    Snowflake mode chosen and no quarter ticked for any selected year (or no
    year selected), the request is posted, the endpoint answers with its
    error body without running the graph, and the page, which reads the
    result key only, draws the text [No result received.]. *)
Theorem snowflake_request_without_quarter (W : World) (E : Frontend.Env)
  (checked : nat -> string -> bool) (prompt : string) (years : list nat) :
  PyStr.truthy prompt = true ->
  NoDup years ->
  (forall y, In y years -> Frontend.quarters_of checked y = []) ->
  let r := mkResearchRequest prompt
             (map (fun y => (PyStr.of_nat y, [])) years) "snowflake" in
  Frontend.submit prompt "Snowflake RAG Search" years
    (Frontend.display_sidebar checked years)
  = Frontend.Posted r
  /\ research_endpoint W r
     = (ErrorBody
          "For snowflake search, at least one year and quarter must be selected",
        None)
  /\ Frontend.display_response E (fst (research_endpoint W r))
     = [Frontend.StMarkdown "No result received."].
Proof.
  intros Hp _ Hq. cbv zeta.
  assert (Hd : map (fun y => (PyStr.of_nat y, Frontend.quarters_of checked y))
                 years
               = map (fun y => (PyStr.of_nat y, [])) years).
  { apply map_ext_in. intros y Hy. now rewrite (Hq y Hy). }
  assert (He : research_endpoint W
                 (mkResearchRequest prompt
                    (map (fun y => (PyStr.of_nat y, [])) years) "snowflake")
               = (ErrorBody
                    "For snowflake search, at least one year and quarter must be selected",
                  None)).
  { unfold research_endpoint.
    cbn [req_mode req_query req_year_quarter_dict].
    replace (any_values (map (fun y => (PyStr.of_nat y, [])) years))
      with false.
    - rewrite orb_true_r. reflexivity.
    - symmetry. apply any_values_all_empty.
      apply Forall_forall. intros kv Hkv. apply in_map_iff in Hkv.
      destruct Hkv as [y [<- _]]. reflexivity. }
  split; [|split].
  - unfold Frontend.submit. rewrite Hp.
    rewrite year_quarter_dict_built by apply incl_refl. rewrite Hd.
    reflexivity.
  - exact He.
  - rewrite He. reflexivity.
Qed.

Lemma snowflake_request_without_quarter_witness :
  Frontend.submit "q" "Snowflake RAG Search" [2024]
    (Frontend.display_sidebar (fun _ _ => false) [2024])
  = Frontend.Posted
      (mkResearchRequest "q" (map (fun y => (PyStr.of_nat y, [])) [2024])
         "snowflake")
  /\ research_endpoint Sample.world
       (mkResearchRequest "q" (map (fun y => (PyStr.of_nat y, [])) [2024])
          "snowflake")
     = (ErrorBody
          "For snowflake search, at least one year and quarter must be selected",
        None)
  /\ Frontend.display_response (Frontend.mkEnv (fun _ _ => Ret tt) (fun d => d))
       (fst (research_endpoint Sample.world
               (mkResearchRequest "q"
                  (map (fun y => (PyStr.of_nat y, [])) [2024]) "snowflake")))
     = [Frontend.StMarkdown "No result received."].
Proof.
  apply (snowflake_request_without_quarter Sample.world
           (Frontend.mkEnv (fun _ _ => Ret tt) (fun d => d))
           (fun _ _ => false) "q" [2024]).
  - reflexivity.
  - repeat constructor. simpl. tauto.
  - intros y _. reflexivity.
Defined.

Section RenderFacts.

Lemma segment_re_unfold (x : string) :
  Re.rmatch Frontend.segment_re ("![" ++ x) [] []
  = Re.lazy_star Re.dot
      (fun s => Re.rmatch (Re.lits "](" ++ [Re.LazyStar Re.dot]
                           ++ Re.lits ")" ++ [Re.GClose])%list
                  s ["![" ++ x] []) x.
Proof. reflexivity. Qed.

Lemma image_re_unfold (x : string) :
  Re.rmatch Frontend.image_re ("![" ++ x) [] []
  = Re.lazy_star Re.dot
      (fun s => Re.rmatch (Re.GClose :: Re.lits "]("
                           ++ [Re.GOpen; Re.LazyStar Re.dot; Re.GClose]
                           ++ Re.lits ")")%list
                  s [x] []) x.
Proof. reflexivity. Qed.

Lemma lits_stop (w : ascii) (k : Re.pattern) (a1 a2 u rest : string)
  (o c : list string) :
  lacks w u = true -> u = a1 ++ a2 -> a2 <> "" ->
  Re.rmatch (Re.Lit w :: k) (a2 ++ rest) o c = None.
Proof.
  intros Hl E Hne. destruct a2 as [|y a2]; [congruence|].
  rewrite E in Hl. apply lacks_suffix, lacks_head in Hl.
  cbn [Re.rmatch append].
  destruct (Ascii.eqb_spec y w); [contradiction | reflexivity].
Qed.

Lemma segment_match (t u r : string) :
  all_chars Re.dot t = true -> lacks "]" t = true ->
  all_chars Re.dot u = true -> lacks ")" u = true ->
  Re.rmatch Frontend.segment_re ("![" ++ t ++ "](" ++ u ++ ")" ++ r) [] []
  = Some (["![" ++ t ++ "](" ++ u ++ ")"], r).
Proof.
  intros Ht Hlt Hu Hlu. rewrite segment_re_unfold.
  apply lazy_star_complete; [exact Ht | |].
  - rewrite rmatch_lits. cbn [app Re.rmatch].
    rewrite (lazy_star_complete Re.dot _ u (")" ++ r)
               ([("![" ++ t ++ "](" ++ u ++ ")")], r)); [reflexivity | exact Hu | |].
    + cbn [Re.lits app Re.rmatch append Ascii.eqb Bool.eqb rev].
      replace (String "!" (String "[" (t ++ String "]" (String "(" (u ++ String ")" r)))))
        with (("![" ++ t ++ "](" ++ u ++ ")") ++ r)
        by (now rewrite !append_assoc).
      now rewrite substring_prefix.
    + intros a1 a2 E Hne. now apply (lits_stop ")" _ a1 a2 u).
  - intros a1 a2 E Hne. now apply (lits_stop "]" _ a1 a2 t).
Qed.

Lemma image_match (t u r : string) :
  all_chars Re.dot t = true -> lacks "]" t = true ->
  all_chars Re.dot u = true -> lacks ")" u = true ->
  Re.rmatch Frontend.image_re ("![" ++ t ++ "](" ++ u ++ ")" ++ r) [] []
  = Some ([t; u], r).
Proof.
  intros Ht Hlt Hu Hlu. rewrite image_re_unfold.
  apply lazy_star_complete; [exact Ht | |].
  - cbn [Re.rmatch]. rewrite substring_prefix, rmatch_lits.
    cbn [app Re.rmatch].
    rewrite (lazy_star_complete Re.dot _ u (")" ++ r) ([t; u], r));
      [reflexivity | exact Hu | |].
    + cbn [Re.rmatch]. rewrite substring_prefix.
      cbn [Re.lits app Re.rmatch append Ascii.eqb Bool.eqb rev].
      reflexivity.
    + intros a1 a2 E Hne. destruct a2 as [|y a2]; [congruence|].
      rewrite E in Hlu. apply lacks_suffix, lacks_head in Hlu.
      cbn [Re.rmatch Re.lits app append].
      destruct (Ascii.eqb_spec y ")"); [contradiction | reflexivity].
  - intros a1 a2 E Hne. destruct a2 as [|y a2]; [congruence|].
    rewrite E in Hlt. apply lacks_suffix, lacks_head in Hlt.
    cbn [Re.rmatch Re.lits app append].
    destruct (Ascii.eqb_spec y "]"); [contradiction | reflexivity].
Qed.

Lemma segment_re_head (s : string) :
  PyStr.startswith "![" s = false ->
  Re.rmatch Frontend.segment_re s [] [] = None.
Proof.
  intros H. destruct s as [|a [|b s]].
  - reflexivity.
  - cbn. now destruct (Ascii.eqb a "!").
  - unfold Frontend.segment_re. cbn [app Re.lits Re.rmatch].
    destruct (Ascii.eqb a "!") eqn:Ea; [|reflexivity].
    destruct (Ascii.eqb b "[") eqn:Eb; [|reflexivity].
    apply Ascii.eqb_eq in Ea, Eb. subst. discriminate H.
Qed.

Lemma split_from_skip_match (pat : Re.pattern) (a b : string) :
  Frontend.split_from pat (a ++ b) (String.length a)
  = Frontend.split_from pat b 0.
Proof. induction a as [|x a IH]; [reflexivity | exact IH]. Qed.

Lemma split_from_match (pat : Re.pattern) (m rest : string)
  (caps : list string) :
  m <> "" ->
  Re.rmatch pat (m ++ rest) [] [] = Some (caps, rest) ->
  Frontend.split_from pat (m ++ rest) 0
  = ("" :: caps ++ Frontend.split_from pat rest 0)%list.
Proof.
  intros Hm H. destruct m as [|c m]; [congruence|].
  cbn [append] in *. cbn [Frontend.split_from]. rewrite H. do 2 f_equal.
  replace (String.length (String c (m ++ rest)) - String.length rest - 1)
    with (String.length m)
    by (cbn [String.length]; rewrite length_append; lia).
  apply split_from_skip_match.
Qed.

Lemma contains_false_startswith (needle s : string) :
  PyStr.contains needle s = false -> PyStr.startswith needle s = false.
Proof.
  destruct s; cbn [PyStr.contains]; intros H;
    apply orb_false_iff in H; tauto.
Qed.

(** A text without an image mark is passed over as a whole, when what
    follows it does not complete a mark. *)
Lemma split_from_text (T S p : string) (ps : list string) :
  PyStr.contains "![" T = false ->
  PyStr.startswith "[" S = false ->
  Frontend.split_from Frontend.segment_re S 0 = p :: ps ->
  Frontend.split_from Frontend.segment_re (T ++ S) 0 = (T ++ p) :: ps.
Proof.
  intros HT HS Hp. induction T as [|c T IH]; [exact Hp|].
  rewrite contains_cons in HT. apply orb_false_iff in HT.
  destruct HT as [Hsw HT].
  cbn [append Frontend.split_from].
  rewrite segment_re_head.
  - now rewrite (IH HT).
  - destruct T as [|d T].
    + cbn [append]. destruct S as [|e S]; [cbn; now rewrite andb_false_r|].
      cbn in HS |- *. rewrite HS. cbn. now rewrite andb_false_r.
    + cbn [append] in *. cbn in Hsw |- *. exact Hsw.
Qed.

Lemma no_image_app (a b : string) :
  PyStr.contains "![" a = false -> PyStr.contains "![" b = false ->
  PyStr.startswith "[" b = false ->
  PyStr.contains "![" (a ++ b) = false.
Proof.
  intros Ha Hb Hs. induction a as [|c a IH]; [exact Hb|].
  rewrite contains_cons in Ha. apply orb_false_iff in Ha.
  destruct Ha as [Hsw Ha].
  cbn [append]. rewrite contains_cons, (IH Ha), orb_false_r.
  destruct a as [|d a].
  - cbn [append]. destruct b as [|e b]; [cbn; now rewrite andb_false_r|].
    cbn in Hs |- *. rewrite Hs. cbn. now rewrite andb_false_r.
  - cbn [append] in *. cbn in Hsw |- *. exact Hsw.
Qed.

Lemma image_ok_parts (v : VizRef) :
  image_ok v = true ->
  all_chars Re.dot (ref_title v) = true /\ lacks "]" (ref_title v) = true
  /\ all_chars Re.dot (ref_url v) = true /\ lacks ")" (ref_url v) = true
  /\ PyStr.contains "![" (ref_caption v) = false.
Proof.
  unfold image_ok. rewrite !andb_true_iff, negb_true_iff. tauto.
Qed.

Lemma caption_without_image (v : VizRef) :
  PyStr.contains "![" (ref_caption v) = false ->
  PyStr.contains "![" (caption_markdown v) = false.
Proof.
  intros H. unfold caption_markdown, NL, PyStr.nl. cbn [append].
  rewrite !contains_cons, !startswith_cons.
  cbn [Ascii.eqb Bool.eqb andb orb].
  apply no_image_app; [exact H | reflexivity | reflexivity].
Qed.

End RenderFacts.

Section PageFacts.

Lemma viz_block_parts (v : VizRef) (R : string) :
  viz_block v ++ R = image_markdown v ++ caption_markdown v ++ R.
Proof.
  unfold viz_block, image_markdown, caption_markdown.
  now rewrite !append_assoc.
Qed.

Lemma blocks_start (vs : list VizRef) :
  PyStr.startswith "[" (String.concat "" (map viz_block vs)) = false.
Proof.
  destruct vs as [|v vs]; [reflexivity|].
  cbn [map]. rewrite string_concat_cons, viz_block_parts. reflexivity.
Qed.

Lemma split_viz_blocks (vs : list VizRef) :
  forallb image_ok vs = true ->
  Frontend.split_from Frontend.segment_re
    (String.concat "" (map viz_block vs)) 0
  = "" :: flat_map (fun v => [image_markdown v; caption_markdown v]) vs.
Proof.
  induction vs as [|v vs IH]; intros H; [reflexivity|].
  cbn [forallb] in H. apply andb_true_iff in H. destruct H as [Hv Hvs].
  destruct (image_ok_parts v Hv) as [Ht [Hlt [Hu [Hlu Hc]]]].
  cbn [map flat_map app]. rewrite string_concat_cons, viz_block_parts.
  set (R := String.concat "" (map viz_block vs)) in *.
  rewrite (split_from_match _ (image_markdown v) _ [image_markdown v]).
  - cbn [app]. do 2 f_equal.
    rewrite (split_from_text (caption_markdown v) R ""
               (flat_map (fun v => [image_markdown v; caption_markdown v]) vs)).
    + now rewrite append_nil_r.
    + now apply caption_without_image.
    + apply blocks_start.
    + now apply IH.
  - discriminate.
  - unfold image_markdown at 1. rewrite !append_assoc.
    now apply segment_match.
Qed.

Lemma flat_map_pairs {A B C : Type} (f : B -> list C) (g h : A -> B)
  (l : list A) :
  flat_map f (flat_map (fun v => [g v; h v]) l)
  = flat_map (fun v => f (g v) ++ f (h v))%list l.
Proof.
  induction l as [|x l IH]; [reflexivity|].
  cbn [flat_map app]. rewrite IH. now rewrite app_assoc.
Qed.

Lemma display_image (E : Frontend.Env) (v : VizRef) :
  image_ok v = true ->
  Frontend.display_visualization E (image_markdown v)
  = match Frontend.st_image E (ref_url v) (ref_title v) with
    | Ret _ => [Frontend.StImage (ref_url v) (ref_title v)]
    | Raise e =>
        [Frontend.StError ("Failed to load visualization: " ++ e);
         Frontend.StMarkdown ("[View Image Directly](" ++ ref_url v ++ ")")]
    end.
Proof.
  intros Hv. destruct (image_ok_parts v Hv) as [Ht [Hlt [Hu [Hlu _]]]].
  unfold Frontend.display_visualization.
  assert (Hs : Frontend.re_search Frontend.image_re (image_markdown v)
               = Some [ref_title v; ref_url v]).
  { pose proof (image_match (ref_title v) (ref_url v) "" Ht Hlt Hu Hlu) as Hm.
    unfold image_markdown. cbn [append] in *.
    cbn [Frontend.re_search]. now rewrite Hm. }
  now rewrite Hs.
Qed.

End PageFacts.

(** X25: the page draws every chart of an answer.  For a text without an image
    mark followed by the Visualizations section of a non-empty list of
    charts (titles and URLs on one line, no closing bracket in a title, no
    closing parenthesis in a URL, no image mark in a caption), the page
    draws the text with the section header, then for every chart in order
    its image under its title (or, when the image cannot be loaded, the
    error and a link to it) and the markdown of its caption. *)
Theorem charts_are_drawn (E : Frontend.Env) (answer : string)
  (vizs : list VizRef) :
  vizs <> [] ->
  PyStr.contains "![" answer = false ->
  forallb image_ok vizs = true ->
  Frontend.display_result E (answer ++ visualizations_section vizs)
  = Frontend.StMarkdown
      (answer ++ NL ++ NL ++ "## Visualizations" ++ NL ++ NL)
    :: flat_map
         (fun v =>
            match Frontend.st_image E (ref_url v) (ref_title v) with
            | Ret _ => [Frontend.StImage (ref_url v) (ref_title v)]
            | Raise e =>
                [Frontend.StError ("Failed to load visualization: " ++ e);
                 Frontend.StMarkdown
                   ("[View Image Directly](" ++ ref_url v ++ ")")]
            end ++ [Frontend.StMarkdown (caption_markdown v)])%list
         vizs.
Proof.
  intros Hne Ha Hok.
  set (T := answer ++ NL ++ NL ++ "## Visualizations" ++ NL ++ NL).
  set (B := String.concat "" (map viz_block vizs)).
  assert (Hr : answer ++ visualizations_section vizs = T ++ B).
  { destruct vizs as [|v vs]; [congruence|].
    unfold visualizations_section, T, B. now rewrite !append_assoc. }
  assert (HT : PyStr.contains "![" T = false).
  { unfold T. apply no_image_app; [exact Ha | reflexivity | reflexivity]. }
  assert (Hsplit : Frontend.re_split Frontend.segment_re (T ++ B)
                   = T :: flat_map
                            (fun v => [image_markdown v; caption_markdown v])
                            vizs).
  { unfold Frontend.re_split.
    rewrite (split_from_text T B ""
               (flat_map (fun v => [image_markdown v; caption_markdown v])
                  vizs)).
    - now rewrite append_nil_r.
    - exact HT.
    - apply blocks_start.
    - now apply split_viz_blocks. }
  assert (Hmarks : PyStr.contains "![" (T ++ B) = true
                   /\ PyStr.contains "](" (T ++ B) = true).
  { destruct vizs as [|v vs]; [congruence|].
    unfold B. cbn [map]. rewrite string_concat_cons, viz_block_parts.
    unfold image_markdown. split; apply contains_spec.
    - exists T. eexists. rewrite !append_assoc. reflexivity.
    - exists (T ++ "![" ++ ref_title v). eexists.
      rewrite !append_assoc. reflexivity. }
  destruct Hmarks as [Hm1 Hm2].
  rewrite Hr. unfold Frontend.display_result.
  rewrite Hm1, Hm2, Hsplit. cbn [andb flat_map].
  rewrite (contains_false_startswith _ _ HT). cbn [app]. f_equal.
  rewrite flat_map_pairs. clear Hr Hsplit Hm1 Hm2 B Hne.
  induction vizs as [|v vs IH]; [reflexivity|].
  cbn [forallb] in Hok. apply andb_true_iff in Hok. destruct Hok as [Hv Hvs].
  cbn [flat_map]. rewrite (IH Hvs). f_equal.
  replace (PyStr.startswith "![" (image_markdown v)) with true by reflexivity.
  replace (PyStr.startswith "![" (caption_markdown v)) with false
    by reflexivity.
  now rewrite display_image.
Qed.

Lemma charts_are_drawn_witness :
  Frontend.display_result (Frontend.mkEnv (fun _ _ => Ret tt) (fun d => d))
    ("Report."
     ++ visualizations_section
          [mkVizRef "Key Metrics Time Series" "https://s3.example/ts.png"
             "Key Metrics Time Series - CLOSE, VOLUME"])
  = Frontend.StMarkdown
      ("Report." ++ NL ++ NL ++ "## Visualizations" ++ NL ++ NL)
    :: flat_map
         (fun v =>
            match Frontend.st_image
                    (Frontend.mkEnv (fun _ _ => Ret tt) (fun d => d))
                    (ref_url v) (ref_title v) with
            | Ret _ => [Frontend.StImage (ref_url v) (ref_title v)]
            | Raise e =>
                [Frontend.StError ("Failed to load visualization: " ++ e);
                 Frontend.StMarkdown
                   ("[View Image Directly](" ++ ref_url v ++ ")")]
            end ++ [Frontend.StMarkdown (caption_markdown v)])%list
         [mkVizRef "Key Metrics Time Series" "https://s3.example/ts.png"
            "Key Metrics Time Series - CLOSE, VOLUME"].
Proof.
  apply (charts_are_drawn (Frontend.mkEnv (fun _ _ => Ret tt) (fun d => d))
           "Report.").
  - discriminate.
  - reflexivity.
  - reflexivity.
Defined.
